(** * Multi-provider cost-data acquisition: a shallow embedding

    Source files modelled here:
    - [backend/app/services/data_acquisition.py]
      ([DataAcquisitionService.sync_all_providers], [_sync_aws_data],
      [_sync_azure_data], [_sync_gcp_data], [_process_and_store_cost_data]);
    - [backend/app/schemas/cost.py] ([CostDataBase], [CostDataCreate],
      [SyncResult]);
    - [backend/app/api/v1/endpoints/costs.py] ([sync_cost_data]);
    - [backend/app/services/aws_cost_explorer.py],
      [backend/app/services/azure_cost_management.py] and
      [backend/app/services/gcp_billing.py] (the request builders and the
      response processors of the three wire clients);
    - [backend/app/core/config.py] (the fields that [Settings] declares).

    Conventions.
    - Python [str] is [string]; [str.lower] acts on the ASCII letters, the
      only characters that can lower-case into 'aws', 'azure' or 'gcp'.
    - Python [int] is [Z]; a naive [datetime] is its number of microseconds
      since the epoch, also a [Z].
    - A Python [dict] with string keys that is only read is an association
      list (first binding wins); the [results] dictionary that
      [sync_all_providers] fills by assignment is a [gmap string _].
    - Effects are explicit: reading the clock ([datetime.utcnow]) and raising
      are carried by the monad [M]; the calls into the three wire clients,
      [datetime.fromisoformat], [datetime.isoformat] and the per-type
      validators of the schema library are parameters of the development.
    - Calls to the structured logger only append to the log; they return
      nothing and they do not raise, so they are left out. *)

From Stdlib Require Import ZArith String Ascii List Bool Lia.
From stdpp Require Import gmap strings list fin_maps pretty.

Local Open Scope string_scope.
Local Open Scope Z_scope.
Local Open Scope list_scope.

(** ** Python values *)

Module Py.

(** The values a raw cost record can hold. [PDecimal m e] stands for the
    [Decimal] of value [m * 10^e]. *)
#[warnings="-register-all"]
Inductive pyval : Type :=
| PNone
| PBool (b : bool)
| PInt (n : Z)
| PDecimal (mantissa exponent : Z)
| PStr (s : string)
| PDatetime (t : Z)
| PDict (d : list (string * pyval)).

Definition dict : Type := list (string * pyval).

(** [d.get(k)] seen as an option: the value bound to [k], if any. *)
Fixpoint lookup_key (d : dict) (k : string) : option pyval :=
  match d with
  | [] => None
  | (k', v) :: d' => if String.eqb k' k then Some v else lookup_key d' k
  end.

(** [d.get(k, dflt)] *)
Definition get (d : dict) (k : string) (dflt : pyval) : pyval :=
  match lookup_key d k with
  | Some v => v
  | None => dflt
  end.

(** Truth value of an object, as tested by [if x]. *)
Definition truthy (v : pyval) : bool :=
  match v with
  | PNone => false
  | PBool b => b
  | PInt n => negb (n =? 0)
  | PDecimal m _ => negb (m =? 0)
  | PStr s => negb (String.eqb s "")
  | PDatetime _ => true
  | PDict d => match d with [] => false | _ :: _ => true end
  end.

Definition ascii_lower (c : ascii) : ascii :=
  let n := nat_of_ascii c in
  if ((65 <=? n) && (n <=? 90))%nat then ascii_of_nat (n + 32) else c.

(** [s.lower()] *)
Fixpoint lower (s : string) : string :=
  match s with
  | EmptyString => EmptyString
  | String c s' => String (ascii_lower c) (lower s')
  end.

(** The exceptions that occur in the modelled code. [Raised] is any
    exception coming out of a wire client, with its [str()]. *)
Inductive exn : Type :=
| KeyError (key : string)
| AttributeError (msg : string)
| TypeError (msg : string)
| ValueError (msg : string)
| IndexError (msg : string)
| ValidationError (fields : list string)
| Raised (msg : string).

Definition join_fields (l : list string) : string :=
  List.fold_right (fun f acc => f +:+ ";" +:+ acc) "" l.

(** [str(e)] *)
Definition str (e : exn) : string :=
  match e with
  | KeyError k => "'" +:+ k +:+ "'"
  | AttributeError m | TypeError m | ValueError m | IndexError m | Raised m => m
  | ValidationError fs => "validation errors for CostDataCreate: " +:+ join_fields fs
  end.

End Py.
Import Py.

(** ** The world and the monad of effects *)

(** The only state of the outside world that the modelled code reads is the
    clock; [clock_reads] counts the readings taken so far. *)
Record World : Type := mkWorld { clock_reads : nat }.

Definition M (A : Type) : Type := World -> (exn + A) * World.

Definition ret {A} (a : A) : M A := fun w => (inr a, w).

Definition raise {A} (e : exn) : M A := fun w => (inl e, w).

Definition bind {A B} (c : M A) (k : A -> M B) : M B :=
  fun w =>
    match c w with
    | (inl e, w') => (inl e, w')
    | (inr a, w') => k a w'
    end.

(** [try: c  except Exception as e: h e] *)
Definition try_except {A} (c : M A) (h : exn -> M A) : M A :=
  fun w =>
    match c w with
    | (inl e, w') => h e w'
    | (inr a, w') => (inr a, w')
    end.

(** Lift a computation that may raise but reads no state. *)
Definition lift {A} (r : exn + A) : M A := fun w => (r, w).

Declare Scope py_scope.
Delimit Scope py_scope with py.
Notation "x <~ c ;; k" := (bind c (fun x => k))
  (at level 100, c at next level, right associativity) : py_scope.
Local Open Scope py_scope.

(** ** The schema of a cost record ([schemas/cost.py]) *)

Module Schema.

(** The annotations used by [CostDataBase]. *)
Inductive ftype : Type :=
| TStr
| TDecimal
| TDatetime
| TOptional (t : ftype)
| TDictStrStr.

(** A declared field. [fdefault = None] is [Field(...)], a required
    field; [Some d] is a field with default [d]. *)
Record field : Type := mkField {
  fname : string;
  ftyp : ftype;
  fdefault : option pyval
}.

(** [class CostDataBase(BaseModel)], in declaration order. *)
Definition CostDataBase : list field :=
  [ mkField "provider" TStr None;
    mkField "service" TStr None;
    mkField "resource_id" TStr None;
    mkField "resource_type" TStr None;
    mkField "region" TStr None;
    mkField "cost_amount" TDecimal None;
    mkField "cost_currency" TStr (Some (PStr "USD"));
    mkField "usage_quantity" (TOptional TDecimal) (Some PNone);
    mkField "usage_unit" (TOptional TStr) (Some PNone);
    mkField "tags" TDictStrStr (Some (PDict []));
    mkField "timestamp" TDatetime None ].

(** [class CostDataCreate(CostDataBase): pass] *)
Definition CostDataCreate_fields : list field := CostDataBase.

Section Construction.

(** The per-type validator of the schema library: [None] when the value
    is rejected, the (possibly coerced) value otherwise. *)
Variable validate : ftype -> pyval -> option pyval.

(** One field: a supplied keyword is validated against the annotation,
    an absent one takes the default or is reported as missing. *)
Definition check_field (kwargs : dict) (f : field) : string + (string * pyval) :=
  match lookup_key kwargs (fname f) with
  | Some v =>
      match validate (ftyp f) v with
      | Some v' => inr (fname f, v')
      | None => inl (fname f)
      end
  | None =>
      match fdefault f with
      | Some d => inr (fname f, d)
      | None => inl (fname f)
      end
  end.

(** All fields are checked; the errors are collected. Keywords that name
    no declared field are ignored. *)
Fixpoint check_fields (kwargs : dict) (fs : list field) : list string * dict :=
  match fs with
  | [] => ([], [])
  | f :: fs' =>
      let '(errs, vals) := check_fields kwargs fs' in
      match check_field kwargs f with
      | inl e => (e :: errs, vals)
      | inr kv => (errs, kv :: vals)
      end
  end.

(** Calling the model class with keyword arguments: the validated
    fields, or [ValidationError]. *)
Definition construct (fs : list field) (kwargs : dict) : exn + dict :=
  match check_fields kwargs fs with
  | ([], vals) => inr vals
  | (errs, _) => inl (ValidationError errs)
  end.

Definition CostDataCreate (kwargs : dict) : exn + dict :=
  construct CostDataCreate_fields kwargs.

End Construction.

End Schema.
Import Schema.

(** ** The acquisition service ([services/data_acquisition.py]) *)

(** An entry of [provider_results]: the dictionary returned by a pipeline,
    [{'status': 'success', 'records_processed': n, 'provider': p}], or the
    one built for a failed pipeline,
    [{'status': 'error', 'error': msg, 'records_processed': 0}]. *)
Record ProviderResult : Type := mkResult {
  r_status : string;
  r_records_processed : Z;
  r_provider : option string;
  r_error : option string
}.

(** The dictionary returned by [sync_all_providers]. *)
Record SyncReport : Type := mkReport {
  status : string;
  total_records_processed : Z;
  provider_results : gmap string ProviderResult;
  sync_period : string * string
}.

(** The coroutine objects that the first loop of [sync_all_providers]
    creates; none of them runs before [asyncio.gather]. *)
Inductive task : Type := SyncAws | SyncAzure | SyncGcp.

#[global] Instance task_eq_dec : EqDecision task.
Proof. solve_decision. Defined.

(** [timedelta(days=n)] in microseconds. *)
Definition timedelta_days (n : Z) : Z := n * 86400 * 1000000.

(** [l[i]] *)
Definition index {A} (l : list A) (i : nat) : exn + A :=
  match l !! i with
  | Some x => inr x
  | None => inl (IndexError "list index out of range")
  end.

(** [d[k]] *)
Definition subscript (d : dict) (k : string) : exn + pyval :=
  match lookup_key d k with
  | Some v => inr v
  | None => inl (KeyError k)
  end.

(** [o.get(k, dflt)] on an arbitrary object: only a mapping has [get]. *)
Definition call_get (o : pyval) (k : string) (dflt : pyval) : exn + pyval :=
  match o with
  | PDict d => inr (get d k dflt)
  | _ => inl (AttributeError "object has no attribute 'get'")
  end.

(** The keywords of the call [CostDataCreate(...)] in
    [_process_and_store_cost_data], with the values they receive. *)
Definition keyword_arguments (provider : string)
    (service region resource_id cost_amount cost_currency usage_quantity
     usage_unit : pyval) (start_date end_date : Z) (tags : pyval)
    (item : dict) (processed_at : string) : dict :=
  [ ("provider", PStr provider);
    ("service", service);
    ("region", region);
    ("resource_id", resource_id);
    ("cost_amount", cost_amount);
    ("cost_currency", cost_currency);
    ("usage_quantity", usage_quantity);
    ("usage_unit", usage_unit);
    ("start_date", PDatetime start_date);
    ("end_date", PDatetime end_date);
    ("tags", tags);
    ("metadata", PDict [ ("raw_data", PDict item);
                         ("processed_at", PStr processed_at) ]) ].

(** What the service takes from outside the repository. *)
Record Environment : Type := mkEnv {
  (** the [n]-th value returned by [datetime.utcnow()] *)
  utcnow_reading : nat -> Z;
  (** [datetime.fromisoformat]; [None] when it raises [ValueError] *)
  fromisoformat : string -> option Z;
  (** [datetime.isoformat] *)
  isoformat : Z -> string;
  (** the per-type validator of the schema library *)
  validate : ftype -> pyval -> option pyval;
  (** the three wire clients, [aws_cost_service.get_cost_and_usage],
      [azure_cost_service.get_cost_data] and
      [gcp_billing_service.get_cost_data]: what the call made by the [n]-th
      launched pipeline for the window [start_date, end_date] does, raise or
      return raw records *)
  aws_get_cost_and_usage : nat -> Z -> Z -> exn + list dict;
  azure_get_cost_data : nat -> Z -> Z -> exn + list dict;
  gcp_get_cost_data : nat -> Z -> Z -> exn + list dict
}.

Section Acquisition.

Variable env : Environment.

(** [datetime.utcnow()] *)
Definition utcnow : M Z :=
  fun w => (inr (utcnow_reading env (clock_reads w)), mkWorld (S (clock_reads w))).

(** [datetime.fromisoformat(v)]. The message of the [ValueError] shows the
    rejected text between quotes (its [repr], for a text without quote,
    backslash or control character). *)
Definition call_fromisoformat (v : pyval) : exn + Z :=
  match v with
  | PStr s =>
      match fromisoformat env s with
      | Some t => inr t
      | None => inl (ValueError ("Invalid isoformat string: '" +:+ s +:+ "'"))
      end
  | _ => inl (TypeError "fromisoformat: argument must be str")
  end.

(** [datetime.fromisoformat(item[k]) if item.get(k) else datetime.utcnow()] *)
Definition date_or_now (item : dict) (k : string) : M Z :=
  if truthy (get item k PNone) then
    v <~ lift (subscript item k) ;;
    lift (call_fromisoformat v)
  else utcnow.

(** The arguments of that call, evaluated left to right. *)
Definition cost_record_arguments (item : dict) (provider : string) : M dict :=
  service <~ lift (call_get (get item "dimensions" (PDict [])) "service" (PStr "Unknown")) ;;
  region <~ lift (call_get (get item "dimensions" (PDict [])) "region" (PStr "Unknown")) ;;
  resource_id <~ lift (call_get (get item "dimensions" (PDict [])) "resource_id" PNone) ;;
  cost_amount <~ lift (subscript item "cost_amount") ;;
  cost_currency <~ lift (subscript item "cost_currency") ;;
  let usage_quantity := get item "usage_quantity" PNone in
  let usage_unit := get item "usage_unit" PNone in
  start_date <~ date_or_now item "start_date" ;;
  end_date <~ date_or_now item "end_date" ;;
  let tags := get item "dimensions" (PDict []) in
  processed_at <~ utcnow ;;
  ret (keyword_arguments provider service region resource_id cost_amount
         cost_currency usage_quantity usage_unit start_date end_date tags
         item (isoformat env processed_at)).

(** The body of the [try] in the loop: build the arguments, construct the
    record. *)
Definition normalize (item : dict) (provider : string) : M dict :=
  kwargs <~ cost_record_arguments item provider ;;
  lift (CostDataCreate (validate env) kwargs).

(** The loop of [_process_and_store_cost_data], with the running
    [processed_count]. *)
Fixpoint process_items (raw_cost_data : list dict) (provider : string)
    (processed_count : Z) : M Z :=
  match raw_cost_data with
  | [] => ret processed_count
  | item :: rest =>
      processed_count' <~
        try_except
          (cost_record <~ normalize item provider ;; ret (processed_count + 1))
          (fun e => ret processed_count) ;;
      process_items rest provider processed_count'
  end.

Definition _process_and_store_cost_data (raw_cost_data : list dict)
    (provider : string) : M Z :=
  process_items raw_cost_data provider 0.

(** The three pipelines. Their [except] clause logs and re-raises. *)
Definition _sync_aws_data (call : nat) (start_date end_date : Z) : M ProviderResult :=
  try_except
    (cost_data <~ lift (aws_get_cost_and_usage env call start_date end_date) ;;
     processed_records <~ _process_and_store_cost_data cost_data "aws" ;;
     ret (mkResult "success" processed_records (Some "aws") None))
    (fun e => raise e).

Definition _sync_azure_data (call : nat) (start_date end_date : Z) : M ProviderResult :=
  try_except
    (cost_data <~ lift (azure_get_cost_data env call start_date end_date) ;;
     processed_records <~ _process_and_store_cost_data cost_data "azure" ;;
     ret (mkResult "success" processed_records (Some "azure") None))
    (fun e => raise e).

Definition _sync_gcp_data (call : nat) (start_date end_date : Z) : M ProviderResult :=
  try_except
    (cost_data <~ lift (gcp_get_cost_data env call start_date end_date) ;;
     processed_records <~ _process_and_store_cost_data cost_data "gcp" ;;
     ret (mkResult "success" processed_records (Some "gcp") None))
    (fun e => raise e).

(** The first loop of [sync_all_providers]: one task per recognized name,
    in the order of the request; an unknown name is skipped. *)
Fixpoint create_tasks (providers : list string) : list task :=
  match providers with
  | [] => []
  | provider :: rest =>
      if String.eqb (lower provider) "aws" then SyncAws :: create_tasks rest
      else if String.eqb (lower provider) "azure" then SyncAzure :: create_tasks rest
      else if String.eqb (lower provider) "gcp" then SyncGcp :: create_tasks rest
      else create_tasks rest
  end.

Definition run_task (call : nat) (t : task) (start_date end_date : Z) : M ProviderResult :=
  match t with
  | SyncAws => _sync_aws_data call start_date end_date
  | SyncAzure => _sync_azure_data call start_date end_date
  | SyncGcp => _sync_gcp_data call start_date end_date
  end.

(** [asyncio.gather] with [return_exceptions=True]: every task runs to its
    end, and what it returns or raises is collected at its position. The
    pipelines share nothing but the clock, whose readings are arbitrary,
    so running them in launch order loses no behaviour. *)
Fixpoint gather (call : nat) (tasks : list task) (start_date end_date : Z)
    : M (list (exn + ProviderResult)) :=
  match tasks with
  | [] => ret []
  | t :: rest =>
      fun w =>
        let '(result, w') := run_task call t start_date end_date w in
        (results <~ gather (S call) rest start_date end_date ;;
         ret (result :: results)) w'
  end.

(** The second loop: [for i, result in enumerate(completed_results)]. *)
Fixpoint process_results (i : nat) (providers : list string)
    (completed_results : list (exn + ProviderResult))
    (results : gmap string ProviderResult) : M (gmap string ProviderResult) :=
  match completed_results with
  | [] => ret results
  | result :: rest =>
      provider <~ lift (index providers i) ;;
      let results' :=
        match result with
        | inl e => <[provider := mkResult "error" 0 None (Some (str e))]> results
        | inr r => <[provider := r]> results
        end in
      process_results (S i) providers rest results'
  end.

(** [sum(r.get('records_processed', 0) for r in results.values())] *)
Definition sum_records_processed (results : gmap string ProviderResult) : Z :=
  map_fold (fun _ r acc => r_records_processed r + acc) 0 results.

Definition sync_all_providers (start_date end_date : option Z)
    (providers : option (list string)) : M SyncReport :=
  start_date <~
    match start_date with
    | None => now <~ utcnow ;; ret (now - timedelta_days 30)
    | Some d => ret d
    end ;;
  end_date <~
    match end_date with
    | None => utcnow
    | Some d => ret d
    end ;;
  let providers :=
    match providers with
    | None => ["aws"; "azure"; "gcp"]
    | Some l => l
    end in
  let tasks := create_tasks providers in
  completed_results <~ gather 0 tasks start_date end_date ;;
  results <~ process_results 0 providers completed_results ∅ ;;
  let total_records := sum_records_processed results in
  ret (mkReport "completed" total_records results
         (isoformat env start_date, isoformat env end_date)).

End Acquisition.

(** ** A concrete environment for the examples *)

Module Fixture.

(** Proleptic Gregorian calendar: the civil date of a day number counted
    from 1970-01-01, and back. *)
Definition civil_from_days (days : Z) : Z * Z * Z :=
  let z := days + 719468 in
  let era := z / 146097 in
  let doe := z - era * 146097 in
  let yoe := (doe - doe / 1460 + doe / 36524 - doe / 146096) / 365 in
  let doy := doe - (365 * yoe + yoe / 4 - yoe / 100) in
  let mp := (5 * doy + 2) / 153 in
  let d := doy - (153 * mp + 2) / 5 + 1 in
  let m := if mp <? 10 then mp + 3 else mp - 9 in
  let y := yoe + era * 400 in
  (if m <=? 2 then y + 1 else y, m, d).

Definition days_from_civil (y m d : Z) : Z :=
  let y' := if m <=? 2 then y - 1 else y in
  let era := y' / 400 in
  let yoe := y' - era * 400 in
  let mp := (m + 9) mod 12 in
  let doy := (153 * mp + 2) / 5 + d - 1 in
  let doe := yoe * 365 + yoe / 4 - yoe / 100 + doy in
  era * 146097 + doe - 719468.

Definition digit (n : Z) : ascii := ascii_of_nat (48 + Z.to_nat (n mod 10)).

Fixpoint digits (width : nat) (n : Z) (acc : string) : string :=
  match width with
  | O => acc
  | S width' => digits width' (n / 10) (String (digit n) acc)
  end.

(** 'YYYY-MM-DDTHH:MM:SS', followed by '.ffffff' when the microseconds
    are not zero. *)
Definition isoformat (t : Z) : string :=
  let us := t mod 1000000 in
  let s := t / 1000000 in
  let '(y, m, d) := civil_from_days (s / 86400) in
  let sod := s mod 86400 in
  digits 4 y "" +:+ "-" +:+ digits 2 m "" +:+ "-" +:+ digits 2 d "" +:+ "T" +:+
  digits 2 (sod / 3600) "" +:+ ":" +:+ digits 2 (sod / 60 mod 60) "" +:+ ":" +:+
  digits 2 (sod mod 60) "" +:+
  (if us =? 0 then "" else "." +:+ digits 6 us "").

Definition digit_value (c : ascii) : option Z :=
  let n := nat_of_ascii c in
  if ((48 <=? n) && (n <=? 57))%nat then Some (Z.of_nat (n - 48)) else None.

Fixpoint number (s : list ascii) (acc : Z) : option Z :=
  match s with
  | [] => Some acc
  | c :: s' =>
      match digit_value c with
      | Some v => number s' (10 * acc + v)
      | None => None
      end
  end.

(** The date-only form 'YYYY-MM-DD', which is what the wire clients put in
    [start_date] and [end_date]; any other string is rejected here. *)
Definition fromisoformat (s : string) : option Z :=
  match list_ascii_of_string s with
  | [y1; y2; y3; y4; "-"%char; m1; m2; "-"%char; d1; d2] =>
      match number [y1; y2; y3; y4] 0, number [m1; m2] 0, number [d1; d2] 0 with
      | Some y, Some m, Some d =>
          if (1 <=? y) && (1 <=? m) && (m <=? 12) && (1 <=? d)
             && (days_from_civil y m d <? days_from_civil (y + m / 12) (m mod 12 + 1) 1)
          then Some (days_from_civil y m d * 86400 * 1000000)
          else None
      | _, _, _ => None
      end
  | _ => None
  end.

(** A validator without coercions. *)
Fixpoint validate (t : ftype) (v : pyval) : option pyval :=
  match t, v with
  | TStr, PStr _ => Some v
  | TDecimal, PDecimal _ _ => Some v
  | TDecimal, PInt n => Some (PDecimal n 0)
  | TDatetime, PDatetime _ => Some v
  | TOptional _, PNone => Some v
  | TOptional t', _ => validate t' v
  | TDictStrStr, PDict d =>
      if forallb (fun kv => match snd kv with PStr _ => true | _ => false end) d
      then Some v else None
  | _, _ => None
  end.

(** The clock starts on 2024-03-01T12:00:00 and advances by one
    microsecond at each reading. *)
Definition utcnow_reading (n : nat) : Z := 1709294400000000 + Z.of_nat n.

(** A record with every key that the wire clients emit, in the shape
    [AWSCostExplorerService._process_cost_response] gives it. *)
Definition complete_record : dict :=
  [ ("start_date", PStr "2024-01-01");
    ("end_date", PStr "2024-01-02");
    ("cost_amount", PDecimal 125 (-1));
    ("cost_currency", PStr "USD");
    ("usage_quantity", PDecimal 3 0);
    ("usage_unit", PStr "Hrs");
    ("dimensions", PDict [ ("service", PStr "SERVICE$EC2");
                           ("region", PStr "REGION$us-east-1") ]) ].

(** A record that has a cost amount and nothing else. *)
Definition bare_record : dict := [ ("cost_amount", PDecimal 125 (-1)) ].

(** A record whose start date is not an ISO date. *)
Definition misdated_record : dict :=
  [ ("start_date", PStr "yesterday");
    ("cost_amount", PDecimal 125 (-1));
    ("cost_currency", PStr "USD") ].

(** A record without date, currency present. *)
Definition undated_record : dict :=
  [ ("cost_amount", PDecimal 125 (-1)); ("cost_currency", PStr "USD") ].

Definition returns (raw : list dict) : nat -> Z -> Z -> exn + list dict :=
  fun _ _ _ => inr raw.

Definition fails (msg : string) : nat -> Z -> Z -> exn + list dict :=
  fun _ _ _ => inl (Raised msg).

(** Every wire client answers: three records from AWS, one from each of
    the others. *)
Definition healthy : Environment :=
  mkEnv utcnow_reading fromisoformat isoformat validate
        (returns [complete_record; bare_record; undated_record])
        (returns [complete_record]) (returns [complete_record]).

(** The AWS client raises on every call. *)
Definition aws_down : Environment :=
  mkEnv utcnow_reading fromisoformat isoformat validate
        (fails "An error occurred (AccessDeniedException)")
        (returns [complete_record]) (returns [complete_record]).

(** The AWS client raises on its first call only. *)
Definition aws_flaky : Environment :=
  mkEnv utcnow_reading fromisoformat isoformat validate
        (fun call _ _ => match call with
                         | O => inl (Raised "Throttling")
                         | S _ => inr [complete_record]
                         end)
        (returns [complete_record]) (returns [complete_record]).

Definition w0 : World := mkWorld 0.

(** A record that names its resource, service and region, with every other
    key that the normalization reads. *)
Definition resource_record : dict :=
  [ ("start_date", PStr "2024-01-01");
    ("end_date", PStr "2024-01-02");
    ("cost_amount", PDecimal 125 (-1));
    ("cost_currency", PStr "USD");
    ("usage_quantity", PDecimal 3 0);
    ("usage_unit", PStr "Hrs");
    ("dimensions", PDict [ ("resource_id", PStr "vm-resource-01");
                           ("service", PStr "Compute service");
                           ("region", PStr "location-eastus") ]) ].

(** The Azure client returns this one record. *)
Definition one_resource : Environment :=
  mkEnv utcnow_reading fromisoformat isoformat validate
        (returns [complete_record]) (returns [resource_record])
        (returns [complete_record]).

End Fixture.

(** ** Notions used in the statements *)

(** The task that the first loop of [sync_all_providers] creates for a
    requested name, if it creates one. *)
Definition task_for (name : string) : option task :=
  if String.eqb (lower name) "aws" then Some SyncAws
  else if String.eqb (lower name) "azure" then Some SyncAzure
  else if String.eqb (lower name) "gcp" then Some SyncGcp
  else None.

Arguments task_for : simpl never.

Definition recognized (name : string) : Prop := is_Some (task_for name).

(** The provider tag a pipeline works under. *)
Definition task_name (t : task) : string :=
  match t with
  | SyncAws => "aws"
  | SyncAzure => "azure"
  | SyncGcp => "gcp"
  end.

(** The wire client a pipeline calls. *)
Definition fetch (env : Environment) (t : task) : nat -> Z -> Z -> exn + list dict :=
  match t with
  | SyncAws => aws_get_cost_and_usage env
  | SyncAzure => azure_get_cost_data env
  | SyncGcp => gcp_get_cost_data env
  end.

(** Whether the normalization of a raw record raises. The clock has no
    part in it ([normalize_fails_iff] below), so it is read off one run. *)
Definition normalization_fails (env : Environment) (provider : string)
    (item : dict) : bool :=
  match normalize env item provider (mkWorld 0) with
  | (inl _, _) => true
  | (inr _, _) => false
  end.

(** K: the number of raw records whose normalization raises. *)
Definition failures (env : Environment) (provider : string) (raw : list dict) : nat :=
  length (List.filter (normalization_fails env provider) raw).

(** What a pipeline ends with: the exception of its wire client, or the
    success dictionary with N - K records. *)
Definition pipeline_outcome (env : Environment) (call : nat) (t : task)
    (start_date end_date : Z) : exn + ProviderResult :=
  match fetch env t call start_date end_date with
  | inl e => inl e
  | inr raw =>
      inr (mkResult "success"
             (Z.of_nat (length raw) - Z.of_nat (failures env (task_name t) raw))
             (Some (task_name t)) None)
  end.

(** The entry written for a collected outcome by the second loop. *)
Definition entry (o : exn + ProviderResult) : ProviderResult :=
  match o with
  | inl e => mkResult "error" 0 None (Some (str e))
  | inr r => r
  end.

(** [results[name] = ...] *)
Definition store (results : gmap string ProviderResult)
    (kv : string * (exn + ProviderResult)) : gmap string ProviderResult :=
  <[kv.1 := entry kv.2]> results.

(** The outcomes of the launched pipelines, in launch order. *)
Definition outcomes (env : Environment) (providers : list string)
    (start_date end_date : Z) : list (exn + ProviderResult) :=
  imap (fun call t => pipeline_outcome env call t start_date end_date)
       (create_tasks providers).

(** The dictionary that the second loop leaves: the outcomes stored, in
    order, under the names found at their positions in the request. *)
Definition stored_results (env : Environment) (providers : list string)
    (start_date end_date : Z) : gmap string ProviderResult :=
  foldl store ∅ (zip providers (outcomes env providers start_date end_date)).

(** The window a call works with: an absent bound is read off the clock. *)
Definition window_start (env : Environment) (start_date : option Z) (w : World) : Z :=
  match start_date with
  | Some d => d
  | None => utcnow_reading env (clock_reads w) - timedelta_days 30
  end.

Definition window_end (env : Environment) (start_date end_date : option Z)
    (w : World) : Z :=
  match end_date with
  | Some d => d
  | None =>
      match start_date with
      | Some _ => utcnow_reading env (clock_reads w)
      | None => utcnow_reading env (S (clock_reads w))
      end
  end.

Definition requested (providers : option (list string)) : list string :=
  match providers with
  | None => ["aws"; "azure"; "gcp"]
  | Some l => l
  end.

(** Whether the stored value of a date key is one that
    [datetime.fromisoformat] is called on and rejects. *)
Definition date_rejected (env : Environment) (item : dict) (k : string) : bool :=
  truthy (get item k PNone) &&
  match call_fromisoformat env (get item k PNone) with
  | inl _ => true
  | inr _ => false
  end.

(** The date an argument receives when its expression is evaluated in the
    world [w], and the world after: the parsed stored value, or the reading
    of the clock. *)
Inductive date_taken (env : Environment) (item : dict) (k : string) (w : World)
    : Z -> World -> Prop :=
| date_parsed t :
    truthy (get item k PNone) = true ->
    call_fromisoformat env (get item k PNone) = inr t ->
    date_taken env item k w t w
| date_read :
    truthy (get item k PNone) = false ->
    date_taken env item k w (utcnow_reading env (clock_reads w))
               (mkWorld (S (clock_reads w))).

(** Whether [item.get('dimensions', {})] is a mapping. *)
Definition dimensions_usable (item : dict) : bool :=
  match get item "dimensions" (PDict []) with
  | PDict _ => true
  | _ => false
  end.

(** The sum of [records_processed] over the entries of a dictionary. *)
Definition sum_over_entries (results : gmap string ProviderResult) : Z :=
  foldr Z.add 0 (r_records_processed <$> (map_to_list results).*2).

(** What [sync_all_providers] does once [gather] has returned (lines 72 to
    96), as a function of the names requested and of the outcomes
    collected: the second loop, the total, the report. *)
Definition report_of (env : Environment) (providers : list string)
    (completed_results : list (exn + ProviderResult)) (start_date end_date : Z)
    : M SyncReport :=
  results <~ process_results 0 providers completed_results ∅ ;;
  let total_records := sum_records_processed results in
  ret (mkReport "completed" total_records results
         (isoformat env start_date, isoformat env end_date)).

(** ** The endpoint that triggers a synchronization
    ([api/v1/endpoints/costs.py]) *)

(** [schemas.SyncResult], the response model of [POST /sync]. *)
Record SyncResult : Type := mkSyncResult {
  sr_provider : string;
  sr_status : string;
  sr_records_processed : Z;
  sr_message : string;
  sr_timestamp : Z
}.

Module Endpoint.

(** The call [schemas.SyncResult(provider=..., status=...,
    records_processed=..., message=...)]: the timestamp is left to its
    [default_factory], [datetime.utcnow]. *)
Definition new_SyncResult (env : Environment) (provider status : string)
    (records_processed : Z) (message : string) : M SyncResult :=
  timestamp <~ utcnow env ;;
  ret (mkSyncResult provider status records_processed message timestamp).

(** [provider_result.get('status', 'error')], where [provider_result] is
    [sync_result['provider_results'].get(provider, {})]. *)
Definition status_or_error (provider_result : option ProviderResult) : string :=
  match provider_result with
  | Some r => r_status r
  | None => "error"
  end.

(** [provider_result.get('records_processed', 0)] *)
Definition records_or_zero (provider_result : option ProviderResult) : Z :=
  match provider_result with
  | Some r => r_records_processed r
  | None => 0
  end.

(** [provider_result.get('error', 'Sync completed successfully')] *)
Definition error_or_success (provider_result : option ProviderResult) : string :=
  match provider_result with
  | Some r =>
      match r_error r with
      | Some msg => msg
      | None => "Sync completed successfully"
      end
  | None => "Sync completed successfully"
  end.

(** [sync_cost_data(provider, start_date, end_date)]; the database session
    it receives is not used. *)
Definition sync_cost_data (env : Environment) (provider : string)
    (start_date end_date : option Z) : M SyncResult :=
  try_except
    (if String.eqb (lower provider) "all" then
       sync_result <~ sync_all_providers env start_date end_date None ;;
       new_SyncResult env "all" (status sync_result)
         (total_records_processed sync_result)
         ("Multi-provider sync completed: "
          +:+ pretty (total_records_processed sync_result)
          +:+ " records processed")
     else
       sync_result <~ sync_all_providers env start_date end_date (Some [provider]) ;;
       let provider_result := provider_results sync_result !! provider in
       new_SyncResult env provider
         (status_or_error provider_result)
         (records_or_zero provider_result)
         (error_or_success provider_result))
    (fun e => new_SyncResult env provider "error" 0 ("Sync failed: " +:+ str e)).

End Endpoint.

(** ** What the wire clients share *)

(** Computations that may raise and touch no state. *)
Definition and_then {A B} (r : exn + A) (k : A -> exn + B) : exn + B :=
  match r with
  | inl e => inl e
  | inr a => k a
  end.

Notation "x <-- c ;; k" := (and_then c (fun x => k))
  (at level 100, c at next level, right associativity) : py_scope.

(** [needle in hay], for two strings. *)
Fixpoint contains (needle hay : string) : bool :=
  String.prefix needle hay ||
  match hay with
  | EmptyString => false
  | String _ hay' => contains needle hay'
  end.

(** [o[k]] for a string key [k]: only a mapping can be subscripted by a
    string. *)
Definition getitem (o : pyval) (k : string) : exn + pyval :=
  match o with
  | PDict d => subscript d k
  | _ => inl (TypeError "object is not subscriptable by a string")
  end.

(** [k in o] for a string [k]: a key of a mapping, a substring of a string;
    the other values are not containers. *)
Definition has_member (k : string) (o : pyval) : exn + bool :=
  match o with
  | PDict d => inr (match lookup_key d k with Some _ => true | None => false end)
  | PStr s => inr (contains k s)
  | _ => inl (TypeError "argument is not iterable")
  end.

(** [d[k] = v]: the binding of [k] is replaced where it stands, or added
    at the end. *)
Fixpoint set_key (d : dict) (k : string) (v : pyval) : dict :=
  match d with
  | [] => [(k, v)]
  | (k', v') :: d' =>
      if String.eqb k' k then (k, v) :: d' else (k', v') :: set_key d' k v
  end.

(** A Python [float], known by its [repr]. *)
Record pyfloat : Type := mkFloat { float_repr : string }.

(** [bool(x)] for a float: false for the two zeros. *)
Definition float_truthy (x : pyfloat) : bool :=
  negb (String.eqb (float_repr x) "0.0" || String.eqb (float_repr x) "-0.0").

(** What the wire clients take from the standard library. *)
Record Library : Type := mkLibrary {
  (** [decimal.Decimal(v)] *)
  Decimal : pyval -> exn + pyval;
  (** [d.strftime('%Y-%m-%d')] *)
  strftime_date : Z -> string;
  (** [d.strftime('%Y-%m-%dT%H:%M:%SZ')] *)
  strftime_utc : Z -> string;
  (** [d.isoformat()] for a [datetime.date], given as a day number *)
  date_isoformat : Z -> string
}.

(** ** The fields of the settings ([core/config.py]) *)

Module Config.

(** The fields that [class Settings] declares. *)
Definition declared_fields : list string :=
  [ "PROJECT_NAME"; "API_V1_STR";
    "SERVER_NAME"; "SERVER_HOST"; "SERVER_PORT";
    "BACKEND_CORS_ORIGINS";
    "DATABASE_URL"; "DYNAMODB_TABLE_PREFIX"; "AWS_REGION";
    "REDIS_URL";
    "SECRET_KEY"; "ACCESS_TOKEN_EXPIRE_MINUTES";
    "AWS_ACCESS_KEY_ID"; "AWS_SECRET_ACCESS_KEY";
    "AZURE_CLIENT_ID"; "AZURE_CLIENT_SECRET"; "AZURE_TENANT_ID";
    "GOOGLE_CLOUD_PROJECT"; "GOOGLE_APPLICATION_CREDENTIALS";
    "SMTP_TLS"; "SMTP_PORT"; "SMTP_HOST"; "SMTP_USER"; "SMTP_PASSWORD";
    "EMAILS_FROM_EMAIL"; "EMAILS_FROM_NAME";
    "LOG_LEVEL";
    "ENABLE_ANALYTICS"; "ENABLE_OPTIMIZATION"; "ENABLE_ALERTS" ].

(** An instance of [Settings] over values of type [V]: it has a value for
    each declared field and for no other name. *)
Definition is_settings {V} (settings : gmap string V) : Prop :=
  dom settings = list_to_set declared_fields.

(** [getattr(settings, name, None)]: [None] is the default. *)
Definition getattr {V} (settings : gmap string V) (name : string) : option V :=
  settings !! name.

End Config.

(** ** The AWS wire client ([services/aws_cost_explorer.py]) *)

Module Aws.

(** A filter expression of Cost Explorer: [{}], [{'Dimensions': {'Key': k,
    'Values': v}}] or [{'And': [...]}]. *)
#[warnings="-register-all"]
Inductive Expression : Type :=
| NoExpression
| Dimensions (key : string) (values : list string)
| And (operands : list Expression).

(** Truth value of the dictionary of an expression. *)
Definition expression_truthy (e : Expression) : bool :=
  match e with
  | NoExpression => false
  | _ => true
  end.

(** [_build_filter_expression(filters)] *)
Definition _build_filter_expression (filters : gmap string (list string)) : Expression :=
  let filter_expression :=
    match filters !! "services" with
    | Some values => Dimensions "SERVICE" values
    | None => NoExpression
    end in
  match filters !! "regions" with
  | Some values =>
      if expression_truthy filter_expression
      then And [filter_expression; Dimensions "REGION" values]
      else Dimensions "REGION" values
  | None => filter_expression
  end.

(** The keyword arguments of [client.get_cost_and_usage]. [Filter] is
    [None] when the key is not set. *)
Record Params : Type := mkParams {
  TimePeriod : string * string;
  Granularity : string;
  Metrics : list string;
  GroupBy : list (string * string);
  Filter : option Expression
}.

(** The parameters that [get_cost_and_usage] builds. *)
Definition build_params (lib : Library) (start_date end_date : Z)
    (granularity : string) (group_by : option (list string))
    (filter_dimensions : option (gmap string (list string))) : Params :=
  let group :=
    match group_by with
    | Some (d :: ds) => List.map (fun dimension => ("DIMENSION", dimension)) (d :: ds)
    | _ => []
    end in
  let filter :=
    match filter_dimensions with
    | Some filters =>
        if decide (filters = ∅) then None
        else Some (_build_filter_expression filters)
    | None => None
    end in
  mkParams (strftime_date lib start_date, strftime_date lib end_date)
           granularity ["BlendedCost"; "UsageQuantity"] group filter.

(** The parts of a response that [_process_cost_response] reads. A key
    that is absent is [None]. *)
Record Group : Type := mkGroup {
  Keys : option (list pyval);
  GroupMetrics : option pyval
}.

Record ResultByTime : Type := mkResultByTime {
  ResultTimePeriod : option pyval;
  Groups : option (list Group)
}.

Record Response : Type := mkResponse {
  ResultsByTime : option (list ResultByTime)
}.

(** [response.get('ResultsByTime', [])], [result.get('Groups', [])] and
    [group.get('Keys', [])] *)
Definition results_of (response : Response) : list ResultByTime :=
  match ResultsByTime response with
  | Some results => results
  | None => []
  end.

Definition groups_of (result : ResultByTime) : list Group :=
  match Groups result with
  | Some groups => groups
  | None => []
  end.

Definition keys_of (g : Group) : list pyval :=
  match Keys g with
  | Some keys => keys
  | None => []
  end.

(** One turn of the loop over the keys of a group. *)
Definition add_dimension (dimensions : dict) (dimension : pyval) : exn + dict :=
  is_service <-- has_member "SERVICE" dimension ;;
  if is_service then inr (set_key dimensions "service" dimension)
  else
    is_region <-- has_member "REGION" dimension ;;
    if is_region then inr (set_key dimensions "region" dimension)
    else
      is_az <-- has_member "AZ" dimension ;;
      if is_az then inr (set_key dimensions "availability_zone" dimension)
      else inr dimensions.

Fixpoint add_dimensions (dimensions : dict) (keys : list pyval) : exn + dict :=
  match keys with
  | [] => inr dimensions
  | dimension :: rest =>
      dimensions' <-- add_dimension dimensions dimension ;;
      add_dimensions dimensions' rest
  end.

(** [group['Metrics']] *)
Definition metrics_of (g : Group) : exn + pyval :=
  match GroupMetrics g with
  | Some m => inr m
  | None => inl (KeyError "Metrics")
  end.

(** The body of the loop over the groups: the record of one group. *)
Definition cost_data_of (lib : Library) (start_date end_date : pyval) (g : Group)
    : exn + dict :=
  metrics <-- metrics_of g ;;
  blended <-- getitem metrics "BlendedCost" ;;
  amount <-- getitem blended "Amount" ;;
  cost_amount <-- Decimal lib amount ;;
  cost_currency <-- getitem blended "Unit" ;;
  has_usage <-- has_member "UsageQuantity" metrics ;;
  usage_quantity <--
    (if has_usage then
       usage <-- getitem metrics "UsageQuantity" ;;
       usage_amount <-- getitem usage "Amount" ;;
       Decimal lib usage_amount
     else inr PNone) ;;
  usage_unit <--
    (if has_usage then
       usage <-- getitem metrics "UsageQuantity" ;;
       getitem usage "Unit"
     else inr PNone) ;;
  dimensions <-- add_dimensions [] (keys_of g) ;;
  inr [ ("start_date", start_date);
        ("end_date", end_date);
        ("cost_amount", cost_amount);
        ("cost_currency", cost_currency);
        ("usage_quantity", usage_quantity);
        ("usage_unit", usage_unit);
        ("dimensions", PDict dimensions) ].

Fixpoint cost_data_of_groups (lib : Library) (start_date end_date : pyval)
    (groups : list Group) : exn + list dict :=
  match groups with
  | [] => inr []
  | g :: rest =>
      cost_data <-- cost_data_of lib start_date end_date g ;;
      more <-- cost_data_of_groups lib start_date end_date rest ;;
      inr (cost_data :: more)
  end.

(** [result['TimePeriod'][k]] *)
Definition period_bound (result : ResultByTime) (k : string) : exn + pyval :=
  match ResultTimePeriod result with
  | Some period => getitem period k
  | None => inl (KeyError "TimePeriod")
  end.

(** The body of the loop over the results by time. *)
Definition cost_data_of_result (lib : Library) (result : ResultByTime)
    : exn + list dict :=
  start_date <-- period_bound result "Start" ;;
  end_date <-- period_bound result "End" ;;
  cost_data_of_groups lib start_date end_date (groups_of result).

Fixpoint cost_data_of_results (lib : Library) (results : list ResultByTime)
    : exn + list dict :=
  match results with
  | [] => inr []
  | result :: rest =>
      here <-- cost_data_of_result lib result ;;
      more <-- cost_data_of_results lib rest ;;
      inr (here ++ more)
  end.

(** [_process_cost_response(response)] *)
Definition _process_cost_response (lib : Library) (response : Response)
    : exn + list dict :=
  cost_data_of_results lib (results_of response).

(** [get_cost_and_usage(start_date, end_date, granularity, group_by,
    filter_dimensions)], over what the call of the Cost Explorer client
    does with the parameters. Its [except] clause logs and re-raises. *)
Definition get_cost_and_usage (lib : Library) (client : Params -> exn + Response)
    (start_date end_date : Z) (granularity : string)
    (group_by : option (list string))
    (filter_dimensions : option (gmap string (list string))) : exn + list dict :=
  let params := build_params lib start_date end_date granularity group_by
                  filter_dimensions in
  response <-- client params ;;
  _process_cost_response lib response.

End Aws.

(** ** The Azure wire client ([services/azure_cost_management.py]) *)

Module Azure.

(** A filter of a Cost Management query: [{'Dimensions': {'Name': n,
    'Operator': o, 'Values': v}}] or [{'And': [...]}]. *)
#[warnings="-register-all"]
Inductive Expression : Type :=
| Dimensions (name operator : string) (values : list string)
| And (operands : list Expression).

(** [_build_filter_expression(filters)] *)
Definition _build_filter_expression (filters : gmap string (list string)) : Expression :=
  let filter_expression :=
    Dimensions "ResourceGroupName" "In"
      (match filters !! "resource_groups" with
       | Some values => values
       | None => []
       end) in
  match filters !! "services" with
  | Some values => And [filter_expression; Dimensions "ServiceName" "In" values]
  | None => filter_expression
  end.

(** The clauses that a filter requires together. *)
Definition operands (e : Expression) : list Expression :=
  match e with
  | And l => l
  | d => [d]
  end.

(** The payload of a query; the constant parts ([type], [timeframe],
    [aggregation]) are the same in every payload and are left out. [filter]
    is [None] when the key is not set. *)
Record Query : Type := mkQuery {
  period_from : string;
  period_to : string;
  granularity : string;
  grouping : list (string * string);
  filter : option Expression
}.

(** [_build_cost_query(start_date, end_date, granularity, group_by,
    filter_dimensions)] *)
Definition _build_cost_query (lib : Library) (start_date end_date : Z)
    (granularity : string) (group_by : option (list string))
    (filter_dimensions : option (gmap string (list string))) : Query :=
  let grouping :=
    match group_by with
    | Some (d :: ds) => List.map (fun dimension => ("Dimension", dimension)) (d :: ds)
    | _ => []
    end in
  let filter :=
    match filter_dimensions with
    | Some filters =>
        if decide (filters = ∅) then None
        else Some (_build_filter_expression filters)
    | None => None
    end in
  mkQuery (strftime_utc lib start_date) (strftime_utc lib end_date)
          granularity grouping filter.

(** A cell of a row of the response: a JSON scalar. *)
Inductive cell : Type :=
| CNull
| CBool (b : bool)
| CInt (n : Z)
| CFloat (x : pyfloat)
| CStr (s : string).

(** [str(c)] *)
Definition cell_str (c : cell) : string :=
  match c with
  | CNull => "None"
  | CBool true => "True"
  | CBool false => "False"
  | CInt n => pretty n
  | CFloat x => float_repr x
  | CStr s => s
  end.

(** [col and isinstance(col, str)]: the string of a non-empty string cell. *)
Definition nonempty_str (c : cell) : option string :=
  match c with
  | CStr s => if String.eqb s "" then None else Some s
  | _ => None
  end.

(** The dictionary that [_process_cost_response] builds for a row. A date
    that is [None] in the dictionary is [CNull] here. *)
Record CostData : Type := mkCostData {
  start_date : cell;
  end_date : cell;
  cost_amount : pyval;
  cost_currency : string;
  usage_quantity : pyval;
  usage_unit : pyval;
  dimensions : gmap string string
}.

(** One turn of the loop over the columns from the fourth on. *)
Definition add_column (dims : gmap string string) (col : cell) : gmap string string :=
  match nonempty_str col with
  | Some s =>
      if contains "resource" (lower s) then <["resource_id" := s]> dims
      else if contains "service" (lower s) then <["service" := s]> dims
      else if contains "location" (lower s) then <["region" := s]> dims
      else dims
  | None => dims
  end.

(** The body of the loop over the rows. *)
Definition cost_data_of (lib : Library) (row : list cell) : exn + CostData :=
  let start_date := match row !! 0%nat with Some c => c | None => CNull end in
  let end_date := match row !! 1%nat with Some c => c | None => CNull end in
  cost_amount <--
    match row !! 2%nat with
    | Some c => Decimal lib (PStr (cell_str c))
    | None => inr (PDecimal 0 0)
    end ;;
  let dims := foldl add_column ∅ (drop 3 row) in
  inr (mkCostData start_date end_date cost_amount "USD" PNone PNone dims).

Fixpoint cost_data_of_rows (lib : Library) (rows : list (list cell))
    : exn + list CostData :=
  match rows with
  | [] => inr []
  | row :: rest =>
      cost_data <-- cost_data_of lib row ;;
      more <-- cost_data_of_rows lib rest ;;
      inr (cost_data :: more)
  end.

(** The parts of the response that [_process_cost_response] reads:
    [data['properties']['rows']], each absent key being [None]. *)
Record Properties : Type := mkProperties { rows : option (list (list cell)) }.

Record Response : Type := mkResponse { properties : option Properties }.

(** [data.get('properties', {}).get('rows', [])] *)
Definition rows_of (data : Response) : list (list cell) :=
  match properties data with
  | Some p => match rows p with Some l => l | None => [] end
  | None => []
  end.

(** [_process_cost_response(data)] *)
Definition _process_cost_response (lib : Library) (data : Response)
    : exn + list CostData :=
  cost_data_of_rows lib (rows_of data).

(** The service object: the credentials and the cached token. *)
Record Service : Type := mkService {
  subscription_id : option string;
  client_id : option string;
  client_secret : option string;
  tenant_id : option string;
  access_token : pyval
}.

(** A value of type [Optional[str]] inside an f-string. *)
Definition interpolate (v : option string) : string :=
  match v with
  | Some s => s
  | None => "None"
  end.

(** The request for a token: the URL and the form data. *)
Record TokenRequest : Type := mkTokenRequest {
  token_url : string;
  grant_type : string;
  form_client_id : option string;
  form_client_secret : option string;
  scope : string
}.

(** What comes back from [requests.post]: [raise_for_status] raises or
    not, and [json()] raises or gives the body. *)
Record HttpResponse : Type := mkHttpResponse {
  status_error : option exn;
  json : exn + pyval
}.

(** The request for the costs: the URL, the token that follows 'Bearer '
    in the [Authorization] header, and the payload. *)
Record QueryRequest : Type := mkQueryRequest {
  query_url : string;
  bearer : pyval;
  payload : Query
}.

(** What comes back for it: [raise_for_status] raises or not, and [json()]
    raises or gives the body. *)
Record QueryResponse : Type := mkQueryResponse {
  query_status_error : option exn;
  query_json : exn + Response
}.

(** The network: the requests for a token sent so far and the answer that
    the [n]-th of them receives ([requests.post] raises, or returns a
    response); the same for the requests for the costs. *)
Record Network : Type := mkNetwork {
  sent : list TokenRequest;
  answer : nat -> TokenRequest -> exn + HttpResponse;
  queries : list QueryRequest;
  reply : nat -> QueryRequest -> exn + QueryResponse
}.

(** [__init__]: the credentials are read off the settings, a name that the
    settings do not have gives [None]; no token yet. [text] reads a value
    of the settings as an optional string. *)
Definition init {V} (text : V -> option string) (settings : gmap string V)
    : Service :=
  mkService (Config.getattr settings "AZURE_SUBSCRIPTION_ID" ≫= text)
            (Config.getattr settings "AZURE_CLIENT_ID" ≫= text)
            (Config.getattr settings "AZURE_CLIENT_SECRET" ≫= text)
            (Config.getattr settings "AZURE_TENANT_ID" ≫= text)
            PNone.

(** [_get_access_token()] on the service [svc]: the token or the exception,
    the service and the network afterwards. *)
Definition _get_access_token (svc : Service) (net : Network)
    : (exn + pyval) * Service * Network :=
  if truthy (access_token svc) then (inr (access_token svc), svc, net)
  else
    let request :=
      mkTokenRequest
        ("https://login.microsoftonline.com/" +:+ interpolate (tenant_id svc)
         +:+ "/oauth2/v2.0/token")
        "client_credentials" (client_id svc) (client_secret svc)
        "https://management.azure.com/.default" in
    let net' := mkNetwork (sent net ++ [request]) (answer net)
                          (queries net) (reply net) in
    let token :=
      response <-- answer net (length (sent net)) request ;;
      _ <-- match status_error response with
            | Some e => inl e
            | None => inr tt
            end ;;
      body <-- json response ;;
      getitem body "access_token" in
    match token with
    | inl e => (inl e, svc, net')
    | inr t =>
        (inr t,
         mkService (subscription_id svc) (client_id svc) (client_secret svc)
                   (tenant_id svc) t,
         net')
    end.

(** [n] calls of [_get_access_token] in a row: the results, the service
    and the network afterwards. *)
Fixpoint tokens (n : nat) (svc : Service) (net : Network)
    : list (exn + pyval) * Service * Network :=
  match n with
  | O => ([], svc, net)
  | S n' =>
      let '(r, svc1, net1) := _get_access_token svc net in
      let '(rs, svc2, net2) := tokens n' svc1 net1 in
      (r :: rs, svc2, net2)
  end.

(** The URL that [get_cost_data] posts to. *)
Definition cost_query_url (svc : Service) : string :=
  "https://management.azure.com" +:+ "/subscriptions/"
  +:+ interpolate (subscription_id svc)
  +:+ "/providers/Microsoft.CostManagement/query"
  +:+ "?api-version=" +:+ "2023-03-01".

(** [get_cost_data(start_date, end_date, granularity, group_by,
    filter_dimensions)]: the records or the exception, the service and the
    network afterwards. Its [except] clause logs and re-raises. *)
Definition get_cost_data (lib : Library) (svc : Service) (net : Network)
    (start_date end_date : Z) (granularity : string)
    (group_by : option (list string))
    (filter_dimensions : option (gmap string (list string)))
    : (exn + list CostData) * Service * Network :=
  let '(token, svc1, net1) := _get_access_token svc net in
  match token with
  | inl e => (inl e, svc1, net1)
  | inr token =>
      let url := cost_query_url svc1 in
      let query_payload :=
        _build_cost_query lib start_date end_date granularity group_by
          filter_dimensions in
      let request := mkQueryRequest url token query_payload in
      let net2 := mkNetwork (sent net1) (answer net1)
                            (queries net1 ++ [request]) (reply net1) in
      (response <-- reply net1 (length (queries net1)) request ;;
       _ <-- match query_status_error response with
             | Some e => inl e
             | None => inr tt
             end ;;
       data <-- query_json response ;;
       _process_cost_response lib data,
       svc1, net2)
  end.

End Azure.

(** ** The GCP wire client ([services/gcp_billing.py]) *)

Module Gcp.

(** A row of the result of the billing query, by the names that the query
    gives to its columns. A column that is NULL is [None]. *)
Record Row : Type := mkRow {
  usage_date : option Z;
  service : option string;
  region : option string;
  resource_name : option string;
  total_cost : option pyfloat;
  usage_amount : option pyfloat;
  usage_unit : option string
}.

(** A string or [None] as a value of a raw record. *)
Definition optional_str (v : option string) : pyval :=
  match v with
  | Some s => PStr s
  | None => PNone
  end.

(** [Decimal(str(x))] *)
Definition decimal_of_float (lib : Library) (x : pyfloat) : exn + pyval :=
  Decimal lib (PStr (float_repr x)).

(** The dictionary that [_process_billing_results] appends for a row. *)
Definition cost_data_of (lib : Library) (row : Row) : exn + dict :=
  let date :=
    match usage_date row with
    | Some d => PStr (date_isoformat lib d)
    | None => PNone
    end in
  cost_amount <--
    match total_cost row with
    | Some x => if float_truthy x then decimal_of_float lib x else inr (PDecimal 0 0)
    | None => inr (PDecimal 0 0)
    end ;;
  usage_quantity <--
    match usage_amount row with
    | Some x => if float_truthy x then decimal_of_float lib x else inr PNone
    | None => inr PNone
    end ;;
  inr [ ("start_date", date);
        ("end_date", date);
        ("cost_amount", cost_amount);
        ("cost_currency", PStr "USD");
        ("usage_quantity", usage_quantity);
        ("usage_unit", optional_str (usage_unit row));
        ("dimensions", PDict [ ("service", optional_str (service row));
                               ("region", optional_str (region row));
                               ("resource_name", optional_str (resource_name row)) ]) ].

(** [_process_billing_results(results)] *)
Fixpoint _process_billing_results (lib : Library) (results : list Row)
    : exn + list dict :=
  match results with
  | [] => inr []
  | row :: rest =>
      cost_data <-- cost_data_of lib row ;;
      more <-- _process_billing_results lib rest ;;
      inr (cost_data :: more)
  end.

(** The line feed. *)
Definition nl : string := String (ascii_of_nat 10) EmptyString.

(** The column that [_build_billing_query] groups by for a requested
    dimension, if it knows the dimension. *)
Definition group_column (dimension : string) : option string :=
  if String.eqb (lower dimension) "service" then Some "service.description"
  else if String.eqb (lower dimension) "region" then Some "location.region"
  else if String.eqb (lower dimension) "resource" then Some "resource.name"
  else None.

(** The GROUP BY clause that [_build_billing_query] adds. *)
Definition group_by_clause (group_by : option (list string)) : string :=
  match group_by with
  | Some (d :: ds) =>
      match omap group_column (d :: ds) with
      | [] =>
          nl +:+ "GROUP BY DATE(usage_start_time), service.description, location.region, resource.name"
      | group_columns =>
          nl +:+ "GROUP BY "
          +:+ String.concat ", " (group_columns ++ ["DATE(usage_start_time)"])
      end
  | _ =>
      nl +:+ "GROUP BY DATE(usage_start_time), service.description, location.region, resource.name"
  end.

(** The conditions that [_build_billing_query] collects from the filters. *)
Definition conditions (filters : gmap string (list string)) : list string :=
  match filters !! "services" with
  | Some services =>
      ["service.description IN ('" +:+ String.concat "', '" services +:+ "')"]
  | None => []
  end ++
  match filters !! "regions" with
  | Some regions =>
      ["location.region IN ('" +:+ String.concat "', '" regions +:+ "')"]
  | None => []
  end.

(** The part of the query that the filters add. *)
Definition filter_clause (filter_dimensions : option (gmap string (list string)))
    : string :=
  match filter_dimensions with
  | Some filters =>
      if decide (filters = ∅) then ""
      else
        match conditions filters with
        | [] => ""
        | cs => nl +:+ "AND " +:+ String.concat " AND " cs
        end
  | None => ""
  end.

(** The text from [SELECT] to the [WHERE] condition on the dates. *)
Definition base_query (lib : Library) (project_id : string)
    (start_date end_date : Z) : string :=
  String.concat nl
    [ "";
      "        SELECT";
      "            DATE(usage_start_time) as usage_date,";
      "            service.description as service,";
      "            location.region as region,";
      "            resource.name as resource_name,";
      "            SUM(cost) as total_cost,";
      "            SUM(usage.amount) as usage_amount,";
      "            usage.unit as usage_unit";
      "        FROM `" +:+ project_id +:+ ".billing_export.gcp_billing_export_v1_*`";
      "        WHERE DATE(usage_start_time) BETWEEN '" +:+ strftime_date lib start_date
        +:+ "' AND '" +:+ strftime_date lib end_date +:+ "'";
      "        " ].

(** [_build_billing_query(start_date, end_date, granularity, group_by,
    filter_dimensions)], for the text that [self.project_id] gives in an
    f-string. The granularity is not used. *)
Definition _build_billing_query (lib : Library) (project_id : string)
    (start_date end_date : Z) (granularity : string)
    (group_by : option (list string))
    (filter_dimensions : option (gmap string (list string))) : string :=
  base_query lib project_id start_date end_date
  +:+ group_by_clause group_by
  +:+ filter_clause filter_dimensions
  +:+ nl +:+ "ORDER BY usage_date DESC".

Section Service.

(** The values of the settings, their truth value and their text in an
    f-string. *)
Context {V : Type}.
Variable truth : V -> bool.
Variable format : V -> string.

(** The BigQuery client: what running a query does, raise or give rows. *)
Definition Client : Type := string -> exn + list Row.

(** The service object. (The billing client serves only the budgets.) *)
Record Service : Type := mkService {
  project_id : option V;
  billing_account_id : option V;
  credentials_path : option V;
  bq_client : option Client
}.

(** [__init__]: the clients are built only for a credentials path that is
    set; [connect] stands for the construction of the credentials and of
    the clients from the path and the project, which may raise. *)
Definition init (settings : gmap string V)
    (connect : V -> option V -> exn + Client) : exn + Service :=
  let project := Config.getattr settings "GCP_PROJECT_ID" in
  let billing_account := Config.getattr settings "GCP_BILLING_ACCOUNT_ID" in
  let path := Config.getattr settings "GCP_CREDENTIALS_PATH" in
  match path with
  | Some p =>
      if truth p then
        client <-- connect p project ;;
        inr (mkService project billing_account path (Some client))
      else inr (mkService project billing_account path None)
  | None => inr (mkService project billing_account path None)
  end.

(** [self.project_id] in an f-string. *)
Definition project_text (svc : Service) : string :=
  match project_id svc with
  | Some v => format v
  | None => "None"
  end.

(** [get_cost_data(start_date, end_date, granularity, group_by,
    filter_dimensions)]. Its [except] clause logs and re-raises. *)
Definition get_cost_data (lib : Library) (svc : Service)
    (start_date end_date : Z) (granularity : string)
    (group_by : option (list string))
    (filter_dimensions : option (gmap string (list string))) : exn + list dict :=
  match bq_client svc with
  | None => inl (ValueError "BigQuery client not initialized. Check GCP credentials.")
  | Some run =>
      let query := _build_billing_query lib (project_text svc) start_date end_date
                     granularity group_by filter_dimensions in
      results <-- run query ;;
      _process_billing_results lib results
  end.

(** The call that [_sync_gcp_data] makes, as a wire client of the
    synchronization service. *)
Definition wire (lib : Library) (svc : Service) : nat -> Z -> Z -> exn + list dict :=
  fun _ start_date end_date =>
    get_cost_data lib svc start_date end_date "DAILY"
      (Some ["service"; "region"]) None.

End Service.

End Gcp.

(** ** Notions used in the statements about the wire clients *)

(** The request that a service sends for a token. *)
Definition azure_token_request (svc : Azure.Service) : Azure.TokenRequest :=
  Azure.mkTokenRequest
    ("https://login.microsoftonline.com/" +:+ Azure.interpolate (Azure.tenant_id svc)
     +:+ "/oauth2/v2.0/token")
    "client_credentials" (Azure.client_id svc) (Azure.client_secret svc)
    "https://management.azure.com/.default".

(** The service with the token [t] in its cache. *)
Definition azure_with_token (svc : Azure.Service) (t : pyval) : Azure.Service :=
  Azure.mkService (Azure.subscription_id svc) (Azure.client_id svc)
                  (Azure.client_secret svc) (Azure.tenant_id svc) t.

(** The network once [requests] more requests for a token have been
    sent. *)
Definition azure_after (net : Azure.Network) (requests : list Azure.TokenRequest)
    : Azure.Network :=
  Azure.mkNetwork (Azure.sent net ++ requests) (Azure.answer net)
                  (Azure.queries net) (Azure.reply net).

(** The record that [_process_cost_response] builds for a row of fewer
    than three cells. *)
Definition azure_defaults (row : list Azure.cell) : Azure.CostData :=
  Azure.mkCostData (default Azure.CNull (row !! 0%nat))
                   (default Azure.CNull (row !! 1%nat))
                   (PDecimal 0 0) "USD" PNone PNone ∅.

(** The columns that the billing query can group by. *)
Definition gcp_group_columns : list string :=
  [ "DATE(usage_start_time)"; "service.description"; "location.region";
    "resource.name" ].

(** Whether [Decimal(str(x))] is evaluated for the float of a column and
    raises. *)
Definition gcp_decimal_raises (lib : Library) (x : option pyfloat) : bool :=
  match x with
  | Some x =>
      float_truthy x &&
      match Gcp.decimal_of_float lib x with
      | inl _ => true
      | inr _ => false
      end
  | None => false
  end.

(** ** Sample values for the wire clients *)

Module Samples.

(** The value of a decimal numeral: digits, with at most one point among
    them and at least one digit. [scale] counts the digits after the point
    once the point has been read. *)
Fixpoint numeral (s : list ascii) (mantissa : Z) (scale : option Z) (digits : bool)
    : option (Z * Z) :=
  match s with
  | [] =>
      if digits
      then Some (mantissa, match scale with Some k => - k | None => 0 end)
      else None
  | c :: s' =>
      if Ascii.eqb c "."%char then
        match scale with
        | Some _ => None
        | None => numeral s' mantissa (Some 0) digits
        end
      else
        match Fixture.digit_value c with
        | Some d =>
            numeral s' (10 * mantissa + d)
              (match scale with Some k => Some (k + 1) | None => None end) true
        | None => None
        end
  end.

(** [Decimal] of a plain numeral such as '12.50', of an integer and of a
    decimal; the other strings are rejected, the other values are not
    numbers. *)
Definition Decimal (v : pyval) : exn + pyval :=
  match v with
  | PStr s =>
      match list_ascii_of_string s with
      | "-"%char :: digits =>
          match numeral digits 0 None false with
          | Some (m, e) => inr (PDecimal (- m) e)
          | None => inl (Raised "[<class 'decimal.ConversionSyntax'>]")
          end
      | digits =>
          match numeral digits 0 None false with
          | Some (m, e) => inr (PDecimal m e)
          | None => inl (Raised "[<class 'decimal.ConversionSyntax'>]")
          end
      end
  | PInt n => inr (PDecimal n 0)
  | PDecimal m e => inr (PDecimal m e)
  | _ => inl (TypeError "conversion to Decimal is not supported")
  end.

(** 'YYYY-MM-DD' of a day number counted from 1970-01-01. *)
Definition date_isoformat (days : Z) : string :=
  let '(y, m, d) := Fixture.civil_from_days days in
  Fixture.digits 4 y "" +:+ "-" +:+ Fixture.digits 2 m "" +:+ "-"
  +:+ Fixture.digits 2 d "".

Definition strftime_date (t : Z) : string := date_isoformat (t / 1000000 / 86400).

Definition strftime_utc (t : Z) : string :=
  let sod := (t / 1000000) mod 86400 in
  strftime_date t +:+ "T" +:+ Fixture.digits 2 (sod / 3600) "" +:+ ":"
  +:+ Fixture.digits 2 (sod / 60 mod 60) "" +:+ ":"
  +:+ Fixture.digits 2 (sod mod 60) "" +:+ "Z".

Definition lib : Library := mkLibrary Decimal strftime_date strftime_utc date_isoformat.

(** A group of a Cost Explorer response, with the keys that a grouping by
    service and region gives. *)
Definition ec2_group : Aws.Group :=
  Aws.mkGroup
    (Some [PStr "Amazon Elastic Compute Cloud - Compute"; PStr "us-east-1"])
    (Some (PDict [ ("BlendedCost", PDict [ ("Amount", PStr "12.50");
                                           ("Unit", PStr "USD") ]);
                   ("UsageQuantity", PDict [ ("Amount", PStr "3");
                                             ("Unit", PStr "Hrs") ]) ])).

Definition january_first : Aws.ResultByTime :=
  Aws.mkResultByTime
    (Some (PDict [ ("Start", PStr "2024-01-01"); ("End", PStr "2024-01-02") ]))
    (Some [ec2_group; ec2_group]).

(** A result by time that has no [TimePeriod] and no group. *)
Definition periodless : Aws.ResultByTime := Aws.mkResultByTime None None.

Definition aws_response : Aws.Response :=
  Aws.mkResponse (Some [january_first; january_first]).

(** Settings in which every declared field holds [None]: no credential is
    set. (The services read the settings by name only.) *)
Definition settings : gmap string (option string) :=
  list_to_map ((fun name => (name, None)) <$> Config.declared_fields).

(** The truth value and the text of an optional string. *)
Definition truth (v : option string) : bool :=
  match v with
  | Some s => negb (String.eqb s "")
  | None => false
  end.

(** A construction of the BigQuery client that is never reached here. *)
Definition connect (path : option string) (project : option (option string))
    : exn + Gcp.Client :=
  inl (Raised "no such file").

(** The GCP service as built from these settings, and the synchronization
    service that calls it. *)
Definition gcp_service : Gcp.Service :=
  Gcp.mkService (V := option string) None None None None.

Definition deployed : Environment :=
  mkEnv Fixture.utcnow_reading Fixture.fromisoformat Fixture.isoformat
        Fixture.validate
        (Fixture.returns [Fixture.complete_record])
        (Fixture.returns [Fixture.complete_record])
        (Gcp.wire Azure.interpolate lib gcp_service).

(** An Azure service without credentials or token, and a network on
    which the first request for a token is refused and the later ones are
    granted. *)
Definition azure_service : Azure.Service :=
  Azure.init id settings.

Definition token_body : pyval :=
  PDict [ ("token_type", PStr "Bearer"); ("access_token", PStr "eyJ0eXAi") ].

Definition granting : Azure.Network :=
  Azure.mkNetwork []
    (fun _ _ => inr (Azure.mkHttpResponse None (inr token_body)))
    []
    (fun _ _ => inr (Azure.mkQueryResponse None
                       (inr (Azure.mkResponse (Some (Azure.mkProperties None)))))).

Definition refusing_once : Azure.Network :=
  Azure.mkNetwork []
    (fun n _ =>
       match n with
       | O => inr (Azure.mkHttpResponse (Some (Raised "401 Client Error")) (inr PNone))
       | S _ => inr (Azure.mkHttpResponse None (inr token_body))
       end)
    [] (Azure.reply granting).

(** Rows of a Cost Management response in the column order that
    [_process_cost_response] reads: the two dates, the cost, then the
    grouping columns. The second row stops after the dates. *)
Definition azure_row : list Azure.cell :=
  [ Azure.CInt 20240101; Azure.CInt 20240101; Azure.CFloat (mkFloat "12.5");
    Azure.CStr "Storage"; Azure.CStr "rg-resources" ].

Definition azure_short_row : list Azure.cell :=
  [ Azure.CInt 20240102; Azure.CInt 20240102 ].

Definition azure_response (rows : list (list Azure.cell)) : Azure.Response :=
  Azure.mkResponse (Some (Azure.mkProperties (Some rows))).

(** Rows of the result of the billing query. *)
Definition gcp_rows : list Gcp.Row :=
  [ Gcp.mkRow (Some 19723) (Some "Compute Engine") (Some "us-central1") None
              (Some (mkFloat "12.5")) (Some (mkFloat "3.0")) (Some "hour");
    Gcp.mkRow (Some 19724) None None None (Some (mkFloat "0.0")) None None ].

End Samples.

(** * Properties *)

(** ** The normalization step *)

Section Normalization.

Variable env : Environment.

Lemma date_or_now_stored item k w :
  truthy (get item k PNone) = true ->
  date_or_now env item k w = (call_fromisoformat env (get item k PNone), w).
Proof.
  intros Ht. unfold date_or_now. rewrite Ht.
  unfold bind, lift, subscript. unfold get in *.
  destruct (lookup_key item k); [reflexivity|discriminate].
Qed.

Lemma date_or_now_clock item k w :
  truthy (get item k PNone) = false ->
  date_or_now env item k w =
    (inr (utcnow_reading env (clock_reads w)), mkWorld (S (clock_reads w))).
Proof. intros Ht. unfold date_or_now. rewrite Ht. reflexivity. Qed.

Lemma date_or_now_inr item k w t w' :
  date_or_now env item k w = (inr t, w') -> date_taken env item k w t w'.
Proof.
  destruct (truthy (get item k PNone)) eqn:Ht.
  - rewrite date_or_now_stored by assumption. intros [= Hc <-].
    now apply date_parsed.
  - rewrite date_or_now_clock by assumption. intros [= <- <-].
    now apply date_read.
Qed.

Lemma date_or_now_inl item k w e w' :
  date_or_now env item k w = (inl e, w') ->
  date_rejected env item k = true /\ w' = w /\
  call_fromisoformat env (get item k PNone) = inl e.
Proof.
  unfold date_rejected.
  destruct (truthy (get item k PNone)) eqn:Ht.
  - rewrite date_or_now_stored by assumption. intros [= Hc <-].
    rewrite Hc. auto.
  - rewrite date_or_now_clock by assumption. discriminate.
Qed.

Lemma date_rejected_inl item k w :
  date_rejected env item k = true ->
  exists e, date_or_now env item k w = (inl e, w).
Proof.
  unfold date_rejected. intros [Ht Hc]%andb_prop.
  rewrite date_or_now_stored by assumption.
  destruct (call_fromisoformat env (get item k PNone)) as [e|]; [|discriminate].
  now exists e.
Qed.

(** What [cost_record_arguments] returns, when it returns. *)
Lemma cost_record_arguments_inr item provider w kwargs w' :
  cost_record_arguments env item provider w = (inr kwargs, w') ->
  exists dims amount currency sd w1 ed w2,
    get item "dimensions" (PDict []) = PDict dims /\
    lookup_key item "cost_amount" = Some amount /\
    lookup_key item "cost_currency" = Some currency /\
    date_taken env item "start_date" w sd w1 /\
    date_taken env item "end_date" w1 ed w2 /\
    w' = mkWorld (S (clock_reads w2)) /\
    kwargs =
      keyword_arguments provider
        (get dims "service" (PStr "Unknown"))
        (get dims "region" (PStr "Unknown"))
        (get dims "resource_id" PNone)
        amount currency
        (get item "usage_quantity" PNone) (get item "usage_unit" PNone)
        sd ed (PDict dims) item
        (isoformat env (utcnow_reading env (clock_reads w2))).
Proof.
  unfold cost_record_arguments, bind, lift, call_get, subscript.
  destruct (get item "dimensions" (PDict [])) as [| | | | | |dims]; try discriminate.
  destruct (lookup_key item "cost_amount") as [amount|]; [|discriminate].
  destruct (lookup_key item "cost_currency") as [currency|]; [|discriminate].
  destruct (date_or_now env item "start_date" w) as [[e|sd] w1] eqn:Hs; [discriminate|].
  destruct (date_or_now env item "end_date" w1) as [[e|ed] w2] eqn:He; [discriminate|].
  unfold utcnow, ret. intros [= <- <-].
  exists dims, amount, currency, sd, w1, ed, w2.
  repeat split; auto using date_or_now_inr.
Qed.

(** When [cost_record_arguments] raises. *)
Lemma cost_record_arguments_inl_iff item provider w :
  (exists e w', cost_record_arguments env item provider w = (inl e, w')) <->
  dimensions_usable item = false \/
  lookup_key item "cost_amount" = None \/
  lookup_key item "cost_currency" = None \/
  date_rejected env item "start_date" = true \/
  date_rejected env item "end_date" = true.
Proof.
  unfold cost_record_arguments, bind, lift, call_get, subscript, dimensions_usable.
  destruct (get item "dimensions" (PDict [])) as [| | | | | |dims];
    try solve [split; [auto | intros _; eauto]].
  destruct (lookup_key item "cost_amount") as [amount|];
    [|solve [split; [auto | intros _; eauto]]].
  destruct (lookup_key item "cost_currency") as [currency|];
    [|solve [split; [auto | intros _; eauto]]].
  destruct (date_or_now env item "start_date" w) as [[e|sd] w1] eqn:Hs.
  { apply date_or_now_inl in Hs as (Hr & _ & _). split; [auto | intros _; eauto]. }
  destruct (date_or_now env item "end_date" w1) as [[e|ed] w2] eqn:He.
  { apply date_or_now_inl in He as (Hr & _ & _). split; [auto 6 | intros _; eauto]. }
  unfold utcnow, ret. split.
  - intros (e & w' & [=]).
  - intros [H|[H|[H|[H|H]]]]; try discriminate.
    + destruct (date_rejected_inl _ _ w H) as [e He']. congruence.
    + destruct (date_rejected_inl _ _ w1 H) as [e He']. congruence.
Qed.

(** Validation looks at the declared fields only. *)
Lemma check_fields_agree (kw1 kw2 : dict) (fs : list field) :
  (forall f, In f fs -> lookup_key kw1 (fname f) = lookup_key kw2 (fname f)) ->
  check_fields (validate env) kw1 fs = check_fields (validate env) kw2 fs.
Proof.
  induction fs as [|f fs IH]; intros Hag; [reflexivity|].
  simpl. rewrite IH by (intros g Hg; apply Hag; now right).
  unfold check_field. rewrite (Hag f) by now left. reflexivity.
Qed.

(** A required field that receives no keyword is reported. *)
Lemma check_fields_missing (kw : dict) (fs : list field) (f : field) :
  In f fs -> lookup_key kw (fname f) = None -> fdefault f = None ->
  In (fname f) (check_fields (validate env) kw fs).1.
Proof.
  induction fs as [|g fs IH]; intros Hin Hk Hd; [destruct Hin|].
  simpl. destruct (check_fields (validate env) kw fs) as [errs vals] eqn:Hc.
  destruct Hin as [->|Hin].
  - unfold check_field. rewrite Hk, Hd. now left.
  - specialize (IH Hin Hk Hd). simpl in IH.
    destruct (check_field (validate env) kw g); simpl; auto.
Qed.

Lemma construct_missing (kw : dict) (fs : list field) (f : field) :
  In f fs -> lookup_key kw (fname f) = None -> fdefault f = None ->
  exists errs, construct (validate env) fs kw = inl (ValidationError errs) /\
               In (fname f) errs.
Proof.
  intros Hin Hk Hd. pose proof (check_fields_missing kw fs f Hin Hk Hd) as Hm.
  unfold construct. destruct (check_fields (validate env) kw fs) as [errs vals].
  simpl in Hm. destruct errs as [|e errs]; [destruct Hm|]. eauto.
Qed.

(** Two evaluations of the arguments, at any two states of the clock,
    give the declared fields of the schema the same values. *)
Lemma arguments_agree_on_schema item provider w1 w2 kw1 kw2 w1' w2' :
  cost_record_arguments env item provider w1 = (inr kw1, w1') ->
  cost_record_arguments env item provider w2 = (inr kw2, w2') ->
  forall f, In f CostDataCreate_fields ->
    lookup_key kw1 (fname f) = lookup_key kw2 (fname f).
Proof.
  intros H1 H2.
  apply cost_record_arguments_inr in H1
    as (dims & amount & currency & sd & u1 & ed & u2 & Hd & Ha & Hc & _ & _ & _ & ->).
  apply cost_record_arguments_inr in H2
    as (dims' & amount' & currency' & sd' & v1 & ed' & v2 & Hd' & Ha' & Hc' & _ & _ & _ & ->).
  rewrite Hd in Hd'. rewrite Ha in Ha'. rewrite Hc in Hc'.
  injection Hd' as <-. injection Ha' as <-. injection Hc' as <-.
  intros f Hf. unfold CostDataCreate_fields, CostDataBase in Hf. simpl in Hf.
  repeat (destruct Hf as [<-|Hf]; [reflexivity|]). destruct Hf.
Qed.

Lemma arguments_raise_any_world item provider w1 w2 :
  (exists e w', cost_record_arguments env item provider w1 = (inl e, w')) ->
  exists e w', cost_record_arguments env item provider w2 = (inl e, w').
Proof.
  intros H. apply cost_record_arguments_inl_iff.
  now apply (cost_record_arguments_inl_iff item provider w1).
Qed.

(** Whether the normalization of a record raises does not depend on the
    clock. *)
Lemma normalize_fails_iff item provider w :
  (exists e w', normalize env item provider w = (inl e, w')) <->
  normalization_fails env provider item = true.
Proof.
  unfold normalization_fails, normalize, bind, lift.
  destruct (cost_record_arguments env item provider w) as [[e1|kw1] w1] eqn:H1;
    destruct (cost_record_arguments env item provider (mkWorld 0))
      as [[e2|kw2] w2] eqn:H2.
  - split; eauto.
  - destruct (arguments_raise_any_world item provider w (mkWorld 0)) as (e & w' & He);
      [eauto | congruence].
  - destruct (arguments_raise_any_world item provider (mkWorld 0) w) as (e & w' & He);
      [eauto | congruence].
  - unfold CostDataCreate, construct.
    rewrite (check_fields_agree kw1 kw2)
      by eauto using arguments_agree_on_schema.
    destruct (check_fields (validate env) kw2 CostDataCreate_fields) as [[|e errs] vals].
    + split; [intros (e & w' & [=]) | discriminate].
    + split; eauto.
Qed.

Lemma normalize_returns_iff item provider w :
  (exists r w', normalize env item provider w = (inr r, w')) <->
  normalization_fails env provider item = false.
Proof.
  pose proof (normalize_fails_iff item provider w) as Hf.
  destruct (normalize env item provider w) as [[e|r] w'] eqn:Hn.
  - split.
    + intros (r & w'' & [=]).
    + intros Hfalse. assert (normalization_fails env provider item = true)
        by (apply Hf; eauto). congruence.
  - split; [|eauto]. intros _.
    destruct (normalization_fails env provider item); [|reflexivity].
    destruct Hf as [_ Hf]. destruct (Hf eq_refl) as (e & w'' & [=]).
Qed.

(** The schema requires [resource_type] and [timestamp], and the call in
    [_process_and_store_cost_data] passes neither: the construction of the
    record raises for every raw record. *)
Lemma normalize_raises item provider w :
  exists e w', normalize env item provider w = (inl e, w').
Proof.
  unfold normalize, bind, lift.
  destruct (cost_record_arguments env item provider w) as [[e|kw] w'] eqn:Ha; [eauto|].
  apply cost_record_arguments_inr in Ha
    as (dims & amount & currency & sd & u1 & ed & u2 & _ & _ & _ & _ & _ & _ & ->).
  destruct (construct_missing
              (keyword_arguments provider (get dims "service" (PStr "Unknown"))
                 (get dims "region" (PStr "Unknown")) (get dims "resource_id" PNone)
                 amount currency (get item "usage_quantity" PNone)
                 (get item "usage_unit" PNone) sd ed (PDict dims) item
                 (isoformat env (utcnow_reading env (clock_reads u2))))
              CostDataCreate_fields (mkField "resource_type" TStr None))
    as (errs & Hc & _); [simpl; auto | reflexivity | reflexivity |].
  unfold CostDataCreate. rewrite Hc. eauto.
Qed.

Lemma normalization_always_fails item provider :
  normalization_fails env provider item = true.
Proof. apply (normalize_fails_iff item provider (mkWorld 0)), normalize_raises. Qed.

(** The loop of [_process_and_store_cost_data] adds one to the count for
    each record whose normalization returns and leaves it for the others. *)
Lemma process_items_run raw provider count w :
  exists w',
    process_items env raw provider count w =
      (inr (count + Z.of_nat (length raw) - Z.of_nat (failures env provider raw)), w').
Proof.
  revert count w. induction raw as [|item raw IH]; intros count w.
  - exists w. simpl. unfold ret, failures. simpl. f_equal. f_equal. lia.
  - simpl. unfold bind at 1. unfold try_except, bind.
    unfold failures. simpl.
    destruct (normalization_fails env provider item) eqn:Hf.
    + apply normalize_fails_iff with (w := w) in Hf as (e & w1 & Hn).
      rewrite Hn. unfold ret. destruct (IH count w1) as [w' ->].
      exists w'. unfold failures. simpl. f_equal. f_equal. lia.
    + apply normalize_returns_iff with (w := w) in Hf as (r & w1 & Hn).
      rewrite Hn. unfold ret. destruct (IH (count + 1) w1) as [w' ->].
      exists w'. unfold failures. f_equal. f_equal. lia.
Qed.

End Normalization.

(** ** The pipelines and the two loops of [sync_all_providers] *)

Section Orchestration.

Variable env : Environment.

Lemma _process_and_store_cost_data_run raw provider w :
  exists w',
    _process_and_store_cost_data env raw provider w =
      (inr (Z.of_nat (length raw) - Z.of_nat (failures env provider raw)), w').
Proof.
  destruct (process_items_run env raw provider 0 w) as [w' Hw].
  exists w'. unfold _process_and_store_cost_data. now rewrite Hw.
Qed.

(** A pipeline ends with the exception of its wire client or with the
    success dictionary; the clock has no part in which. *)
Lemma run_task_outcome call t start_date end_date w :
  exists w',
    run_task env call t start_date end_date w =
      (pipeline_outcome env call t start_date end_date, w').
Proof.
  unfold pipeline_outcome.
  destruct t; simpl;
    unfold _sync_aws_data, _sync_azure_data, _sync_gcp_data,
           try_except, bind, lift, raise, ret;
    match goal with
    | |- context [match ?f env call start_date end_date with _ => _ end] =>
        destruct (f env call start_date end_date) as [e|raw]
    end; eauto;
    match goal with
    | |- context [_process_and_store_cost_data env ?r ?p w] =>
        destruct (_process_and_store_cost_data_run r p w) as [w' ->]
    end; eauto.
Qed.

(** [gather] never raises: it returns the outcomes in launch order. *)
Lemma gather_run call tasks start_date end_date w :
  exists w',
    gather env call tasks start_date end_date w =
      (inr (imap (fun j t => pipeline_outcome env (call + j) t start_date end_date)
                 tasks), w').
Proof.
  revert call w. induction tasks as [|t tasks IH]; intros call w.
  - exists w. reflexivity.
  - simpl gather.
    destruct (run_task_outcome call t start_date end_date w) as [w1 ->].
    unfold bind. destruct (IH (S call) w1) as [w' ->]. exists w'.
    unfold ret. simpl. rewrite Nat.add_0_r. do 3 f_equal.
    apply imap_ext. intros j x _. simpl. f_equal. lia.
Qed.

Lemma create_tasks_omap (providers : list string) :
  create_tasks providers = omap task_for providers.
Proof.
  induction providers as [|name providers IH]; [reflexivity|].
  simpl. unfold task_for.
  destruct (String.eqb (lower name) "aws");
    [|destruct (String.eqb (lower name) "azure");
      [|destruct (String.eqb (lower name) "gcp")]];
    simpl; now rewrite IH.
Qed.

Lemma create_tasks_length_le (providers : list string) :
  (length (create_tasks providers) <= length providers)%nat.
Proof.
  rewrite create_tasks_omap.
  induction providers as [|name providers IH]; [simpl; lia|].
  cbn. destruct (task_for name); cbn in *; lia.
Qed.

Lemma create_tasks_recognized (providers : list string) :
  Forall recognized providers ->
  length (create_tasks providers) = length providers.
Proof.
  rewrite create_tasks_omap.
  induction providers as [|name providers IH]; intros Hall; [reflexivity|].
  apply Forall_cons in Hall as [[t Ht] Hall].
  cbn. rewrite Ht. cbn. f_equal. now apply IH.
Qed.

Lemma create_tasks_app (l1 l2 : list string) :
  create_tasks (l1 ++ l2) = create_tasks l1 ++ create_tasks l2.
Proof. rewrite !create_tasks_omap. apply omap_app. Qed.

(** The second loop never runs past the end of the request, and stores
    each outcome under the name at its own position. *)
Lemma process_results_run i (providers : list string) completed results w :
  (i + length completed <= length providers)%nat ->
  process_results i providers completed results w =
    (inr (foldl store results (zip (drop i providers) completed)), w).
Proof.
  revert i results. induction completed as [|o completed IH]; intros i results Hlen.
  - simpl. now rewrite zip_with_nil_r.
  - simpl in Hlen. simpl process_results. unfold bind, lift, index.
    destruct (providers !! i) as [name|] eqn:Hi.
    2:{ apply lookup_ge_None in Hi. lia. }
    rewrite IH by lia.
    rewrite (drop_S providers name i Hi). simpl.
    destruct o; reflexivity.
Qed.

(** [sync_all_providers] always returns a report; its [provider_results]
    are [stored_results]. *)
Lemma sync_all_providers_run start_date end_date providers w :
  exists w',
    sync_all_providers env start_date end_date providers w =
      (inr (mkReport "completed"
              (sum_records_processed
                 (stored_results env (requested providers)
                    (window_start env start_date w)
                    (window_end env start_date end_date w)))
              (stored_results env (requested providers)
                 (window_start env start_date w)
                 (window_end env start_date end_date w))
              (isoformat env (window_start env start_date w),
               isoformat env (window_end env start_date end_date w))), w').
Proof.
  unfold sync_all_providers.
  set (ps := requested providers).
  replace (match providers with Some l => l | None => ["aws"; "azure"; "gcp"] end)
    with ps by (destruct providers; reflexivity).
  set (sd := window_start env start_date w).
  set (ed := window_end env start_date end_date w).
  assert (Hwin : exists w1,
    forall A (k : Z -> Z -> M A),
      (s <~ match start_date with
            | None => now <~ utcnow env ;; ret (now - timedelta_days 30)
            | Some d => ret d
            end ;;
       e <~ match end_date with None => utcnow env | Some d => ret d end ;;
       k s e) w = k sd ed w1).
  { subst sd ed. destruct start_date, end_date; simpl; eexists; intros; reflexivity. }
  destruct Hwin as [w1 Hwin]. rewrite Hwin.
  unfold bind.
  destruct (gather_run 0 (create_tasks ps) sd ed w1) as [w2 ->].
  rewrite process_results_run.
  2:{ rewrite length_imap. simpl. apply create_tasks_length_le. }
  exists w2. reflexivity.
Qed.

End Orchestration.

(** ** The dictionary of results *)

Section Results.

Variable env : Environment.

Lemma foldl_store_lookup_other (l : list (string * (exn + ProviderResult)))
    (m : gmap string ProviderResult) (k : string) :
  (forall x, x ∈ l -> x.1 <> k) -> foldl store m l !! k = m !! k.
Proof.
  revert m. induction l as [|x l IH]; intros m Hne; [reflexivity|].
  simpl. rewrite IH by (intros y Hy; apply Hne; now right).
  unfold store. apply lookup_insert_ne, Hne. now left.
Qed.

(** An assignment that no later assignment to the same key follows is the
    one that is read back. *)
Lemma foldl_store_lookup_last (l1 l2 : list (string * (exn + ProviderResult)))
    (m : gmap string ProviderResult) (k : string) (o : exn + ProviderResult) :
  (forall x, x ∈ l2 -> x.1 <> k) ->
  foldl store m (l1 ++ (k, o) :: l2) !! k = Some (entry o).
Proof.
  intros Hne. rewrite foldl_app. simpl.
  rewrite foldl_store_lookup_other by assumption.
  unfold store. simpl. apply lookup_insert_eq.
Qed.

(** What is read back was assigned by the loop, or was there before. *)
Lemma foldl_store_lookup_inv (l : list (string * (exn + ProviderResult)))
    (m : gmap string ProviderResult) (k : string) (r : ProviderResult) :
  foldl store m l !! k = Some r ->
  m !! k = Some r \/ exists o, (k, o) ∈ l /\ r = entry o.
Proof.
  revert m. induction l as [|[k' o] l IH]; intros m Hl; [now left|].
  simpl in Hl. apply IH in Hl as [Hl|(o' & Hin & ->)].
  - unfold store in Hl. simpl in Hl.
    destruct (decide (k' = k)) as [->|Hne].
    + rewrite lookup_insert_eq in Hl. injection Hl as <-.
      right. exists o. split; [apply elem_of_cons; now left | reflexivity].
    + rewrite lookup_insert_ne in Hl by assumption. now left.
  - right. exists o'. split; [apply elem_of_cons; now right | reflexivity].
Qed.

(** Every entry of the report is the outcome of a launched pipeline. *)
Lemma stored_results_inv (providers : list string) (s e : Z) (k : string)
    (r : ProviderResult) :
  stored_results env providers s e !! k = Some r ->
  exists call t,
    create_tasks providers !! call = Some t /\
    r = entry (pipeline_outcome env call t s e).
Proof.
  unfold stored_results. intros Hl.
  apply foldl_store_lookup_inv in Hl as [Hl|(o & Hin & ->)];
    [rewrite lookup_empty in Hl; discriminate|].
  apply elem_of_zip_r, list_elem_of_lookup in Hin as [call Hcall].
  unfold outcomes in Hcall. rewrite list_lookup_imap in Hcall.
  destruct (create_tasks providers !! call) as [t|] eqn:Ht; [|discriminate].
  simpl in Hcall. injection Hcall as <-. now exists call, t.
Qed.

Lemma foldl_store_dom (l : list (string * (exn + ProviderResult)))
    (m : gmap string ProviderResult) :
  dom (foldl store m l) = dom m ∪ list_to_set (l.*1).
Proof.
  revert m. induction l as [|x l IH]; intros m; simpl.
  - symmetry. apply (right_id_L ∅ (∪)).
  - rewrite IH. unfold store. rewrite dom_insert_L.
    rewrite (comm_L (∪) {[x.1]} (dom m)). symmetry. apply (assoc_L (∪)).
Qed.

(** The keys of the report are the names found at the positions of the
    launched pipelines, that is the first names of the request, as many as
    pipelines were launched. *)
Lemma stored_results_dom (providers : list string) (s e : Z) :
  dom (stored_results env providers s e) =
    list_to_set (take (length (create_tasks providers)) providers).
Proof.
  unfold stored_results. rewrite foldl_store_dom, dom_empty_L.
  set (outs := outcomes env providers s e).
  assert (Hlen : length outs = length (create_tasks providers))
    by apply length_imap.
  rewrite <- Hlen, <- (zip_with_take_l _ providers outs).
  rewrite fst_zip by (rewrite length_take; lia).
  apply (left_id_L ∅ (∪)).
Qed.

(** When every requested name is recognized, the keys are the requested
    names. *)
Lemma stored_results_dom_recognized (providers : list string) (s e : Z) :
  Forall recognized providers ->
  dom (stored_results env providers s e) = list_to_set providers.
Proof.
  intros Hrec. rewrite stored_results_dom, (create_tasks_recognized providers Hrec).
  now rewrite firstn_all.
Qed.

Lemma create_tasks_cons_recognized (name : string) (t : task) (rest : list string) :
  task_for name = Some t -> create_tasks (name :: rest) = t :: create_tasks rest.
Proof. intros Ht. rewrite !create_tasks_omap. cbn. now rewrite Ht. Qed.

(** When every name before an occurrence is recognized, the pipeline
    launched for the occurrence is stored under the name as it is spelled
    there, and it is what the report holds for that name unless the same
    spelling occurs again later. *)
Lemma stored_results_last (before after : list string) (name : string)
    (t : task) (s e : Z) :
  Forall recognized before -> task_for name = Some t -> name ∉ after ->
  stored_results env (before ++ name :: after) s e !! name =
    Some (entry (pipeline_outcome env (length before) t s e)).
Proof.
  intros Hrec Ht Hnotin. unfold stored_results, outcomes.
  rewrite create_tasks_app, (create_tasks_cons_recognized name t after Ht).
  rewrite imap_app, imap_cons.
  rewrite (create_tasks_recognized before Hrec), Nat.add_0_r.
  rewrite zip_with_app
    by (rewrite length_imap; symmetry; now apply create_tasks_recognized).
  simpl. apply foldl_store_lookup_last.
  intros [k o] Hin. simpl. intros ->.
  apply Hnotin. eapply elem_of_zip_l. exact Hin.
Qed.

Lemma sum_records_processed_entries (m : gmap string ProviderResult) :
  sum_records_processed m = sum_over_entries m.
Proof.
  unfold sum_records_processed, sum_over_entries. rewrite map_fold_foldr.
  induction (map_to_list m) as [|[k r] l IH]; simpl; [reflexivity|].
  now rewrite IH.
Qed.

End Results.

(** ** The properties of the specification *)

(** C1. A request that names an unknown provider before a known one: the
    second loop reads [providers[i]] in the request, not in the list of the
    launched pipelines, so the outcome of the AWS pipeline is stored under
    the unknown name 'foo' and the recognized name 'aws' has no entry. *)
Lemma sync_report_keys_shifted_by_unknown_name :
  exists r w',
    sync_all_providers Fixture.healthy None None (Some ["foo"; "aws"]) Fixture.w0
      = (inr r, w') /\
    provider_results r !! "foo" = Some (mkResult "success" 0 (Some "aws") None) /\
    provider_results r !! "aws" = None /\
    recognized "aws" /\ ~ recognized "foo".
Proof.
  destruct (sync_all_providers_run Fixture.healthy None None (Some ["foo"; "aws"])
              Fixture.w0) as [w' Hrun].
  eexists. exists w'. split; [exact Hrun|]. simpl.
  split; [vm_compute; reflexivity|].
  split; [vm_compute; reflexivity|].
  split; [now exists SyncAws|]. intros [t Ht]. vm_compute in Ht. discriminate.
Qed.

(** C2. The total of a report is the sum of [records_processed] over the
    entries of its [provider_results]. This holds of what
    [sync_all_providers] does with the outcomes that it collected, for every
    list of names and every list of outcomes, each one an exception or a
    result with any count: the second loop stores the outcomes, and the
    total is the sum over the entries that it leaves. And every call of
    [sync_all_providers] returns the report that is built in this way from
    the outcomes of its pipelines. *)
Theorem total_is_sum_over_provider_results (env : Environment)
    (names : list string) (completed : list (exn + ProviderResult)) (s e : Z)
    (start_date end_date : option Z) (providers : option (list string)) (w : World) :
  (length completed <= length names)%nat ->
  (exists r,
     report_of env names completed s e w = (inr r, w) /\
     provider_results r = foldl store ∅ (zip names completed) /\
     total_records_processed r = sum_over_entries (provider_results r)) /\
  (exists r w',
     sync_all_providers env start_date end_date providers w = (inr r, w') /\
     report_of env (requested providers)
       (outcomes env (requested providers) (window_start env start_date w)
          (window_end env start_date end_date w))
       (window_start env start_date w) (window_end env start_date end_date w) w' =
       (inr r, w') /\
     total_records_processed r = sum_over_entries (provider_results r)).
Proof.
  intros Hlen. split.
  - eexists. unfold report_of, bind.
    rewrite (process_results_run 0 names completed ∅ w) by (simpl; lia).
    rewrite drop_0. split; [reflexivity|]. cbn [provider_results total_records_processed].
    split; [reflexivity|]. apply sum_records_processed_entries.
  - destruct (sync_all_providers_run env start_date end_date providers w) as [w' Hrun].
    eexists. exists w'. split; [exact Hrun|].
    unfold report_of, bind.
    rewrite (process_results_run 0) by
      (unfold outcomes; rewrite length_imap; simpl; apply create_tasks_length_le).
    rewrite drop_0. split; [reflexivity|].
    cbn [provider_results total_records_processed].
    apply sum_records_processed_entries.
Qed.

(** The statement at a mix of outcomes with counts, two of them for the
    same name, and at a call with every default. *)
Lemma total_is_sum_over_provider_results_witness :
  (exists r,
     report_of Fixture.healthy ["aws"; "azure"; "aws"]
       [ inr (mkResult "success" 5 (Some "aws") None);
         inl (Raised "down");
         inr (mkResult "success" 7 (Some "aws") None) ]
       0 86400000000 Fixture.w0 = (inr r, Fixture.w0) /\
     provider_results r =
       foldl store ∅
         (zip ["aws"; "azure"; "aws"]
              [ inr (mkResult "success" 5 (Some "aws") None);
                inl (Raised "down");
                inr (mkResult "success" 7 (Some "aws") None) ]) /\
     total_records_processed r = sum_over_entries (provider_results r)) /\
  (exists r w',
     sync_all_providers Fixture.healthy None None None Fixture.w0 = (inr r, w') /\
     report_of Fixture.healthy (requested None)
       (outcomes Fixture.healthy (requested None)
          (window_start Fixture.healthy None Fixture.w0)
          (window_end Fixture.healthy None None Fixture.w0))
       (window_start Fixture.healthy None Fixture.w0)
       (window_end Fixture.healthy None None Fixture.w0) w' = (inr r, w') /\
     total_records_processed r = sum_over_entries (provider_results r)).
Proof.
  apply (total_is_sum_over_provider_results Fixture.healthy
           ["aws"; "azure"; "aws"]
           [ inr (mkResult "success" 5 (Some "aws") None);
             inl (Raised "down");
             inr (mkResult "success" 7 (Some "aws") None) ]
           0 86400000000 None None None Fixture.w0).
  simpl. lia.
Defined.

(** Outcomes with the counts 5 and 7 stored under the same name, and a
    failure: the total is 7, the sum over the two entries that are left, and
    not the sum over the three outcomes. *)
Example total_counts_the_entries_left :
  exists r,
    report_of Fixture.healthy ["aws"; "azure"; "aws"]
      [ inr (mkResult "success" 5 (Some "aws") None);
        inl (Raised "down");
        inr (mkResult "success" 7 (Some "aws") None) ]
      0 86400000000 Fixture.w0 = (inr r, Fixture.w0) /\
    provider_results r !! "aws" = Some (mkResult "success" 7 (Some "aws") None) /\
    provider_results r !! "azure" = Some (mkResult "error" 0 None (Some "down")) /\
    size (provider_results r) = 2%nat /\
    total_records_processed r = 7.
Proof.
  eexists. split; [vm_compute; reflexivity|].
  repeat split; vm_compute; reflexivity.
Qed.

(** C6. The top-level [status] of every report is 'completed', whatever
    the pipelines ended with. *)
Theorem status_is_always_completed (env : Environment)
    (start_date end_date : option Z) (providers : option (list string)) (w : World) :
  exists r w',
    sync_all_providers env start_date end_date providers w = (inr r, w') /\
    status r = "completed".
Proof.
  destruct (sync_all_providers_run env start_date end_date providers w) as [w' Hrun].
  eexists. exists w'. split; [exact Hrun|]. reflexivity.
Qed.

(** C7. With an empty list of providers, [sync_all_providers] returns a
    report (it does not raise) whose [provider_results] is empty and whose
    [total_records_processed] is 0. *)
Theorem empty_request_gives_empty_report (env : Environment)
    (start_date end_date : option Z) (w : World) :
  exists r w',
    sync_all_providers env start_date end_date (Some []) w = (inr r, w') /\
    provider_results r = ∅ /\
    total_records_processed r = 0.
Proof.
  destruct (sync_all_providers_run env start_date end_date (Some []) w) as [w' Hrun].
  eexists. exists w'. split; [exact Hrun|]. simpl. split; reflexivity.
Qed.

(** Isolation of a failing provider, as far as it holds. When the wire
    client of one provider raises on every call and the
    others return, the call still returns a report. Every entry of the
    report is the outcome of one launched pipeline: for a pipeline of the
    failing provider, [{status: error, records_processed: 0}] with the
    message of the exception that its client raised; for a pipeline of
    another provider, the success dictionary with the count of that
    pipeline. When every requested name is a recognized provider, each name
    holds the entry of a pipeline of its own provider. *)
Theorem failing_provider_is_isolated (env : Environment)
    (start_date end_date : option Z) (providers : list string) (w : World)
    (failing : task) :
  (forall call s e, exists exc, fetch env failing call s e = inl exc) ->
  (forall t call s e, t <> failing -> exists raw, fetch env t call s e = inr raw) ->
  exists r w',
    sync_all_providers env start_date end_date (Some providers) w = (inr r, w') /\
    (forall key r0, provider_results r !! key = Some r0 ->
       exists call t,
         create_tasks providers !! call = Some t /\
         ((t = failing /\
           exists exc,
             fetch env failing call (window_start env start_date w)
               (window_end env start_date end_date w) = inl exc /\
             r0 = mkResult "error" 0 None (Some (str exc))) \/
          (t <> failing /\
           exists raw,
             fetch env t call (window_start env start_date w)
               (window_end env start_date end_date w) = inr raw /\
             r0 = mkResult "success"
                    (Z.of_nat (length raw) - Z.of_nat (failures env (task_name t) raw))
                    (Some (task_name t)) None))) /\
    (Forall recognized providers ->
     forall name t, name ∈ providers -> task_for name = Some t ->
       (t = failing ->
        exists exc call,
          fetch env failing call (window_start env start_date w)
            (window_end env start_date end_date w) = inl exc /\
          provider_results r !! name =
            Some (mkResult "error" 0 None (Some (str exc)))) /\
       (t <> failing ->
        exists raw call,
          fetch env t call (window_start env start_date w)
            (window_end env start_date end_date w) = inr raw /\
          provider_results r !! name =
            Some (mkResult "success"
                    (Z.of_nat (length raw) - Z.of_nat (failures env (task_name t) raw))
                    (Some (task_name t)) None))).
Proof.
  intros Hfail Hothers.
  destruct (sync_all_providers_run env start_date end_date (Some providers) w)
    as [w' Hrun].
  eexists. exists w'. split; [exact Hrun|]. simpl.
  set (s := window_start env start_date w).
  set (e := window_end env start_date end_date w).
  split.
  - intros key r0 Hkey.
    apply stored_results_inv in Hkey as (call & t & Ht & ->).
    exists call, t. split; [exact Ht|]. unfold pipeline_outcome.
    destruct (decide (t = failing)) as [->|Hne].
    + left. split; [reflexivity|].
      destruct (Hfail call s e) as [exc Hexc]. exists exc. now rewrite Hexc.
    + right. split; [exact Hne|].
      destruct (Hothers t call s e Hne) as [raw Hraw]. exists raw. now rewrite Hraw.
  - intros Hrec name t Hin Ht.
    apply list_elem_of_split_r in Hin as (before & after & -> & Hnotin).
    apply Forall_app in Hrec as [Hbefore _].
    rewrite (stored_results_last env before after name t s e Hbefore Ht Hnotin).
    unfold pipeline_outcome. split.
    + intros ->. destruct (Hfail (length before) s e) as [exc Hexc].
      exists exc, (length before). rewrite Hexc. split; reflexivity.
    + intros Hne. destruct (Hothers t (length before) s e Hne) as [raw Hraw].
      exists raw, (length before). rewrite Hraw. split; reflexivity.
Qed.

(** The statement at the request ['aws', 'azure', 'gcp'] with the AWS client
    down. *)
Lemma failing_provider_is_isolated_witness :
  exists r w',
    sync_all_providers Fixture.aws_down None None (Some ["aws"; "azure"; "gcp"])
      Fixture.w0 = (inr r, w') /\
    (forall key r0, provider_results r !! key = Some r0 ->
       exists call t,
         create_tasks ["aws"; "azure"; "gcp"] !! call = Some t /\
         ((t = SyncAws /\
           exists exc,
             fetch Fixture.aws_down SyncAws call
               (window_start Fixture.aws_down None Fixture.w0)
               (window_end Fixture.aws_down None None Fixture.w0) = inl exc /\
             r0 = mkResult "error" 0 None (Some (str exc))) \/
          (t <> SyncAws /\
           exists raw,
             fetch Fixture.aws_down t call
               (window_start Fixture.aws_down None Fixture.w0)
               (window_end Fixture.aws_down None None Fixture.w0) = inr raw /\
             r0 = mkResult "success"
                    (Z.of_nat (length raw)
                     - Z.of_nat (failures Fixture.aws_down (task_name t) raw))
                    (Some (task_name t)) None))) /\
    (Forall recognized ["aws"; "azure"; "gcp"] ->
     forall name t, name ∈ ["aws"; "azure"; "gcp"] -> task_for name = Some t ->
       (t = SyncAws ->
        exists exc call,
          fetch Fixture.aws_down SyncAws call
            (window_start Fixture.aws_down None Fixture.w0)
            (window_end Fixture.aws_down None None Fixture.w0) = inl exc /\
          provider_results r !! name =
            Some (mkResult "error" 0 None (Some (str exc)))) /\
       (t <> SyncAws ->
        exists raw call,
          fetch Fixture.aws_down t call
            (window_start Fixture.aws_down None Fixture.w0)
            (window_end Fixture.aws_down None None Fixture.w0) = inr raw /\
          provider_results r !! name =
            Some (mkResult "success"
                    (Z.of_nat (length raw)
                     - Z.of_nat (failures Fixture.aws_down (task_name t) raw))
                    (Some (task_name t)) None))).
Proof.
  apply (failing_provider_is_isolated Fixture.aws_down None None
           ["aws"; "azure"; "gcp"] Fixture.w0 SyncAws).
  - intros call s e. eexists. reflexivity.
  - intros [] call s e Hne; [contradiction| |]; eexists; reflexivity.
Defined.

(** The AWS client is down: 'aws' holds the error entry with the message of
    the client, 'azure' and 'gcp' hold their success entries. *)
Example aws_down_report :
  exists r w',
    sync_all_providers Fixture.aws_down None None None Fixture.w0 = (inr r, w') /\
    provider_results r !! "aws" =
      Some (mkResult "error" 0 None
              (Some "An error occurred (AccessDeniedException)")) /\
    provider_results r !! "azure" = Some (mkResult "success" 0 (Some "azure") None) /\
    provider_results r !! "gcp" = Some (mkResult "success" 0 (Some "gcp") None) /\
    total_records_processed r = 0 /\
    status r = "completed".
Proof.
  destruct (sync_all_providers_run Fixture.aws_down None None None Fixture.w0)
    as [w' Hrun].
  eexists. exists w'. split; [exact Hrun|]. simpl.
  repeat split; vm_compute; reflexivity.
Qed.

(** Matching of names whatever their case, as far as the key holds. A
    requested name whose lower-casing is 'aws', 'azure' or 'gcp'
    launches the pipeline of that provider, whatever its case, and every key
    of the report is one of the names of the request as the caller spelled
    it. When no unrecognized name precedes the name and the same spelling
    does not occur again, the outcome of its pipeline is in the report under
    the name exactly as the caller spelled it. *)
Theorem name_matching_ignores_case (env : Environment)
    (start_date end_date : option Z) (before after : list string)
    (name : string) (w : World) :
  lower name ∈ ["aws"; "azure"; "gcp"] ->
  exists t,
    task_name t = lower name /\
    create_tasks (before ++ name :: after) =
      create_tasks before ++ t :: create_tasks after /\
    exists r w',
      sync_all_providers env start_date end_date
        (Some (before ++ name :: after)) w = (inr r, w') /\
      (forall key, key ∈ dom (provider_results r) -> key ∈ before ++ name :: after) /\
      (Forall recognized before -> name ∉ after ->
       provider_results r !! name =
         Some (entry (pipeline_outcome env (length before) t
                        (window_start env start_date w)
                        (window_end env start_date end_date w)))).
Proof.
  intros Hlow.
  assert (Ht : exists t, task_name t = lower name /\ task_for name = Some t).
  { unfold task_for.
    apply elem_of_cons in Hlow as [->|Hlow]; [exists SyncAws; split; reflexivity|].
    apply elem_of_cons in Hlow as [->|Hlow]; [exists SyncAzure; split; reflexivity|].
    apply elem_of_cons in Hlow as [->|Hlow]; [exists SyncGcp; split; reflexivity|].
    now apply elem_of_nil in Hlow. }
  destruct Ht as (t & Hname & Ht). exists t. split; [exact Hname|].
  split.
  { rewrite create_tasks_app. f_equal. now apply create_tasks_cons_recognized. }
  destruct (sync_all_providers_run env start_date end_date
              (Some (before ++ name :: after)) w) as [w' Hrun].
  eexists. exists w'. split; [exact Hrun|]. simpl. split.
  - intros key. rewrite stored_results_dom, elem_of_list_to_set.
    apply subseteq_take.
  - intros Hbefore Hnotin. now apply stored_results_last.
Qed.

(** The statement at the request ['AWS', 'Azure'], for the name 'AWS'. *)
Lemma name_matching_ignores_case_witness :
  exists t,
    task_name t = lower "AWS" /\
    create_tasks ([] ++ "AWS" :: ["Azure"]) =
      create_tasks [] ++ t :: create_tasks ["Azure"] /\
    exists r w',
      sync_all_providers Fixture.healthy None None
        (Some ([] ++ "AWS" :: ["Azure"])) Fixture.w0 = (inr r, w') /\
      (forall key, key ∈ dom (provider_results r) -> key ∈ [] ++ "AWS" :: ["Azure"]) /\
      (Forall recognized [] -> "AWS" ∉ ["Azure"] ->
       provider_results r !! "AWS" =
         Some (entry (pipeline_outcome Fixture.healthy (length (@nil string)) t
                        (window_start Fixture.healthy None Fixture.w0)
                        (window_end Fixture.healthy None None Fixture.w0)))).
Proof.
  apply (name_matching_ignores_case Fixture.healthy None None [] ["Azure"] "AWS"
           Fixture.w0).
  vm_compute. apply elem_of_cons. now left.
Defined.

(** The outcome of the request ['AWS'] is under the key 'AWS', with the
    provider tag 'aws'; 'aws' is not a key. *)
Example upper_case_name_is_its_own_key :
  exists r w',
    sync_all_providers Fixture.healthy None None (Some ["AWS"]) Fixture.w0
      = (inr r, w') /\
    provider_results r !! "AWS" = Some (mkResult "success" 0 (Some "aws") None) /\
    provider_results r !! "aws" = None.
Proof.
  destruct (sync_all_providers_run Fixture.healthy None None (Some ["AWS"])
              Fixture.w0) as [w' Hrun].
  eexists. exists w'. split; [exact Hrun|]. simpl.
  split; vm_compute; reflexivity.
Qed.

Lemma size_list_to_set_le (l : list string) :
  (size (list_to_set (C:=gset string) l) <= length l)%nat.
Proof.
  induction l as [|x l IH].
  - rewrite list_to_set_nil, size_empty. simpl. lia.
  - rewrite list_to_set_cons, size_union_alt, size_singleton. simpl length.
    pose proof (subseteq_size (list_to_set (C:=gset string) l ∖ {[x]}) (list_to_set l)) as Hs.
    assert (Hsub : list_to_set (C:=gset string) l ∖ {[x]} ⊆ list_to_set l)
      by apply subseteq_difference_l, reflexivity.
    specialize (Hs Hsub). lia.
Qed.

(** Repeated names, as far as the overwrite holds. When a recognized name
    occurs in the request and occurs again
    later, each of the two occurrences launches a pipeline of its own, and
    the total of the report is the sum over the entries that the report
    retains. When no unrecognized name precedes the later occurrence and it
    is the last one of that name, the report holds for the name the outcome
    of the pipeline of that last occurrence, and it retains fewer entries
    than pipelines were launched. *)
Theorem repeated_name_keeps_last_outcome (env : Environment)
    (start_date end_date : option Z) (first between after : list string)
    (name : string) (t : task) (w : World) :
  task_for name = Some t ->
  create_tasks (first ++ name :: between ++ name :: after) =
    create_tasks first ++ t :: create_tasks between ++ t :: create_tasks after /\
  exists r w',
    sync_all_providers env start_date end_date
      (Some (first ++ name :: between ++ name :: after)) w = (inr r, w') /\
    total_records_processed r = sum_over_entries (provider_results r) /\
    (Forall recognized (first ++ between) -> name ∉ after ->
     provider_results r !! name =
       Some (entry (pipeline_outcome env (length (first ++ name :: between)) t
                      (window_start env start_date w)
                      (window_end env start_date end_date w))) /\
     (size (provider_results r) <
      length (create_tasks (first ++ name :: between ++ name :: after)))%nat).
Proof.
  intros Ht.
  assert (Htasks : forall l1 l2, create_tasks (l1 ++ name :: l2) =
                                 create_tasks l1 ++ t :: create_tasks l2).
  { intros l1 l2. rewrite create_tasks_app. f_equal.
    now apply create_tasks_cons_recognized. }
  split.
  { now rewrite Htasks, Htasks. }
  destruct (sync_all_providers_run env start_date end_date
              (Some (first ++ name :: between ++ name :: after)) w) as [w' Hrun].
  eexists. exists w'. split; [exact Hrun|]. simpl.
  split; [apply sum_records_processed_entries|].
  intros Hrec Hnotin.
  set (before := first ++ name :: between).
  assert (Hbefore : Forall recognized before).
  { apply Forall_app in Hrec as [Hf Hb]. apply Forall_app. split; [exact Hf|].
    apply Forall_cons. split; [now exists t | exact Hb]. }
  assert (Hin : name ∈ before).
  { apply elem_of_app. right. apply elem_of_cons. now left. }
  replace (first ++ name :: between ++ name :: after)
    with (before ++ name :: after)
    by (subst before; now rewrite <- app_assoc).
  assert (Hlen : length (create_tasks before) = length before)
    by now apply create_tasks_recognized.
  split; [now apply stored_results_last|].
  rewrite <- size_dom, stored_results_dom, (Htasks before after).
  rewrite length_app, Hlen. simpl length.
  rewrite take_app_ge by lia.
  replace (length before + S (length (create_tasks after)) - length before)%nat
    with (S (length (create_tasks after))) by lia.
  simpl take.
  set (rest := take (length (create_tasks after)) after).
  assert (Hset : list_to_set (C:=gset string) (before ++ name :: rest) =
                 list_to_set (before ++ rest)).
  { apply set_eq. intros x. rewrite !elem_of_list_to_set, !elem_of_app, elem_of_cons.
    split; [intros [H|[->|H]]|intros [H|H]]; auto. }
  rewrite Hset.
  pose proof (size_list_to_set_le (before ++ rest)) as Hle.
  rewrite length_app in Hle.
  assert (length rest <= length (create_tasks after))%nat
    by (subst rest; rewrite length_take; lia).
  lia.
Qed.

(** The statement at the request ['aws', 'aws']. *)
Lemma repeated_name_keeps_last_outcome_witness :
  create_tasks ([] ++ "aws" :: [] ++ "aws" :: []) =
    create_tasks [] ++ SyncAws :: create_tasks [] ++ SyncAws :: create_tasks [] /\
  exists r w',
    sync_all_providers Fixture.aws_flaky None None
      (Some ([] ++ "aws" :: [] ++ "aws" :: [])) Fixture.w0 = (inr r, w') /\
    total_records_processed r = sum_over_entries (provider_results r) /\
    (Forall recognized ([] ++ []) -> "aws" ∉ @nil string ->
     provider_results r !! "aws" =
       Some (entry (pipeline_outcome Fixture.aws_flaky
                      (length ([] ++ "aws" :: @nil string)) SyncAws
                      (window_start Fixture.aws_flaky None Fixture.w0)
                      (window_end Fixture.aws_flaky None None Fixture.w0))) /\
     (size (provider_results r) <
      length (create_tasks ([] ++ "aws" :: [] ++ "aws" :: [])))%nat).
Proof.
  apply (repeated_name_keeps_last_outcome Fixture.aws_flaky None None
           [] [] [] "aws" SyncAws Fixture.w0).
  reflexivity.
Defined.

(** The first call of the AWS client raises, the second returns: the
    request ['aws', 'aws'] launches two pipelines and the report keeps the
    success of the second one only. *)
Example second_occurrence_overwrites_first :
  exists r w',
    sync_all_providers Fixture.aws_flaky None None (Some ["aws"; "aws"]) Fixture.w0
      = (inr r, w') /\
    outcomes Fixture.aws_flaky ["aws"; "aws"]
      (window_start Fixture.aws_flaky None Fixture.w0)
      (window_end Fixture.aws_flaky None None Fixture.w0) =
      [ inl (Raised "Throttling");
        inr (mkResult "success" 0 (Some "aws") None) ] /\
    provider_results r !! "aws" = Some (mkResult "success" 0 (Some "aws") None) /\
    size (provider_results r) = 1%nat.
Proof.
  destruct (sync_all_providers_run Fixture.aws_flaky None None (Some ["aws"; "aws"])
              Fixture.w0) as [w' Hrun].
  eexists. exists w'. split; [exact Hrun|]. simpl.
  repeat split; vm_compute; reflexivity.
Qed.

(** C3. The AWS client raises on every call, and the request names an
    unknown provider before 'aws' and 'azure': the call returns, but the
    second loop reads [providers[i]] in the request, so the error of the AWS
    pipeline is stored under the unknown name 'foo', the success of the
    Azure pipeline under 'aws', and nothing under 'azure'. The failing
    provider is reported as a success, and the provider that completed is
    not reported. *)
Lemma failing_provider_reported_under_wrong_name :
  (forall call s e,
     aws_get_cost_and_usage Fixture.aws_down call s e =
       inl (Raised "An error occurred (AccessDeniedException)")) /\
  create_tasks ["foo"; "aws"; "azure"] = [SyncAws; SyncAzure] /\
  exists r w',
    sync_all_providers Fixture.aws_down None None (Some ["foo"; "aws"; "azure"])
      Fixture.w0 = (inr r, w') /\
    provider_results r !! "foo" =
      Some (mkResult "error" 0 None
              (Some "An error occurred (AccessDeniedException)")) /\
    provider_results r !! "aws" = Some (mkResult "success" 0 (Some "azure") None) /\
    provider_results r !! "azure" = None.
Proof.
  split; [reflexivity|]. split; [reflexivity|].
  destruct (sync_all_providers_run Fixture.aws_down None None
              (Some ["foo"; "aws"; "azure"]) Fixture.w0) as [w' Hrun].
  eexists. exists w'. split; [exact Hrun|]. simpl.
  repeat split; vm_compute; reflexivity.
Qed.

(** C9. The name 'AWS' launches the AWS pipeline, but after an unknown
    name its outcome is stored under that unknown name: the report has no
    key 'AWS', so the spelling of the caller is not the key of the
    outcome. *)
Lemma upper_case_name_shifted_by_unknown_name :
  lower "AWS" = "aws" /\
  create_tasks ["foo"; "AWS"] = [SyncAws] /\
  exists r w',
    sync_all_providers Fixture.healthy None None (Some ["foo"; "AWS"]) Fixture.w0
      = (inr r, w') /\
    provider_results r !! "AWS" = None /\
    provider_results r !! "foo" = Some (mkResult "success" 0 (Some "aws") None).
Proof.
  split; [reflexivity|]. split; [reflexivity|].
  destruct (sync_all_providers_run Fixture.healthy None None (Some ["foo"; "AWS"])
              Fixture.w0) as [w' Hrun].
  eexists. exists w'. split; [exact Hrun|]. simpl.
  repeat split; vm_compute; reflexivity.
Qed.

(** C10. The name 'aws' occurs twice with an unknown name in between, and
    the first call of the AWS client raises while the second returns: two
    pipelines are launched, but the outcome of the second one is stored
    under the unknown name 'foo', so 'aws' keeps the error of the first
    occurrence: the later occurrence does not overwrite the earlier one. *)
Lemma repeated_name_keeps_first_outcome :
  create_tasks ["aws"; "foo"; "aws"] = [SyncAws; SyncAws] /\
  exists r w',
    sync_all_providers Fixture.aws_flaky None None (Some ["aws"; "foo"; "aws"])
      Fixture.w0 = (inr r, w') /\
    outcomes Fixture.aws_flaky ["aws"; "foo"; "aws"]
      (window_start Fixture.aws_flaky None Fixture.w0)
      (window_end Fixture.aws_flaky None None Fixture.w0) =
      [ inl (Raised "Throttling");
        inr (mkResult "success" 0 (Some "aws") None) ] /\
    provider_results r !! "aws" =
      Some (mkResult "error" 0 None (Some "Throttling")) /\
    provider_results r !! "foo" = Some (mkResult "success" 0 (Some "aws") None).
Proof.
  split; [reflexivity|].
  destruct (sync_all_providers_run Fixture.aws_flaky None None
              (Some ["aws"; "foo"; "aws"]) Fixture.w0) as [w' Hrun].
  eexists. exists w'. split; [exact Hrun|]. simpl.
  repeat split; vm_compute; reflexivity.
Qed.

(** C4. The Azure client returns one record that has every key that the
    normalization reads, resource id included, with values that the schema
    accepts: N = 1 and the record is not malformed. The arguments of the
    cost record are built, but the call of [CostDataCreate] passes neither
    [resource_type] nor [timestamp], which the schema requires, so the
    constructor raises, the record is skipped, and the pipeline reports
    [records_processed = 0] where the claim has N - K = 1. *)
Lemma valid_record_is_not_counted :
  azure_get_cost_data Fixture.one_resource 0 0 86400000000 =
    inr [Fixture.resource_record] /\
  exists kwargs w1 w2 w3,
    cost_record_arguments Fixture.one_resource Fixture.resource_record "azure"
      Fixture.w0 = (inr kwargs, w1) /\
    CostDataCreate Fixture.validate kwargs =
      inl (ValidationError ["resource_type"; "timestamp"]) /\
    _process_and_store_cost_data Fixture.one_resource [Fixture.resource_record]
      "azure" Fixture.w0 = (inr 0, w2) /\
    _sync_azure_data Fixture.one_resource 0 0 86400000000 Fixture.w0 =
      (inr (mkResult "success" 0 (Some "azure") None), w3).
Proof.
  split; [reflexivity|].
  do 4 eexists. repeat split; vm_compute; reflexivity.
Qed.

(** C5, the claim at two records that have a numeric [cost_amount]: one
    has no [cost_currency], and its normalization raises [KeyError] where
    the claim has it succeed with the currency of the adapter; the other has
    a start date that does not parse, and its normalization raises
    [ValueError] where the claim has it succeed with the current time. *)
Lemma missing_currency_fails_normalization :
  lookup_key Fixture.bare_record "cost_amount" = Some (PDecimal 125 (-1)) /\
  lookup_key Fixture.bare_record "cost_currency" = None /\
  normalize Fixture.healthy Fixture.bare_record "aws" Fixture.w0 =
    (inl (KeyError "cost_currency"), Fixture.w0) /\
  lookup_key Fixture.misdated_record "cost_amount" = Some (PDecimal 125 (-1)) /\
  normalize Fixture.healthy Fixture.misdated_record "aws" Fixture.w0 =
    (inl (ValueError "Invalid isoformat string: 'yesterday'"), Fixture.w0).
Proof. repeat split; vm_compute; reflexivity. Qed.

(** C5, amended. The arguments that the normalization step builds for the
    record constructor: building them raises exactly when [dimensions] is
    present and is not a mapping, [cost_amount] or [cost_currency] is
    absent, or a non-empty [start_date] or [end_date] is not a string that
    [fromisoformat] accepts. In every other case the arguments carry
    'Unknown' for a missing service or region, [None] for a missing
    resource id, usage quantity or usage unit, the cost amount and currency
    of the record, and for each date the parsed value of the record or,
    when the record has none, the reading of the clock. *)
Theorem field_mapping_policy (env : Environment) (item : dict)
    (provider : string) (w : World) :
  ((exists e w', cost_record_arguments env item provider w = (inl e, w')) <->
   dimensions_usable item = false \/
   lookup_key item "cost_amount" = None \/
   lookup_key item "cost_currency" = None \/
   date_rejected env item "start_date" = true \/
   date_rejected env item "end_date" = true) /\
  (forall kwargs w',
     cost_record_arguments env item provider w = (inr kwargs, w') ->
     exists dims sd w1 ed w2,
       get item "dimensions" (PDict []) = PDict dims /\
       lookup_key kwargs "provider" = Some (PStr provider) /\
       lookup_key kwargs "service" = Some (get dims "service" (PStr "Unknown")) /\
       lookup_key kwargs "region" = Some (get dims "region" (PStr "Unknown")) /\
       lookup_key kwargs "resource_id" = Some (get dims "resource_id" PNone) /\
       lookup_key kwargs "cost_amount" = lookup_key item "cost_amount" /\
       lookup_key kwargs "cost_currency" = lookup_key item "cost_currency" /\
       lookup_key kwargs "usage_quantity" = Some (get item "usage_quantity" PNone) /\
       lookup_key kwargs "usage_unit" = Some (get item "usage_unit" PNone) /\
       date_taken env item "start_date" w sd w1 /\
       date_taken env item "end_date" w1 ed w2 /\
       lookup_key kwargs "start_date" = Some (PDatetime sd) /\
       lookup_key kwargs "end_date" = Some (PDatetime ed)).
Proof.
  split; [apply cost_record_arguments_inl_iff|].
  intros kwargs w' Hargs.
  apply cost_record_arguments_inr in Hargs
    as (dims & amount & currency & sd & w1 & ed & w2
        & Hd & Ha & Hc & Hsd & Hed & _ & ->).
  exists dims, sd, w1, ed, w2. rewrite Ha, Hc.
  repeat split; assumption || reflexivity.
Qed.

(** A record without dates and without dimensions: 'Unknown' for service
    and region, the first two readings of the clock for the dates. *)
Example undated_record_arguments :
  exists kwargs w',
    cost_record_arguments Fixture.healthy Fixture.undated_record "gcp" Fixture.w0
      = (inr kwargs, w') /\
    lookup_key kwargs "service" = Some (PStr "Unknown") /\
    lookup_key kwargs "region" = Some (PStr "Unknown") /\
    lookup_key kwargs "resource_id" = Some PNone /\
    lookup_key kwargs "start_date" = Some (PDatetime (Fixture.utcnow_reading 0)) /\
    lookup_key kwargs "end_date" = Some (PDatetime (Fixture.utcnow_reading 1)).
Proof. do 2 eexists. repeat split; vm_compute; reflexivity. Qed.

(** The date that an argument receives is the same at any two states of the
    clock when the record has a value for it, and the exception is the same
    when there is one. *)
Lemma date_or_now_two_runs (env : Environment) (item : dict) (k : string)
    (w1 w2 : World) :
  match (date_or_now env item k w1).1, (date_or_now env item k w2).1 with
  | inl e1, inl e2 => e1 = e2
  | inr t1, inr t2 => truthy (get item k PNone) = true -> t1 = t2
  | _, _ => False
  end.
Proof.
  destruct (truthy (get item k PNone)) eqn:Ht.
  - rewrite !date_or_now_stored by assumption. simpl.
    destruct (call_fromisoformat env (get item k PNone)); auto.
  - rewrite !date_or_now_clock by assumption. simpl. discriminate.
Qed.

(** C8, the claim at a record without dates, normalized when the clock has
    been read 0 times and when it has been read 7 times: the two runs give
    different start dates (and end dates, and processing timestamps). *)
Lemma two_runs_differ_by_the_clock :
  exists k1 k2 w1 w2,
    cost_record_arguments Fixture.healthy Fixture.undated_record "aws" (mkWorld 0)
      = (inr k1, w1) /\
    cost_record_arguments Fixture.healthy Fixture.undated_record "aws" (mkWorld 7)
      = (inr k2, w2) /\
    lookup_key k1 "start_date" = Some (PDatetime 1709294400000000) /\
    lookup_key k2 "start_date" = Some (PDatetime 1709294400000007) /\
    k1 <> k2.
Proof.
  do 4 eexists.
  split; [vm_compute; reflexivity|].
  split; [vm_compute; reflexivity|].
  split; [vm_compute; reflexivity|].
  split; [vm_compute; reflexivity|].
  vm_compute. discriminate.
Qed.

(** C8, amended. Two runs of the normalization step on the same record and
    provider tag, at any two states of the clock, raise the same exception
    or build arguments that agree on every field but the ones stamped from
    the clock: [start_date] and [end_date] agree when the record has a
    non-empty value for them, and [metadata] holds the same [raw_data], the
    record itself, next to its own [processed_at]. *)
Theorem field_mapping_deterministic_up_to_clock (env : Environment)
    (item : dict) (provider : string) (w1 w2 : World) :
  match (cost_record_arguments env item provider w1).1,
        (cost_record_arguments env item provider w2).1 with
  | inl e1, inl e2 => e1 = e2
  | inr k1, inr k2 =>
      (forall key, key ∉ ["start_date"; "end_date"; "metadata"] ->
         lookup_key k1 key = lookup_key k2 key) /\
      (truthy (get item "start_date" PNone) = true ->
         lookup_key k1 "start_date" = lookup_key k2 "start_date") /\
      (truthy (get item "end_date" PNone) = true ->
         lookup_key k1 "end_date" = lookup_key k2 "end_date") /\
      (exists p1 p2,
         lookup_key k1 "metadata" =
           Some (PDict [("raw_data", PDict item); ("processed_at", PStr p1)]) /\
         lookup_key k2 "metadata" =
           Some (PDict [("raw_data", PDict item); ("processed_at", PStr p2)]))
  | _, _ => False
  end.
Proof.
  unfold cost_record_arguments, bind, lift, call_get, subscript.
  destruct (get item "dimensions" (PDict [])) as [| | | | | |dims];
    try reflexivity.
  destruct (lookup_key item "cost_amount") as [amount|]; [|reflexivity].
  destruct (lookup_key item "cost_currency") as [currency|]; [|reflexivity].
  pose proof (date_or_now_two_runs env item "start_date" w1 w2) as Hs.
  destruct (date_or_now env item "start_date" w1) as [[e1|sd1] u1];
    destruct (date_or_now env item "start_date" w2) as [[e2|sd2] u2];
    simpl in Hs; try contradiction; [exact Hs|].
  pose proof (date_or_now_two_runs env item "end_date" u1 u2) as He.
  destruct (date_or_now env item "end_date" u1) as [[e1|ed1] v1];
    destruct (date_or_now env item "end_date" u2) as [[e2|ed2] v2];
    simpl in He; try contradiction; [exact He|].
  unfold utcnow, ret, keyword_arguments. cbn [fst].
  split; [|split; [|split]].
  - intros key Hkey.
    rewrite !not_elem_of_cons in Hkey. destruct Hkey as (Hk1 & Hk2 & Hk3 & _).
    cbn [lookup_key].
    repeat match goal with
           | |- context [String.eqb ?a key] =>
               destruct (String.eqb_spec a key);
                 [try reflexivity; subst key; congruence|]
           end.
    reflexivity.
  - intros Ht. simpl. now rewrite (Hs Ht).
  - intros Ht. simpl. now rewrite (He Ht).
  - do 2 eexists. split; reflexivity.
Qed.

(** * Further properties of the modelled code *)

(** ** The report of [sync_all_providers] *)

(** X1. The keys of the report are the names found in the request at the
    positions of the launched pipelines: the first names of the request, as
    many as there are recognized names in it. *)
Theorem report_keys_are_leading_names (env : Environment)
    (start_date end_date : option Z) (providers : list string) (w : World) :
  exists r w',
    sync_all_providers env start_date end_date (Some providers) w = (inr r, w') /\
    dom (provider_results r) =
      list_to_set (take (length (omap task_for providers)) providers).
Proof.
  destruct (sync_all_providers_run env start_date end_date (Some providers) w)
    as [w' Hrun].
  eexists. exists w'. split; [exact Hrun|]. simpl.
  rewrite stored_results_dom. now rewrite create_tasks_omap.
Qed.

Lemma create_tasks_unrecognized (providers : list string) :
  Forall (fun name => ~ recognized name) providers -> create_tasks providers = [].
Proof.
  rewrite create_tasks_omap.
  induction providers as [|name providers IH]; intros Hall; [reflexivity|].
  apply Forall_cons in Hall as [Hname Hall]. cbn.
  destruct (task_for name) as [t|] eqn:Ht.
  - exfalso. apply Hname. now exists t.
  - now apply IH.
Qed.

Lemma failures_all (env : Environment) (provider : string) (raw : list dict) :
  failures env provider raw = length raw.
Proof.
  unfold failures. induction raw as [|item raw IH]; [reflexivity|].
  simpl. rewrite normalization_always_fails. simpl. now rewrite IH.
Qed.

(** What a pipeline ends with does not depend on the records that its wire
    client returns: the success dictionary counts none of them. *)
Lemma pipeline_outcome_counts_nothing (env : Environment) (call : nat) (t : task)
    (s e : Z) :
  pipeline_outcome env call t s e =
    match fetch env t call s e with
    | inl exc => inl exc
    | inr _ => inr (mkResult "success" 0 (Some (task_name t)) None)
    end.
Proof.
  unfold pipeline_outcome. destruct (fetch env t call s e) as [exc|raw]; [reflexivity|].
  rewrite failures_all. do 2 f_equal. lia.
Qed.

Lemma sum_records_processed_zero (m : gmap string ProviderResult) :
  (forall key e, m !! key = Some e -> r_records_processed e = 0) ->
  sum_records_processed m = 0.
Proof.
  intros Hzero. rewrite sum_records_processed_entries. unfold sum_over_entries.
  assert (Hall : forall kv, kv ∈ map_to_list m -> r_records_processed kv.2 = 0).
  { intros [k e] Hin. apply elem_of_map_to_list in Hin. simpl. eauto. }
  induction (map_to_list m) as [|kv l IH]; [reflexivity|].
  rewrite fmap_cons, fmap_cons. simpl.
  rewrite (Hall kv) by (apply elem_of_cons; now left).
  rewrite IH; [reflexivity|]. intros kv' Hin. apply Hall, elem_of_cons. now right.
Qed.

(** X2. A request that names no recognized provider ('awss', for one) is
    answered with an empty report: no pipeline is launched, no entry is
    written, the total is 0 and the call does not raise. *)
Theorem unrecognized_request_gives_empty_report (env : Environment)
    (start_date end_date : option Z) (providers : list string) (w : World) :
  Forall (fun name => ~ recognized name) providers ->
  exists r w',
    sync_all_providers env start_date end_date (Some providers) w = (inr r, w') /\
    create_tasks providers = [] /\
    provider_results r = ∅ /\
    total_records_processed r = 0 /\
    status r = "completed".
Proof.
  intros Hall.
  destruct (sync_all_providers_run env start_date end_date (Some providers) w)
    as [w' Hrun].
  eexists. exists w'. split; [exact Hrun|]. simpl.
  pose proof (create_tasks_unrecognized providers Hall) as Hnone.
  assert (Hempty : stored_results env providers
                     (window_start env start_date w)
                     (window_end env start_date end_date w) = ∅).
  { unfold stored_results, outcomes. rewrite Hnone. simpl.
    now rewrite zip_with_nil_r. }
  rewrite Hempty. repeat split; try assumption. 
Qed.

(** The statement at the request ['awss', 'Amazon']. *)
Lemma unrecognized_request_gives_empty_report_witness :
  exists r w',
    sync_all_providers Fixture.healthy None None (Some ["awss"; "Amazon"]) Fixture.w0
      = (inr r, w') /\
    create_tasks ["awss"; "Amazon"] = [] /\
    provider_results r = ∅ /\
    total_records_processed r = 0 /\
    status r = "completed".
Proof.
  apply (unrecognized_request_gives_empty_report Fixture.healthy None None
           ["awss"; "Amazon"] Fixture.w0).
  repeat constructor; intros [t Ht]; vm_compute in Ht; discriminate.
Defined.

(** X3. Unrecognized names that come after all the recognized ones change
    nothing: the report has the entries of the request without them, one per
    recognized name. *)
Theorem trailing_unrecognized_names_are_ignored (env : Environment)
    (start_date end_date : option Z) (known rest : list string) (w : World) :
  Forall recognized known ->
  Forall (fun name => ~ recognized name) rest ->
  exists r r' w1 w2,
    sync_all_providers env start_date end_date (Some (known ++ rest)) w = (inr r, w1) /\
    sync_all_providers env start_date end_date (Some known) w = (inr r', w2) /\
    provider_results r = provider_results r' /\
    total_records_processed r = total_records_processed r' /\
    dom (provider_results r) = list_to_set known.
Proof.
  intros Hknown Hrest.
  destruct (sync_all_providers_run env start_date end_date (Some (known ++ rest)) w)
    as [w1 Hrun1].
  destruct (sync_all_providers_run env start_date end_date (Some known) w)
    as [w2 Hrun2].
  do 2 eexists. exists w1, w2. split; [exact Hrun1|]. split; [exact Hrun2|]. simpl.
  set (s := window_start env start_date w).
  set (e := window_end env start_date end_date w).
  assert (Heq : stored_results env (known ++ rest) s e = stored_results env known s e).
  { unfold stored_results, outcomes.
    rewrite create_tasks_app, (create_tasks_unrecognized rest Hrest), app_nil_r.
    set (outs := imap (fun call t => pipeline_outcome env call t s e) (create_tasks known)).
    rewrite <- (app_nil_r outs) at 1.
    rewrite zip_with_app
      by (subst outs; rewrite length_imap; symmetry; now apply create_tasks_recognized).
    rewrite zip_with_nil_r. now rewrite app_nil_r. }
  rewrite Heq. repeat split.
  now apply stored_results_dom_recognized.
Qed.

(** The statement at the request ['aws', 'GCP', 'digitalocean']. *)
Lemma trailing_unrecognized_names_are_ignored_witness :
  exists r r' w1 w2,
    sync_all_providers Fixture.healthy None None
      (Some (["aws"; "GCP"] ++ ["digitalocean"])) Fixture.w0 = (inr r, w1) /\
    sync_all_providers Fixture.healthy None None (Some ["aws"; "GCP"]) Fixture.w0
      = (inr r', w2) /\
    provider_results r = provider_results r' /\
    total_records_processed r = total_records_processed r' /\
    dom (provider_results r) = list_to_set ["aws"; "GCP"].
Proof.
  apply (trailing_unrecognized_names_are_ignored Fixture.healthy None None
           ["aws"; "GCP"] ["digitalocean"] Fixture.w0).
  - repeat constructor; eexists; reflexivity.
  - repeat constructor. intros [t Ht]. vm_compute in Ht. discriminate.
Defined.

(** X4. Without a list of providers the request is for 'aws', 'azure' and
    'gcp': the report has these three keys and no other, and each holds the
    outcome of the pipeline of its own provider. *)
Theorem default_request_reports_the_three_providers (env : Environment)
    (start_date end_date : option Z) (w : World) :
  exists r w',
    sync_all_providers env start_date end_date None w = (inr r, w') /\
    dom (provider_results r) = list_to_set ["aws"; "azure"; "gcp"] /\
    provider_results r !! "aws" =
      Some (entry (pipeline_outcome env 0 SyncAws
                     (window_start env start_date w)
                     (window_end env start_date end_date w))) /\
    provider_results r !! "azure" =
      Some (entry (pipeline_outcome env 1 SyncAzure
                     (window_start env start_date w)
                     (window_end env start_date end_date w))) /\
    provider_results r !! "gcp" =
      Some (entry (pipeline_outcome env 2 SyncGcp
                     (window_start env start_date w)
                     (window_end env start_date end_date w))).
Proof.
  destruct (sync_all_providers_run env start_date end_date None w) as [w' Hrun].
  eexists. exists w'. split; [exact Hrun|]. simpl.
  set (s := window_start env start_date w).
  set (e := window_end env start_date end_date w).
  assert (Hrec : Forall recognized ["aws"; "azure"; "gcp"])
    by (repeat constructor; eexists; reflexivity).
  split; [now apply stored_results_dom_recognized|].
  split; [|split].
  - apply (stored_results_last env [] ["azure"; "gcp"] "aws" SyncAws s e);
      [constructor | reflexivity |].
    intros Hin. apply elem_of_cons in Hin as [Hin|Hin]; [discriminate|].
    apply list_elem_of_singleton in Hin. discriminate.
  - apply (stored_results_last env ["aws"] ["gcp"] "azure" SyncAzure s e);
      [repeat constructor; eexists; reflexivity | reflexivity |].
    intros Hin. apply list_elem_of_singleton in Hin. discriminate.
  - apply (stored_results_last env ["aws"; "azure"] [] "gcp" SyncGcp s e);
      [repeat constructor; eexists; reflexivity | reflexivity |].
    apply not_elem_of_nil.
Qed.

(** X5. [_process_and_store_cost_data] counts no record, whatever the wire
    client returned: it returns 0. Whenever the arguments of a record are
    built, the constructor of the schema rejects them, because the required
    fields [resource_type] and [timestamp] are not among them. *)
Theorem no_record_is_ever_counted (env : Environment) (raw : list dict)
    (provider : string) (w : World) :
  (exists w', _process_and_store_cost_data env raw provider w = (inr 0, w')) /\
  (forall item u kwargs u',
     cost_record_arguments env item provider u = (inr kwargs, u') ->
     exists fields,
       CostDataCreate (validate env) kwargs = inl (ValidationError fields) /\
       In "resource_type" fields /\ In "timestamp" fields).
Proof.
  split.
  - destruct (_process_and_store_cost_data_run env raw provider w) as [w' Hrun].
    exists w'. rewrite Hrun, failures_all. do 2 f_equal. lia.
  - intros item u kwargs u' Hargs.
    apply cost_record_arguments_inr in Hargs
      as (dims & amount & currency & sd & u1 & ed & u2 & _ & _ & _ & _ & _ & _ & ->).
    unfold CostDataCreate.
    set (kwargs := keyword_arguments _ _ _ _ _ _ _ _ _ _ _ _ _).
    assert (Hrt : In (mkField "resource_type" TStr None) CostDataCreate_fields)
      by (unfold CostDataCreate_fields, CostDataBase; simpl; tauto).
    assert (Hts : In (mkField "timestamp" TDatetime None) CostDataCreate_fields)
      by (unfold CostDataCreate_fields, CostDataBase; simpl; tauto).
    destruct (construct_missing env kwargs _ _ Hrt eq_refl eq_refl)
      as (errs & Hc & Hin1).
    destruct (construct_missing env kwargs _ _ Hts eq_refl eq_refl)
      as (errs' & Hc' & Hin2).
    rewrite Hc in Hc'. injection Hc' as <-.
    exists errs. rewrite Hc. auto.
Qed.

(** X6. In every report each entry has [records_processed = 0] and the
    total is 0, whatever the wire clients returned. *)
Theorem report_counts_are_always_zero (env : Environment)
    (start_date end_date : option Z) (providers : option (list string)) (w : World) :
  exists r w',
    sync_all_providers env start_date end_date providers w = (inr r, w') /\
    total_records_processed r = 0 /\
    forall key e, provider_results r !! key = Some e -> r_records_processed e = 0.
Proof.
  destruct (sync_all_providers_run env start_date end_date providers w) as [w' Hrun].
  eexists. exists w'. split; [exact Hrun|]. simpl.
  assert (Hzero : forall key e,
            stored_results env (requested providers)
              (window_start env start_date w)
              (window_end env start_date end_date w) !! key = Some e ->
            r_records_processed e = 0).
  { intros key e Hkey. apply stored_results_inv in Hkey as (call & t & _ & ->).
    rewrite pipeline_outcome_counts_nothing.
    destruct (fetch env t call _ _); reflexivity. }
  split; [now apply sum_records_processed_zero | exact Hzero].
Qed.

(** ** The endpoint [sync_cost_data] *)

Lemma recognized_is_not_all (name : string) (t : task) :
  task_for name = Some t -> String.eqb (lower name) "all" = false.
Proof.
  unfold task_for.
  destruct (String.eqb_spec (lower name) "aws") as [->|_]; [reflexivity|].
  destruct (String.eqb_spec (lower name) "azure") as [->|_]; [reflexivity|].
  destruct (String.eqb_spec (lower name) "gcp") as [->|_]; [reflexivity|].
  discriminate.
Qed.

(** The run of the endpoint for a provider other than 'all': the reply is
    read off the entry that the report has under the name as given. *)
Lemma sync_cost_data_single (env : Environment) (provider : string)
    (start_date end_date : option Z) (w : World) :
  String.eqb (lower provider) "all" = false ->
  exists ts w',
    Endpoint.sync_cost_data env provider start_date end_date w =
      (inr (mkSyncResult provider
              (Endpoint.status_or_error
                 (stored_results env [provider]
                    (window_start env start_date w)
                    (window_end env start_date end_date w) !! provider))
              (Endpoint.records_or_zero
                 (stored_results env [provider]
                    (window_start env start_date w)
                    (window_end env start_date end_date w) !! provider))
              (Endpoint.error_or_success
                 (stored_results env [provider]
                    (window_start env start_date w)
                    (window_end env start_date end_date w) !! provider))
              ts), w').
Proof.
  intros Hall. unfold Endpoint.sync_cost_data, try_except. rewrite Hall.
  unfold bind at 1.
  destruct (sync_all_providers_run env start_date end_date (Some [provider]) w)
    as [w1 ->].
  simpl. unfold Endpoint.new_SyncResult, bind, utcnow, ret. simpl.
  do 2 eexists. reflexivity.
Qed.

(** X7. Asked for a provider that is neither 'all' nor a recognized name,
    the endpoint does not fail: it replies with status 'error', 0 records
    and the message 'Sync completed successfully'. *)
Theorem endpoint_reply_for_unknown_provider (env : Environment) (provider : string)
    (start_date end_date : option Z) (w : World) :
  lower provider <> "all" ->
  ~ recognized provider ->
  exists ts w',
    Endpoint.sync_cost_data env provider start_date end_date w =
      (inr (mkSyncResult provider "error" 0 "Sync completed successfully" ts), w').
Proof.
  intros Hall Hunknown.
  destruct (sync_cost_data_single env provider start_date end_date w)
    as (ts & w' & Hrun).
  { destruct (String.eqb_spec (lower provider) "all"); [contradiction|reflexivity]. }
  exists ts, w'. rewrite Hrun.
  assert (Hempty : stored_results env [provider]
                     (window_start env start_date w)
                     (window_end env start_date end_date w) = ∅).
  { unfold stored_results, outcomes.
    rewrite (create_tasks_unrecognized [provider]) by (repeat constructor; exact Hunknown).
    reflexivity. }
  rewrite Hempty, lookup_empty. reflexivity.
Qed.

(** The statement at the provider 'oracle'. *)
Lemma endpoint_reply_for_unknown_provider_witness :
  exists ts w',
    Endpoint.sync_cost_data Fixture.healthy "oracle" None None Fixture.w0 =
      (inr (mkSyncResult "oracle" "error" 0 "Sync completed successfully" ts), w').
Proof.
  apply (endpoint_reply_for_unknown_provider Fixture.healthy "oracle" None None
           Fixture.w0).
  - vm_compute. discriminate.
  - intros [t Ht]. vm_compute in Ht. discriminate.
Defined.

Lemma stored_results_single (env : Environment) (provider : string) (t : task)
    (s e : Z) :
  task_for provider = Some t ->
  stored_results env [provider] s e !! provider =
    Some (entry (pipeline_outcome env 0 t s e)).
Proof.
  intros Ht.
  apply (stored_results_last env [] [] provider t s e);
    [constructor | exact Ht | apply not_elem_of_nil].
Qed.

(** X8. Asked for a recognized provider (in any case) whose wire client
    raises, the endpoint replies with status 'error', 0 records and the
    text of the exception as its message. *)
Theorem endpoint_reply_when_the_client_raises (env : Environment)
    (provider : string) (t : task) (exc : exn)
    (start_date end_date : option Z) (w : World) :
  task_for provider = Some t ->
  fetch env t 0 (window_start env start_date w)
    (window_end env start_date end_date w) = inl exc ->
  exists ts w',
    Endpoint.sync_cost_data env provider start_date end_date w =
      (inr (mkSyncResult provider "error" 0 (str exc) ts), w').
Proof.
  intros Ht Hfetch.
  destruct (sync_cost_data_single env provider start_date end_date w
              (recognized_is_not_all provider t Ht)) as (ts & w' & Hrun).
  exists ts, w'. rewrite Hrun, (stored_results_single env provider t _ _ Ht).
  unfold pipeline_outcome. rewrite Hfetch. reflexivity.
Qed.

(** The statement at the provider 'AWS' with the AWS client down. *)
Lemma endpoint_reply_when_the_client_raises_witness :
  exists ts w',
    Endpoint.sync_cost_data Fixture.aws_down "AWS" None None Fixture.w0 =
      (inr (mkSyncResult "AWS" "error" 0
              (str (Raised "An error occurred (AccessDeniedException)")) ts), w').
Proof.
  apply (endpoint_reply_when_the_client_raises Fixture.aws_down "AWS" SyncAws
           (Raised "An error occurred (AccessDeniedException)") None None
           Fixture.w0).
  - reflexivity.
  - reflexivity.
Defined.

(** X9. Asked for a recognized provider whose wire client returns records,
    the endpoint replies with status 'success', the message 'Sync completed
    successfully' and 0 records, however many records the client
    returned. *)
Theorem endpoint_reply_when_the_client_returns (env : Environment)
    (provider : string) (t : task) (raw : list dict)
    (start_date end_date : option Z) (w : World) :
  task_for provider = Some t ->
  fetch env t 0 (window_start env start_date w)
    (window_end env start_date end_date w) = inr raw ->
  exists ts w',
    Endpoint.sync_cost_data env provider start_date end_date w =
      (inr (mkSyncResult provider "success" 0 "Sync completed successfully" ts), w').
Proof.
  intros Ht Hfetch.
  destruct (sync_cost_data_single env provider start_date end_date w
              (recognized_is_not_all provider t Ht)) as (ts & w' & Hrun).
  exists ts, w'. rewrite Hrun, (stored_results_single env provider t _ _ Ht).
  rewrite pipeline_outcome_counts_nothing, Hfetch. reflexivity.
Qed.

(** The statement at the provider 'aws' with three records returned. *)
Lemma endpoint_reply_when_the_client_returns_witness :
  exists ts w',
    Endpoint.sync_cost_data Fixture.healthy "aws" None None Fixture.w0 =
      (inr (mkSyncResult "aws" "success" 0 "Sync completed successfully" ts), w').
Proof.
  apply (endpoint_reply_when_the_client_returns Fixture.healthy "aws" SyncAws
           [Fixture.complete_record; Fixture.bare_record; Fixture.undated_record]
           None None Fixture.w0).
  - reflexivity.
  - reflexivity.
Defined.

(** X10. Asked for 'all' (in any case), the endpoint runs the default
    request and replies under the name 'all' with the status 'completed',
    even when wire clients raised, with the total of the report, which is
    0, and the message built from it. *)
Theorem endpoint_reply_for_all (env : Environment) (provider : string)
    (start_date end_date : option Z) (w : World) :
  lower provider = "all" ->
  exists r w0 ts w',
    sync_all_providers env start_date end_date None w = (inr r, w0) /\
    total_records_processed r = 0 /\
    Endpoint.sync_cost_data env provider start_date end_date w =
      (inr (mkSyncResult "all" "completed" (total_records_processed r)
              "Multi-provider sync completed: 0 records processed" ts), w').
Proof.
  intros Hall. unfold Endpoint.sync_cost_data, try_except. rewrite Hall.
  change (String.eqb "all" "all") with true. cbv iota.
  unfold bind at 1.
  destruct (sync_all_providers_run env start_date end_date None w) as [w0 Hrun].
  rewrite Hrun. simpl.
  assert (Hzero : sum_records_processed
                    (stored_results env ["aws"; "azure"; "gcp"]
                       (window_start env start_date w)
                       (window_end env start_date end_date w)) = 0).
  { apply sum_records_processed_zero. intros key e Hkey.
    apply stored_results_inv in Hkey as (call & t & _ & ->).
    rewrite pipeline_outcome_counts_nothing.
    destruct (fetch env t call _ _); reflexivity. }
  unfold Endpoint.new_SyncResult, bind, utcnow, ret. simpl.
  do 4 eexists. split; [reflexivity|]. simpl. split; [exact Hzero|].
  rewrite Hzero. reflexivity.
Qed.

(** The statement at the provider 'ALL' with the AWS client down. *)
Lemma endpoint_reply_for_all_witness :
  exists r w0 ts w',
    sync_all_providers Fixture.aws_down None None None Fixture.w0 = (inr r, w0) /\
    total_records_processed r = 0 /\
    Endpoint.sync_cost_data Fixture.aws_down "ALL" None None Fixture.w0 =
      (inr (mkSyncResult "all" "completed" (total_records_processed r)
              "Multi-provider sync completed: 0 records processed" ts), w').
Proof.
  apply (endpoint_reply_for_all Fixture.aws_down "ALL" None None Fixture.w0).
  reflexivity.
Defined.

(** ** The AWS wire client *)

(** X11. The filter expression of the AWS client is empty exactly when the
    filters have neither 'services' nor 'regions'; with both it is the
    conjunction of the clause on SERVICE and the clause on REGION, in this
    order; any other key of the filters is ignored. *)
Theorem aws_filter_expression_shape (filters : gmap string (list string)) :
  (Aws._build_filter_expression filters = Aws.NoExpression <->
   filters !! "services" = None /\ filters !! "regions" = None) /\
  (forall s r,
     filters !! "services" = Some s -> filters !! "regions" = Some r ->
     Aws._build_filter_expression filters =
       Aws.And [Aws.Dimensions "SERVICE" s; Aws.Dimensions "REGION" r]) /\
  (forall k v, k <> "services" -> k <> "regions" ->
     Aws._build_filter_expression (<[k := v]> filters) =
       Aws._build_filter_expression filters).
Proof.
  unfold Aws._build_filter_expression. split; [|split].
  - destruct (filters !! "services"), (filters !! "regions"); simpl;
      split; try discriminate; try tauto; intros [? ?]; discriminate.
  - intros s r -> ->. reflexivity.
  - intros k v Hs Hr. now rewrite !lookup_insert_ne by assumption.
Qed.

(** X12. The parameters that [get_cost_and_usage] builds: [GroupBy] has one
    entry of type DIMENSION per requested dimension, in order; [Filter] is
    left out exactly when the filters are [None] or empty; filters that are
    not empty and have neither 'services' nor 'regions' send the empty
    expression as [Filter]. *)
Theorem aws_params (lib : Library) (start_date end_date : Z) (granularity : string)
    (group_by : option (list string))
    (filter_dimensions : option (gmap string (list string))) :
  let params := Aws.build_params lib start_date end_date granularity group_by
                  filter_dimensions in
  Aws.GroupBy params =
    List.map (fun d => ("DIMENSION", d))
      (match group_by with Some l => l | None => [] end) /\
  (Aws.Filter params = None <->
   filter_dimensions = None \/ filter_dimensions = Some ∅) /\
  (forall filters,
     filter_dimensions = Some filters -> filters <> ∅ ->
     filters !! "services" = None -> filters !! "regions" = None ->
     Aws.Filter params = Some Aws.NoExpression).
Proof.
  simpl. split; [|split].
  - destruct group_by as [[|d ds]|]; reflexivity.
  - destruct filter_dimensions as [filters|]; simpl.
    + destruct (decide (filters = ∅)) as [->|Hne].
      * split; auto.
      * split; [discriminate|]. intros [H|H]; [discriminate|].
        injection H as ->. contradiction.
    + split; auto.
  - intros filters -> Hne Hs Hr. simpl.
    destruct (decide (filters = ∅)); [contradiction|].
    unfold Aws._build_filter_expression. now rewrite Hs, Hr.
Qed.

Lemma lookup_set_key (d : dict) (k k' : string) (v : pyval) :
  lookup_key (set_key d k v) k' =
    if String.eqb k k' then Some v else lookup_key d k'.
Proof.
  induction d as [|[k0 v0] d IH]; simpl.
  - reflexivity.
  - destruct (String.eqb_spec k0 k) as [->|Hne]; simpl.
    + destruct (String.eqb k k'); reflexivity.
    + rewrite IH. destruct (String.eqb_spec k0 k') as [->|Hne'].
      * destruct (String.eqb_spec k k') as [->|_]; [contradiction|reflexivity].
      * reflexivity.
Qed.

(** The record of a group, when it is built. *)
Lemma aws_cost_data_of_inr (lib : Library) (s e : pyval) (g : Aws.Group) (item : dict) :
  Aws.cost_data_of lib s e g = inr item ->
  exists amount currency quantity unit dims,
    Aws.add_dimensions [] (Aws.keys_of g) = inr dims /\
    item = [ ("start_date", s); ("end_date", e); ("cost_amount", amount);
             ("cost_currency", currency); ("usage_quantity", quantity);
             ("usage_unit", unit); ("dimensions", PDict dims) ].
Proof.
  unfold Aws.cost_data_of, and_then.
  destruct (Aws.metrics_of g) as [?|metrics]; [discriminate|].
  destruct (getitem metrics "BlendedCost") as [?|blended]; [discriminate|].
  destruct (getitem blended "Amount") as [?|amount0]; [discriminate|].
  destruct (Decimal lib amount0) as [?|amount]; [discriminate|].
  destruct (getitem blended "Unit") as [?|currency]; [discriminate|].
  destruct (has_member "UsageQuantity" metrics) as [?|has_usage]; [discriminate|].
  match goal with
  | |- match ?q with _ => _ end = _ -> _ =>
      destruct q as [?|quantity]; [discriminate|]
  end.
  match goal with
  | |- match ?q with _ => _ end = _ -> _ =>
      destruct q as [?|unit]; [discriminate|]
  end.
  destruct (Aws.add_dimensions [] (Aws.keys_of g)) as [?|dims]; [discriminate|].
  intros [= <-]. now exists amount, currency, quantity, unit, dims.
Qed.

Lemma aws_cost_data_of_groups_inr (lib : Library) (s e : pyval)
    (groups : list Aws.Group) (items : list dict) :
  Aws.cost_data_of_groups lib s e groups = inr items ->
  length items = length groups /\
  forall item, In item items ->
    exists g, In g groups /\ Aws.cost_data_of lib s e g = inr item.
Proof.
  revert items. induction groups as [|g groups IH]; intros items; simpl.
  - intros [= <-]. split; [reflexivity|]. intros item [].
  - unfold and_then.
    destruct (Aws.cost_data_of lib s e g) as [?|item0] eqn:Hg; [discriminate|].
    destruct (Aws.cost_data_of_groups lib s e groups) as [?|more]; [discriminate|].
    intros [= <-]. destruct (IH more eq_refl) as [Hlen Hin].
    split; [simpl; now rewrite Hlen|].
    intros item [<-|Hitem]; [eauto|].
    destruct (Hin item Hitem) as (g' & Hg' & Hitem'). eauto.
Qed.

(** One record per group, each with the period of the result it belongs
    to. *)
Lemma aws_cost_data_of_results_inr (lib : Library)
    (results : list Aws.ResultByTime) (items : list dict) :
  Aws.cost_data_of_results lib results = inr items ->
  length items =
    foldr Nat.add 0%nat (List.map (fun r => length (Aws.groups_of r)) results) /\
  forall item, In item items ->
    exists result s e g,
      In result results /\ In g (Aws.groups_of result) /\
      Aws.period_bound result "Start" = inr s /\
      Aws.period_bound result "End" = inr e /\
      Aws.cost_data_of lib s e g = inr item.
Proof.
  revert items. induction results as [|result results IH]; intros items; simpl.
  - intros [= <-]. split; [reflexivity|]. intros item [].
  - unfold and_then at 1. unfold Aws.cost_data_of_result, and_then.
    destruct (Aws.period_bound result "Start") as [?|s] eqn:Hs; [discriminate|].
    destruct (Aws.period_bound result "End") as [?|e] eqn:He; [discriminate|].
    destruct (Aws.cost_data_of_groups lib s e (Aws.groups_of result))
      as [?|here] eqn:Hhere; [discriminate|].
    destruct (Aws.cost_data_of_results lib results) as [?|more]; [discriminate|].
    intros [= <-]. destruct (IH more eq_refl) as [Hlen Hin].
    apply aws_cost_data_of_groups_inr in Hhere as [Hlen' Hin'].
    split; [rewrite length_app, Hlen, Hlen'; reflexivity|].
    intros item Hitem. apply in_app_or in Hitem as [Hitem|Hitem].
    + destruct (Hin' item Hitem) as (g & Hg & Hitem').
      exists result, s, e, g. auto.
    + destruct (Hin item Hitem) as (r' & s' & e' & g & Hr & Hg & Hs' & He' & Hitem').
      exists r', s', e', g. auto.
Qed.



(** X14. A record that [_process_cost_response] returns has a cost amount,
    a currency and a mapping of dimensions: building the arguments of the
    cost record from it raises only for a date of the period that
    [fromisoformat] rejects, never for a missing key. *)
Theorem aws_records_reach_the_constructor (env : Environment) (lib : Library)
    (response : Aws.Response) (records : list dict) (item : dict)
    (provider : string) (w : World) :
  Aws._process_cost_response lib response = inr records ->
  In item records ->
  ((exists e w', cost_record_arguments env item provider w = (inl e, w')) <->
   date_rejected env item "start_date" = true \/
   date_rejected env item "end_date" = true).
Proof.
  unfold Aws._process_cost_response. intros Hrun Hitem.
  apply aws_cost_data_of_results_inr in Hrun as [_ Hin].
  destruct (Hin item Hitem) as (result & s & e & g & _ & _ & _ & _ & Hitem').
  apply aws_cost_data_of_inr in Hitem'
    as (amount & currency & quantity & unit & dims & _ & ->).
  rewrite cost_record_arguments_inl_iff.
  split; [|tauto].
  intros [H|[H|[H|H]]]; try discriminate; exact H.
Qed.

(** The statement at a record of the sample response. *)
Lemma aws_records_reach_the_constructor_witness :
  (exists e w',
     cost_record_arguments Fixture.healthy
       [ ("start_date", PStr "2024-01-01"); ("end_date", PStr "2024-01-02");
         ("cost_amount", PDecimal 1250 (-2)); ("cost_currency", PStr "USD");
         ("usage_quantity", PDecimal 3 0); ("usage_unit", PStr "Hrs");
         ("dimensions", PDict []) ] "aws" Fixture.w0 = (inl e, w')) <->
  date_rejected Fixture.healthy
    [ ("start_date", PStr "2024-01-01"); ("end_date", PStr "2024-01-02");
      ("cost_amount", PDecimal 1250 (-2)); ("cost_currency", PStr "USD");
      ("usage_quantity", PDecimal 3 0); ("usage_unit", PStr "Hrs");
      ("dimensions", PDict []) ] "start_date" = true \/
  date_rejected Fixture.healthy
    [ ("start_date", PStr "2024-01-01"); ("end_date", PStr "2024-01-02");
      ("cost_amount", PDecimal 1250 (-2)); ("cost_currency", PStr "USD");
      ("usage_quantity", PDecimal 3 0); ("usage_unit", PStr "Hrs");
      ("dimensions", PDict []) ] "end_date" = true.
Proof.
  apply (aws_records_reach_the_constructor Fixture.healthy Samples.lib
           Samples.aws_response
           (List.repeat
              [ ("start_date", PStr "2024-01-01"); ("end_date", PStr "2024-01-02");
                ("cost_amount", PDecimal 1250 (-2)); ("cost_currency", PStr "USD");
                ("usage_quantity", PDecimal 3 0); ("usage_unit", PStr "Hrs");
                ("dimensions", PDict []) ] 4)).
  - vm_compute. reflexivity.
  - simpl. now left.
Defined.

(** The dimensions that the loop over the keys can set. *)
Lemma aws_add_dimension_lookup (d d' : dict) (key : pyval) (k : string) :
  Aws.add_dimension d key = inr d' ->
  lookup_key d' k = lookup_key d k \/
  (k = "service" /\ has_member "SERVICE" key = inr true) \/
  (k = "region" /\ has_member "REGION" key = inr true) \/
  (k = "availability_zone" /\ has_member "AZ" key = inr true).
Proof.
  unfold Aws.add_dimension, and_then.
  destruct (has_member "SERVICE" key) as [?|[]]; [discriminate| |].
  { intros [= <-]. rewrite lookup_set_key.
    destruct (String.eqb_spec "service" k) as [<-|_]; auto. }
  destruct (has_member "REGION" key) as [?|[]]; [discriminate| |].
  { intros [= <-]. rewrite lookup_set_key.
    destruct (String.eqb_spec "region" k) as [<-|_]; auto. }
  destruct (has_member "AZ" key) as [?|[]]; [discriminate| |].
  { intros [= <-]. rewrite lookup_set_key.
    destruct (String.eqb_spec "availability_zone" k) as [<-|_]; auto 6. }
  intros [= <-]. now left.
Qed.

Lemma aws_add_dimensions_lookup (keys : list pyval) (d d' : dict) (k : string) :
  Aws.add_dimensions d keys = inr d' ->
  lookup_key d' k = lookup_key d k \/
  exists key, In key keys /\
    ((k = "service" /\ has_member "SERVICE" key = inr true) \/
     (k = "region" /\ has_member "REGION" key = inr true) \/
     (k = "availability_zone" /\ has_member "AZ" key = inr true)).
Proof.
  revert d. induction keys as [|key keys IH]; intros d; simpl.
  - intros [= <-]. now left.
  - unfold and_then. destruct (Aws.add_dimension d key) as [?|d1] eqn:H1; [discriminate|].
    intros Hrest. destruct (IH d1 Hrest) as [Heq|(key' & Hin & Hcase)].
    + destruct (aws_add_dimension_lookup d d1 key k H1) as [Heq1|Hcase].
      * left. congruence.
      * right. exists key. auto.
    + right. exists key'. auto.
Qed.

(** X15. What the normalization makes of a record of the AWS client: the
    resource id is always [None]; the service is 'Unknown' unless a key of
    the group contains the text 'SERVICE', and the region is 'Unknown'
    unless a key contains 'REGION'. *)
Theorem aws_dimensions_seen_by_the_normalizer (env : Environment) (lib : Library)
    (s e : pyval) (g : Aws.Group) (item : dict) (provider : string)
    (w : World) (kwargs : dict) (w' : World) :
  Aws.cost_data_of lib s e g = inr item ->
  cost_record_arguments env item provider w = (inr kwargs, w') ->
  lookup_key kwargs "resource_id" = Some PNone /\
  ((forall key, In key (Aws.keys_of g) -> has_member "SERVICE" key = inr false) ->
   lookup_key kwargs "service" = Some (PStr "Unknown")) /\
  ((forall key, In key (Aws.keys_of g) -> has_member "REGION" key = inr false) ->
   lookup_key kwargs "region" = Some (PStr "Unknown")).
Proof.
  intros Hitem Hargs.
  apply aws_cost_data_of_inr in Hitem
    as (amount & currency & quantity & unit & dims & Hdims & ->).
  apply cost_record_arguments_inr in Hargs
    as (dims' & amount' & currency' & sd & w1 & ed & w2 & Hd & _ & _ & _ & _ & _ & ->).
  injection Hd as <-. unfold keyword_arguments, get. simpl.
  split; [|split].
  - destruct (aws_add_dimensions_lookup _ _ _ "resource_id" Hdims)
      as [->|(key & _ & [[? _]|[[? _]|[? _]]])]; [reflexivity|discriminate..].
  - intros Hno.
    destruct (aws_add_dimensions_lookup _ _ _ "service" Hdims)
      as [->|(key & Hin & [[_ Hm]|[[? _]|[? _]]])]; [reflexivity| |discriminate..].
    rewrite (Hno key Hin) in Hm. discriminate.
  - intros Hno.
    destruct (aws_add_dimensions_lookup _ _ _ "region" Hdims)
      as [->|(key & Hin & [[? _]|[[_ Hm]|[? _]]])]; [reflexivity|discriminate| |discriminate].
    rewrite (Hno key Hin) in Hm. discriminate.
Qed.

(** The statement at a group whose keys are a service name and a region
    name, as Cost Explorer returns them. *)
Lemma aws_dimensions_seen_by_the_normalizer_witness :
  exists kwargs w',
    cost_record_arguments Fixture.healthy
      [ ("start_date", PStr "2024-01-01"); ("end_date", PStr "2024-01-02");
        ("cost_amount", PDecimal 1250 (-2)); ("cost_currency", PStr "USD");
        ("usage_quantity", PDecimal 3 0); ("usage_unit", PStr "Hrs");
        ("dimensions", PDict []) ] "aws" Fixture.w0 = (inr kwargs, w') /\
    lookup_key kwargs "resource_id" = Some PNone /\
    ((forall key, In key (Aws.keys_of Samples.ec2_group) ->
        has_member "SERVICE" key = inr false) ->
     lookup_key kwargs "service" = Some (PStr "Unknown")) /\
    ((forall key, In key (Aws.keys_of Samples.ec2_group) ->
        has_member "REGION" key = inr false) ->
     lookup_key kwargs "region" = Some (PStr "Unknown")).
Proof.
  do 2 eexists. split; [vm_compute; reflexivity|].
  eapply (aws_dimensions_seen_by_the_normalizer Fixture.healthy Samples.lib
            (PStr "2024-01-01") (PStr "2024-01-02") Samples.ec2_group _ "aws"
            Fixture.w0).
  - vm_compute. reflexivity.
  - vm_compute. reflexivity.
Defined.

Lemma aws_failing_result_fails_the_response (lib : Library)
    (results : list Aws.ResultByTime) (result : Aws.ResultByTime) (e : exn) :
  In result results ->
  Aws.cost_data_of_result lib result = inl e ->
  exists e', Aws.cost_data_of_results lib results = inl e'.
Proof.
  induction results as [|r results IH]; intros Hin Hfail; [destruct Hin|].
  simpl. unfold and_then at 1.
  destruct Hin as [->|Hin].
  - rewrite Hfail. eauto.
  - destruct (Aws.cost_data_of_result lib r); [eauto|].
    destruct (IH Hin Hfail) as [e' ->]. eauto.
Qed.

(** X16. A result by time without [TimePeriod] makes
    [_process_cost_response] raise, also when that result has no group and
    the other results are in order: no partial list is returned. *)
Theorem aws_result_without_period_fails_the_response (lib : Library)
    (response : Aws.Response) (result : Aws.ResultByTime) :
  In result (Aws.results_of response) ->
  Aws.ResultTimePeriod result = None ->
  exists e, Aws._process_cost_response lib response = inl e.
Proof.
  intros Hin Hnone. unfold Aws._process_cost_response.
  apply (aws_failing_result_fails_the_response lib _ result (KeyError "TimePeriod"));
    [exact Hin|].
  unfold Aws.cost_data_of_result, Aws.period_bound. now rewrite Hnone.
Qed.

(** The statement at a response whose second result has neither period nor
    group. *)
Lemma aws_result_without_period_fails_the_response_witness :
  exists e,
    Aws._process_cost_response Samples.lib
      (Aws.mkResponse (Some [Samples.january_first; Samples.periodless])) = inl e.
Proof.
  apply (aws_result_without_period_fails_the_response Samples.lib
           (Aws.mkResponse (Some [Samples.january_first; Samples.periodless]))
           Samples.periodless).
  - simpl. auto.
  - reflexivity.
Defined.

(** ** The Azure wire client *)

(** With a token in the cache, no call sends a request. *)
Lemma azure_tokens_cached (n : nat) (svc : Azure.Service) (net : Azure.Network) :
  truthy (Azure.access_token svc) = true ->
  Azure.tokens n svc net = (replicate n (inr (Azure.access_token svc)), svc, net).
Proof.
  intros Ht. induction n as [|n IH]; [reflexivity|].
  simpl. unfold Azure._get_access_token. rewrite Ht, IH. reflexivity.
Qed.

(** The first call of a service without token, by the answer it gets. *)
Lemma azure_get_access_token_fetch (svc : Azure.Service) (net : Azure.Network) :
  truthy (Azure.access_token svc) = false ->
  Azure._get_access_token svc net =
    match
      (response <-- Azure.answer net (length (Azure.sent net))
                      (azure_token_request svc) ;;
       _ <-- match Azure.status_error response with
             | Some e => inl e
             | None => inr tt
             end ;;
       body <-- Azure.json response ;;
       getitem body "access_token")
    with
    | inl e => (inl e, svc, azure_after net [azure_token_request svc])
    | inr t => (inr t, azure_with_token svc t,
                azure_after net [azure_token_request svc])
    end.
Proof.
  intros Ht. unfold Azure._get_access_token. rewrite Ht. reflexivity.
Qed.

(** X17. Once the service holds a token, every later call returns this
    token and sends nothing, whatever the network would answer: the token
    is never renewed. *)
Theorem azure_cached_token_is_never_renewed (n : nat) (svc : Azure.Service)
    (net : Azure.Network) :
  truthy (Azure.access_token svc) = true ->
  Azure.tokens n svc net = (replicate n (inr (Azure.access_token svc)), svc, net).
Proof.
  apply azure_tokens_cached.
Qed.

(** The statement at three calls of a service that holds a token. *)
Lemma azure_cached_token_is_never_renewed_witness :
  Azure.tokens 3 (azure_with_token Samples.azure_service (PStr "eyJ0eXAi"))
    Samples.refusing_once =
  (replicate 3 (inr (PStr "eyJ0eXAi")),
   azure_with_token Samples.azure_service (PStr "eyJ0eXAi"),
   Samples.refusing_once).
Proof.
  apply (azure_cached_token_is_never_renewed 3
           (azure_with_token Samples.azure_service (PStr "eyJ0eXAi"))
           Samples.refusing_once).
  reflexivity.
Defined.

(** X18. A service without token whose request is granted a token sends
    this one request and no other: all the calls that follow return the
    granted token from the cache. *)
Theorem azure_token_is_fetched_once (n : nat) (svc : Azure.Service)
    (net : Azure.Network) (response : Azure.HttpResponse) (body t : pyval) :
  truthy (Azure.access_token svc) = false ->
  Azure.answer net (length (Azure.sent net)) (azure_token_request svc) =
    inr response ->
  Azure.status_error response = None ->
  Azure.json response = inr body ->
  getitem body "access_token" = inr t ->
  truthy t = true ->
  Azure.tokens (S n) svc net =
    (replicate (S n) (inr t), azure_with_token svc t,
     azure_after net [azure_token_request svc]).
Proof.
  intros Hno Hanswer Hstatus Hjson Hitem Ht.
  cbn [Azure.tokens]. rewrite (azure_get_access_token_fetch svc net Hno).
  rewrite Hanswer. cbn [and_then]. rewrite Hstatus. cbn [and_then].
  rewrite Hjson. cbn [and_then]. rewrite Hitem.
  rewrite (azure_tokens_cached n (azure_with_token svc t)) by exact Ht.
  reflexivity.
Qed.

(** The statement at three calls on a network that grants a token. *)
Lemma azure_token_is_fetched_once_witness :
  Azure.tokens 3 Samples.azure_service Samples.granting =
  (replicate 3 (inr (PStr "eyJ0eXAi")),
   azure_with_token Samples.azure_service (PStr "eyJ0eXAi"),
   azure_after Samples.granting [azure_token_request Samples.azure_service]).
Proof.
  apply (azure_token_is_fetched_once 2 Samples.azure_service Samples.granting
           (Azure.mkHttpResponse None (inr Samples.token_body))
           Samples.token_body (PStr "eyJ0eXAi")); reflexivity.
Defined.

(** X19. A request for a token that fails leaves the service as it was,
    and the next call sends the same request again. *)
Theorem azure_failed_fetch_is_retried (svc : Azure.Service) (net : Azure.Network)
    (e : exn) :
  truthy (Azure.access_token svc) = false ->
  (Azure._get_access_token svc net).1.1 = inl e ->
  (Azure._get_access_token svc net).1.2 = svc /\
  Azure.sent (Azure._get_access_token svc net).2 =
    Azure.sent net ++ [azure_token_request svc] /\
  Azure.sent (Azure.tokens 2 svc net).2 =
    Azure.sent net ++ [azure_token_request svc; azure_token_request svc].
Proof.
  intros Hno. cbn [Azure.tokens].
  rewrite (azure_get_access_token_fetch svc net Hno).
  destruct (and_then _ _) as [e'|t]; [|discriminate].
  intros _. cbn [fst snd]. split; [reflexivity|]. split; [reflexivity|].
  rewrite (azure_get_access_token_fetch svc _ Hno).
  destruct (and_then _ _) as [e''|t]; cbn; now rewrite <- app_assoc.
Qed.

(** The statement on a network that refuses the first request. *)
Lemma azure_failed_fetch_is_retried_witness :
  (Azure._get_access_token Samples.azure_service Samples.refusing_once).1.2 =
    Samples.azure_service /\
  Azure.sent (Azure._get_access_token Samples.azure_service Samples.refusing_once).2 =
    Azure.sent Samples.refusing_once ++ [azure_token_request Samples.azure_service] /\
  Azure.sent (Azure.tokens 2 Samples.azure_service Samples.refusing_once).2 =
    Azure.sent Samples.refusing_once ++
      [azure_token_request Samples.azure_service;
       azure_token_request Samples.azure_service].
Proof.
  apply (azure_failed_fetch_is_retried Samples.azure_service Samples.refusing_once
           (Raised "401 Client Error")); reflexivity.
Defined.

(** X20. A filter that names no resource group still constrains the
    resource group: the query requires [ResourceGroupName] to be in the
    empty list, also when the filter only names services. *)
Theorem azure_filter_without_resource_groups (lib : Library)
    (start_date end_date : Z) (granularity : string)
    (group_by : option (list string)) (filters : gmap string (list string)) :
  filters <> ∅ ->
  filters !! "resource_groups" = None ->
  exists e,
    Azure.filter (Azure._build_cost_query lib start_date end_date granularity
                    group_by (Some filters)) = Some e /\
    Azure.Dimensions "ResourceGroupName" "In" [] ∈ Azure.operands e.
Proof.
  intros Hne Hnone. unfold Azure._build_cost_query. cbn [Azure.filter].
  destruct (decide (filters = ∅)) as [?|_]; [contradiction|].
  eexists. split; [reflexivity|].
  unfold Azure._build_filter_expression. rewrite Hnone.
  destruct (filters !! "services"); cbn; apply list_elem_of_here.
Qed.

(** The statement at a filter on one service. *)
Lemma azure_filter_without_resource_groups_witness :
  exists e,
    Azure.filter (Azure._build_cost_query Samples.lib 0 86400000000 "Daily"
                    (Some ["ServiceName"; "ResourceGroupName"])
                    (Some {[ "services" := ["Storage"] ]})) = Some e /\
    Azure.Dimensions "ResourceGroupName" "In" [] ∈ Azure.operands e.
Proof.
  apply (azure_filter_without_resource_groups Samples.lib 0 86400000000 "Daily"
           (Some ["ServiceName"; "ResourceGroupName"])
           {[ "services" := ["Storage"] ]}).
  - apply insert_non_empty.
  - reflexivity.
Defined.

Lemma azure_cost_data_of_rows_inr (lib : Library) (rows : list (list Azure.cell))
    (records : list Azure.CostData) :
  Azure.cost_data_of_rows lib rows = inr records ->
  Forall2 (fun row cost_data => Azure.cost_data_of lib row = inr cost_data)
          rows records.
Proof.
  revert records. induction rows as [|row rows IH]; intros records; simpl.
  - intros [= <-]. constructor.
  - unfold and_then.
    destruct (Azure.cost_data_of lib row) as [?|cost_data] eqn:Hrow; [discriminate|].
    destruct (Azure.cost_data_of_rows lib rows) as [?|more]; [discriminate|].
    intros [= <-]. constructor; auto.
Qed.

Lemma azure_cost_data_of_inr (lib : Library) (row : list Azure.cell)
    (cost_data : Azure.CostData) :
  Azure.cost_data_of lib row = inr cost_data ->
  exists amount,
    cost_data =
      Azure.mkCostData (default Azure.CNull (row !! 0%nat))
                       (default Azure.CNull (row !! 1%nat))
                       amount "USD" PNone PNone
                       (foldl Azure.add_column ∅ (drop 3 row)).
Proof.
  unfold Azure.cost_data_of, and_then.
  destruct (match row !! 2%nat with
            | Some c => Decimal lib (PStr (Azure.cell_str c))
            | None => inr (PDecimal 0 0)
            end) as [?|amount]; [discriminate|].
  intros [= <-]. exists amount.
  destruct (row !! 0%nat), (row !! 1%nat); reflexivity.
Qed.

(** X21. When [_process_cost_response] returns, it returns one record per
    row, in order; each takes its dates from the first two cells of its
    row ([None] for a cell that the row does not have), its currency is
    'USD' and it has neither usage quantity nor usage unit. *)
Theorem azure_one_record_per_row (lib : Library) (data : Azure.Response)
    (records : list Azure.CostData) :
  Azure._process_cost_response lib data = inr records ->
  Forall2 (fun row cost_data =>
             Azure.start_date cost_data = default Azure.CNull (row !! 0%nat) /\
             Azure.end_date cost_data = default Azure.CNull (row !! 1%nat) /\
             Azure.cost_currency cost_data = "USD" /\
             Azure.usage_quantity cost_data = PNone /\
             Azure.usage_unit cost_data = PNone)
          (Azure.rows_of data) records.
Proof.
  unfold Azure._process_cost_response. intros Hrun.
  apply azure_cost_data_of_rows_inr in Hrun.
  eapply Forall2_impl; [exact Hrun|].
  intros row cost_data Hrow. cbv beta in Hrow.
  apply azure_cost_data_of_inr in Hrow as [amount ->]. cbn. auto.
Qed.

(** The statement at a response of two rows. *)
Lemma azure_one_record_per_row_witness :
  exists records,
    Azure._process_cost_response Samples.lib
      (Samples.azure_response [Samples.azure_row; Samples.azure_short_row]) =
      inr records /\
    Forall2 (fun row cost_data =>
               Azure.start_date cost_data = default Azure.CNull (row !! 0%nat) /\
               Azure.end_date cost_data = default Azure.CNull (row !! 1%nat) /\
               Azure.cost_currency cost_data = "USD" /\
               Azure.usage_quantity cost_data = PNone /\
               Azure.usage_unit cost_data = PNone)
            [Samples.azure_row; Samples.azure_short_row] records.
Proof.
  eexists. split; [vm_compute; reflexivity|].
  apply (azure_one_record_per_row Samples.lib
           (Samples.azure_response [Samples.azure_row; Samples.azure_short_row])).
  vm_compute. reflexivity.
Defined.

Lemma azure_short_row_defaults (lib : Library) (row : list Azure.cell) :
  (length row <= 2)%nat ->
  Azure.cost_data_of lib row = inr (azure_defaults row).
Proof.
  intros Hlen. unfold Azure.cost_data_of, azure_defaults.
  rewrite (lookup_ge_None_2 row 2) by lia. cbn [and_then].
  rewrite (drop_ge row 3) by lia. cbn.
  destruct (row !! 0%nat), (row !! 1%nat); reflexivity.
Qed.

(** X22. Rows of fewer than three cells never make
    [_process_cost_response] raise: whatever [Decimal] accepts, each such
    row gives the record with cost [Decimal('0')], the dates that it has
    and no dimension. *)
Theorem azure_short_rows_get_defaults (lib : Library) (data : Azure.Response) :
  Forall (fun row => (length row <= 2)%nat) (Azure.rows_of data) ->
  Azure._process_cost_response lib data =
    inr (azure_defaults <$> Azure.rows_of data).
Proof.
  unfold Azure._process_cost_response.
  induction (Azure.rows_of data) as [|row rows IH]; intros Hshort; [reflexivity|].
  apply Forall_cons in Hshort as [Hrow Hrows].
  simpl. rewrite (azure_short_row_defaults lib row Hrow). cbn [and_then].
  rewrite (IH Hrows). reflexivity.
Qed.

(** The statement at a response with an empty row and a row of two dates. *)
Lemma azure_short_rows_get_defaults_witness :
  Azure._process_cost_response Samples.lib
    (Samples.azure_response [[]; Samples.azure_short_row]) =
  inr (azure_defaults <$> [[]; Samples.azure_short_row]).
Proof.
  apply (azure_short_rows_get_defaults Samples.lib
           (Samples.azure_response [[]; Samples.azure_short_row])).
  repeat constructor.
Defined.

(** X23. One cost cell that [Decimal] rejects (a null, say) makes
    [_process_cost_response] raise for the whole response: the records of
    the other rows are not returned. *)
Theorem azure_bad_cost_cell_fails_the_response (lib : Library)
    (data : Azure.Response) (row : list Azure.cell) (c : Azure.cell) (e : exn) :
  row ∈ Azure.rows_of data ->
  row !! 2%nat = Some c ->
  Decimal lib (PStr (Azure.cell_str c)) = inl e ->
  exists e', Azure._process_cost_response lib data = inl e'.
Proof.
  unfold Azure._process_cost_response. intros Hin Hcell Hbad.
  assert (Hrow : Azure.cost_data_of lib row = inl e).
  { unfold Azure.cost_data_of. rewrite Hcell, Hbad. reflexivity. }
  induction (Azure.rows_of data) as [|r rows IH]; [inversion Hin|].
  simpl. unfold and_then at 1.
  apply elem_of_cons in Hin as [<-|Hin].
  - rewrite Hrow. eauto.
  - destruct (Azure.cost_data_of lib r); [eauto|].
    destruct (IH Hin) as [e' ->]. eauto.
Qed.

(** The statement at a response whose second row has a null cost. *)
Lemma azure_bad_cost_cell_fails_the_response_witness :
  exists e',
    Azure._process_cost_response Samples.lib
      (Samples.azure_response
         [Samples.azure_row; Samples.azure_short_row ++ [Azure.CNull]]) = inl e'.
Proof.
  apply (azure_bad_cost_cell_fails_the_response Samples.lib
           (Samples.azure_response
              [Samples.azure_row; Samples.azure_short_row ++ [Azure.CNull]])
           (Samples.azure_short_row ++ [Azure.CNull]) Azure.CNull
           (Raised "[<class 'decimal.ConversionSyntax'>]")).
  - cbn. apply list_elem_of_further, list_elem_of_here.
  - reflexivity.
  - reflexivity.
Defined.

(** What one column can add to the dimensions. *)
Lemma azure_add_column_lookup (dims : gmap string string) (col : Azure.cell)
    (k s : string) :
  Azure.add_column dims col !! k = Some s ->
  dims !! k = Some s \/
  (col = Azure.CStr s /\ s <> "" /\
   ((k = "resource_id" /\ contains "resource" (lower s) = true) \/
    (k = "service" /\ contains "service" (lower s) = true /\
     contains "resource" (lower s) = false) \/
    (k = "region" /\ contains "location" (lower s) = true /\
     contains "service" (lower s) = false /\
     contains "resource" (lower s) = false))).
Proof.
  unfold Azure.add_column, Azure.nonempty_str.
  destruct col as [| | | |s0]; auto.
  destruct (String.eqb_spec s0 "") as [->|Hne]; auto.
  destruct (contains "resource" (lower s0)) eqn:Hres.
  { destruct (decide (k = "resource_id")) as [->|Hk].
    - rewrite lookup_insert_eq. intros [= <-]. right.
      split; [reflexivity|]. split; [exact Hne|]. left. auto.
    - rewrite lookup_insert_ne by congruence. auto. }
  destruct (contains "service" (lower s0)) eqn:Hsvc.
  { destruct (decide (k = "service")) as [->|Hk].
    - rewrite lookup_insert_eq. intros [= <-]. right.
      split; [reflexivity|]. split; [exact Hne|]. right. left. auto.
    - rewrite lookup_insert_ne by congruence. auto. }
  destruct (contains "location" (lower s0)) eqn:Hloc; auto.
  destruct (decide (k = "region")) as [->|Hk].
  - rewrite lookup_insert_eq. intros [= <-]. right.
    split; [reflexivity|]. split; [exact Hne|]. right. right. auto.
  - rewrite lookup_insert_ne by congruence. auto.
Qed.

Lemma azure_add_columns_lookup (cols : list Azure.cell) (dims : gmap string string)
    (k s : string) :
  foldl Azure.add_column dims cols !! k = Some s ->
  dims !! k = Some s \/
  (Azure.CStr s ∈ cols /\ s <> "" /\
   ((k = "resource_id" /\ contains "resource" (lower s) = true) \/
    (k = "service" /\ contains "service" (lower s) = true /\
     contains "resource" (lower s) = false) \/
    (k = "region" /\ contains "location" (lower s) = true /\
     contains "service" (lower s) = false /\
     contains "resource" (lower s) = false))).
Proof.
  revert dims. induction cols as [|col cols IH]; intros dims; simpl; [auto|].
  intros Hlook. destruct (IH _ Hlook) as [Hhere|(Hin & Hrest)].
  - apply azure_add_column_lookup in Hhere as [Hold|(-> & Hrest)]; [auto|].
    right. split; [apply list_elem_of_here|exact Hrest].
  - right. split; [now apply list_elem_of_further|exact Hrest].
Qed.

(** X24. A dimension of a record is always the text of a non-empty string
    cell that stands after the third cell of the row and contains the
    keyword of its key: 'resource' for [resource_id], 'service' (and not
    'resource') for [service], 'location' (and neither of the others) for
    [region]. There is no other key. *)
Theorem azure_dimensions_need_a_keyword (lib : Library) (row : list Azure.cell)
    (cost_data : Azure.CostData) (k s : string) :
  Azure.cost_data_of lib row = inr cost_data ->
  Azure.dimensions cost_data !! k = Some s ->
  (exists i, (3 <= i)%nat /\ row !! i = Some (Azure.CStr s)) /\
  s <> "" /\
  ((k = "resource_id" /\ contains "resource" (lower s) = true) \/
   (k = "service" /\ contains "service" (lower s) = true /\
    contains "resource" (lower s) = false) \/
   (k = "region" /\ contains "location" (lower s) = true /\
    contains "service" (lower s) = false /\
    contains "resource" (lower s) = false)).
Proof.
  intros Hrow Hdim. apply azure_cost_data_of_inr in Hrow as [amount ->].
  cbn [Azure.dimensions] in Hdim.
  apply azure_add_columns_lookup in Hdim as [Hempty|(Hin & Hne & Hkey)].
  { rewrite lookup_empty in Hempty. discriminate. }
  split; [|auto].
  apply list_elem_of_lookup in Hin as [i Hi]. rewrite lookup_drop in Hi.
  exists (3 + i)%nat. split; [lia|exact Hi].
Qed.

(** The statement at a row grouped by service and resource group. *)
Lemma azure_dimensions_need_a_keyword_witness :
  (exists i, (3 <= i)%nat /\ Samples.azure_row !! i = Some (Azure.CStr "rg-resources")) /\
  "rg-resources" <> "" /\
  (("resource_id" = "resource_id" /\
    contains "resource" (lower "rg-resources") = true) \/
   ("resource_id" = "service" /\ contains "service" (lower "rg-resources") = true /\
    contains "resource" (lower "rg-resources") = false) \/
   ("resource_id" = "region" /\ contains "location" (lower "rg-resources") = true /\
    contains "service" (lower "rg-resources") = false /\
    contains "resource" (lower "rg-resources") = false)).
Proof.
  eapply (azure_dimensions_need_a_keyword Samples.lib Samples.azure_row _
            "resource_id" "rg-resources").
  - vm_compute. reflexivity.
  - vm_compute. reflexivity.
Defined.

(** A name that the settings do not declare has no value. *)
Lemma undeclared_setting_is_none {V} (settings : gmap string V) (name : string) :
  Config.is_settings settings ->
  name ∉ Config.declared_fields ->
  Config.getattr settings name = None.
Proof.
  unfold Config.is_settings, Config.getattr. intros Hdom Hname.
  apply not_elem_of_dom. rewrite Hdom. now rewrite elem_of_list_to_set.
Qed.

Lemma sample_settings_are_settings : Config.is_settings Samples.settings.
Proof.
  unfold Config.is_settings, Samples.settings.
  rewrite dom_list_to_map_L. reflexivity.
Qed.

(** X25. The settings declare no [AZURE_SUBSCRIPTION_ID]: a service built
    from them has no subscription, and every cost query that it sends goes
    to the URL of the subscription 'None'. *)
Theorem azure_query_url_has_no_subscription {V} (text : V -> option string)
    (settings : gmap string V) (lib : Library) (svc : Azure.Service)
    (net : Azure.Network) (start_date end_date : Z) (granularity : string)
    (group_by : option (list string))
    (filter_dimensions : option (gmap string (list string))) :
  Config.is_settings settings ->
  Azure.subscription_id svc = Azure.subscription_id (Azure.init text settings) ->
  Azure.subscription_id
    (Azure.get_cost_data lib svc net start_date end_date granularity group_by
       filter_dimensions).1.2 = None /\
  forall q,
    q ∈ Azure.queries
          (Azure.get_cost_data lib svc net start_date end_date granularity
             group_by filter_dimensions).2 ->
    q ∈ Azure.queries net \/
    Azure.query_url q =
      "https://management.azure.com/subscriptions/None/providers/Microsoft.CostManagement/query?api-version=2023-03-01".
Proof.
  intros Hset Hsub.
  assert (Hnone : Azure.subscription_id svc = None).
  { rewrite Hsub. cbn [Azure.init Azure.subscription_id].
    rewrite (undeclared_setting_is_none settings "AZURE_SUBSCRIPTION_ID" Hset);
      [reflexivity|].
    apply (bool_decide_unpack _). vm_compute. reflexivity. }
  unfold Azure.get_cost_data.
  assert (Htok : Azure.subscription_id (Azure._get_access_token svc net).1.2 = None /\
                 Azure.queries (Azure._get_access_token svc net).2 = Azure.queries net).
  { unfold Azure._get_access_token.
    destruct (truthy (Azure.access_token svc)); [auto|].
    destruct (and_then _ _); cbn; auto. }
  destruct (Azure._get_access_token svc net) as [[[e|token] svc1] net1];
    cbn [fst snd] in *; destruct Htok as [Hsub1 Hq1].
  - split; [exact Hsub1|]. intros q Hq. left. now rewrite <- Hq1.
  - split; [exact Hsub1|]. intros q Hq. cbn [Azure.queries] in Hq.
    apply elem_of_app in Hq as [Hq|Hq]; [left; now rewrite <- Hq1|].
    apply list_elem_of_singleton in Hq as ->. right.
    cbn [Azure.query_url]. unfold Azure.cost_query_url. rewrite Hsub1. reflexivity.
Qed.

(** The statement at the first call of a service built from settings that
    leave every declared field unset. *)
Lemma azure_query_url_has_no_subscription_witness :
  Azure.subscription_id
    (Azure.get_cost_data Samples.lib Samples.azure_service Samples.granting
       0 86400000000 "Daily" (Some ["ServiceName"; "ResourceGroupName"]) None).1.2 =
    None /\
  forall q,
    q ∈ Azure.queries
          (Azure.get_cost_data Samples.lib Samples.azure_service Samples.granting
             0 86400000000 "Daily" (Some ["ServiceName"; "ResourceGroupName"])
             None).2 ->
    q ∈ Azure.queries Samples.granting \/
    Azure.query_url q =
      "https://management.azure.com/subscriptions/None/providers/Microsoft.CostManagement/query?api-version=2023-03-01".
Proof.
  apply (azure_query_url_has_no_subscription id Samples.settings Samples.lib
           Samples.azure_service Samples.granting 0 86400000000 "Daily"
           (Some ["ServiceName"; "ResourceGroupName"]) None).
  - exact sample_settings_are_settings.
  - reflexivity.
Defined.

(** ** The GCP wire client *)

(** The service that the declared settings give. *)
Lemma gcp_init_declared {V} (truth : V -> bool) (settings : gmap string V)
    (connect : V -> option V -> exn + Gcp.Client) :
  Config.is_settings settings ->
  Gcp.init truth settings connect = inr (Gcp.mkService None None None None).
Proof.
  intros Hset. unfold Gcp.init.
  rewrite !(undeclared_setting_is_none settings _ Hset);
    try reflexivity; apply (bool_decide_unpack _); vm_compute; reflexivity.
Qed.

(** X26. The settings declare none of [GCP_PROJECT_ID],
    [GCP_BILLING_ACCOUNT_ID] and [GCP_CREDENTIALS_PATH]: a service built
    from them has no BigQuery client, the construction of the client is
    not attempted, and every call of [get_cost_data] raises the
    [ValueError] about the client, whatever its arguments. *)
Theorem gcp_declared_settings_give_no_client {V} (truth : V -> bool)
    (format : V -> string) (settings : gmap string V)
    (connect : V -> option V -> exn + Gcp.Client) (lib : Library) :
  Config.is_settings settings ->
  exists svc,
    (forall connect', Gcp.init truth settings connect' = inr svc) /\
    Gcp.bq_client svc = None /\
    forall start_date end_date granularity group_by filter_dimensions,
      Gcp.get_cost_data format lib svc start_date end_date granularity group_by
        filter_dimensions =
      inl (ValueError "BigQuery client not initialized. Check GCP credentials.").
Proof.
  intros Hset. exists (Gcp.mkService None None None None).
  split; [intros connect'; now apply gcp_init_declared|].
  split; reflexivity.
Qed.

(** The statement at settings that leave every declared field unset. *)
Lemma gcp_declared_settings_give_no_client_witness :
  exists svc,
    (forall connect', Gcp.init Samples.truth Samples.settings connect' = inr svc) /\
    Gcp.bq_client svc = None /\
    forall start_date end_date granularity group_by filter_dimensions,
      Gcp.get_cost_data Azure.interpolate Samples.lib svc start_date end_date
        granularity group_by filter_dimensions =
      inl (ValueError "BigQuery client not initialized. Check GCP credentials.").
Proof.
  apply (gcp_declared_settings_give_no_client Samples.truth Azure.interpolate
           Samples.settings Samples.connect Samples.lib).
  exact sample_settings_are_settings.
Defined.

(** X27. With the GCP service built from the declared settings, a
    synchronization of all the providers always reports for 'gcp' the error
    entry with the message of the missing client. *)
Theorem gcp_sync_reports_uninitialized_client {V} (truth : V -> bool)
    (format : V -> string) (settings : gmap string V)
    (connect : V -> option V -> exn + Gcp.Client) (lib : Library)
    (svc : Gcp.Service) (env : Environment) (start_date end_date : option Z)
    (w : World) :
  Config.is_settings settings ->
  Gcp.init truth settings connect = inr svc ->
  gcp_get_cost_data env = Gcp.wire format lib svc ->
  exists r w',
    sync_all_providers env start_date end_date None w = (inr r, w') /\
    provider_results r !! "gcp" =
      Some (mkResult "error" 0 None
              (Some "BigQuery client not initialized. Check GCP credentials.")).
Proof.
  intros Hset Hinit Hwire.
  rewrite (gcp_init_declared truth settings connect Hset) in Hinit.
  injection Hinit as <-.
  destruct (sync_all_providers_run env start_date end_date None w) as [w' Hrun].
  eexists. exists w'. split; [exact Hrun|]. cbn [provider_results requested].
  rewrite (stored_results_last env ["aws"; "azure"] [] "gcp" SyncGcp);
    [ | repeat constructor; eexists; reflexivity | reflexivity
      | apply not_elem_of_nil ].
  unfold pipeline_outcome. cbn [fetch]. rewrite Hwire. reflexivity.
Qed.

(** The statement at a deployment whose settings leave every declared
    field unset. *)
Lemma gcp_sync_reports_uninitialized_client_witness :
  exists r w',
    sync_all_providers Samples.deployed None None None Fixture.w0 = (inr r, w') /\
    provider_results r !! "gcp" =
      Some (mkResult "error" 0 None
              (Some "BigQuery client not initialized. Check GCP credentials.")).
Proof.
  apply (gcp_sync_reports_uninitialized_client Samples.truth Azure.interpolate
           Samples.settings Samples.connect Samples.lib Samples.gcp_service
           Samples.deployed None None Fixture.w0).
  - exact sample_settings_are_settings.
  - vm_compute. reflexivity.
  - reflexivity.
Defined.

Lemma append_assoc (a b c : string) : (a +:+ b) +:+ c = a +:+ b +:+ c.
Proof.
  induction a as [|x a IH]; [reflexivity|].
  change (String x ((a +:+ b) +:+ c) = String x (a +:+ b +:+ c)).
  now rewrite IH.
Qed.

Lemma gcp_group_column_known (dimension column : string) :
  Gcp.group_column dimension = Some column ->
  column ∈ gcp_group_columns.
Proof.
  unfold Gcp.group_column, gcp_group_columns.
  repeat (destruct (String.eqb _ _); [intros [= <-]; set_solver|]).
  discriminate.
Qed.

(** The GROUP BY clause, by the columns that it names. *)
Lemma gcp_group_by_clause_columns (group_by : option (list string)) :
  exists columns,
    "DATE(usage_start_time)" ∈ columns /\
    columns ⊆ gcp_group_columns /\
    Gcp.group_by_clause group_by =
      Gcp.nl +:+ "GROUP BY " +:+ String.concat ", " columns.
Proof.
  assert (Hdefault : exists columns,
    "DATE(usage_start_time)" ∈ columns /\
    columns ⊆ gcp_group_columns /\
    Gcp.nl +:+ "GROUP BY DATE(usage_start_time), service.description, location.region, resource.name" =
      Gcp.nl +:+ "GROUP BY " +:+ String.concat ", " columns).
  { exists gcp_group_columns. split; [apply list_elem_of_here|].
    split; reflexivity. }
  unfold Gcp.group_by_clause.
  destruct group_by as [[|d ds]|]; try exact Hdefault.
  destruct (omap Gcp.group_column (d :: ds)) as [|c cs] eqn:Hcols;
    [exact Hdefault|].
  exists ((c :: cs) ++ ["DATE(usage_start_time)"]).
  split; [apply elem_of_app; right; apply list_elem_of_here|].
  split; [|reflexivity].
  intros column Hin. apply elem_of_app in Hin as [Hin|Hin].
  - rewrite <- Hcols in Hin. apply list_elem_of_omap in Hin as (dim & _ & Hdim).
    exact (gcp_group_column_known dim column Hdim).
  - apply list_elem_of_singleton in Hin as ->. apply list_elem_of_here.
Qed.

(** X28. In the text of the billing query, the conditions of a filter on
    services or regions stand after the GROUP BY clause, introduced by
    AND, and not in the WHERE clause. The GROUP BY clause always names the
    day, and names no column other than the day, the service, the region
    and the resource. *)
Theorem gcp_filter_lands_after_group_by (lib : Library) (project_id : string)
    (start_date end_date : Z) (granularity : string)
    (group_by : option (list string)) (filters : gmap string (list string)) :
  is_Some (filters !! "services") \/ is_Some (filters !! "regions") ->
  exists columns,
    "DATE(usage_start_time)" ∈ columns /\
    columns ⊆ gcp_group_columns /\
    Gcp._build_billing_query lib project_id start_date end_date granularity
      group_by (Some filters) =
    Gcp.base_query lib project_id start_date end_date
    +:+ Gcp.nl +:+ "GROUP BY " +:+ String.concat ", " columns
    +:+ Gcp.nl +:+ "AND " +:+ String.concat " AND " (Gcp.conditions filters)
    +:+ Gcp.nl +:+ "ORDER BY usage_date DESC".
Proof.
  intros Hkey.
  destruct (gcp_group_by_clause_columns group_by) as (columns & Hday & Hknown & Hgroup).
  exists columns. split; [exact Hday|]. split; [exact Hknown|].
  unfold Gcp._build_billing_query. rewrite Hgroup.
  assert (Hfilter : Gcp.filter_clause (Some filters) =
                    Gcp.nl +:+ "AND " +:+ String.concat " AND " (Gcp.conditions filters)).
  { unfold Gcp.filter_clause.
    destruct (decide (filters = ∅)) as [->|_].
    { destruct Hkey as [[? H]|[? H]]; rewrite lookup_empty in H; discriminate. }
    unfold Gcp.conditions.
    destruct Hkey as [[v ->]|[v ->]]; [reflexivity|].
    destruct (filters !! "services"); reflexivity. }
  rewrite Hfilter. rewrite !append_assoc. reflexivity.
Qed.

(** The statement at a filter on one service. *)
Lemma gcp_filter_lands_after_group_by_witness :
  exists columns,
    "DATE(usage_start_time)" ∈ columns /\
    columns ⊆ gcp_group_columns /\
    Gcp._build_billing_query Samples.lib "None" 0 86400000000 "DAILY"
      (Some ["service"; "region"]) (Some {[ "services" := ["Compute Engine"] ]}) =
    Gcp.base_query Samples.lib "None" 0 86400000000
    +:+ Gcp.nl +:+ "GROUP BY " +:+ String.concat ", " columns
    +:+ Gcp.nl +:+ "AND "
    +:+ String.concat " AND "
          (Gcp.conditions {[ "services" := ["Compute Engine"] ]})
    +:+ Gcp.nl +:+ "ORDER BY usage_date DESC".
Proof.
  apply (gcp_filter_lands_after_group_by Samples.lib "None" 0 86400000000 "DAILY"
           (Some ["service"; "region"]) {[ "services" := ["Compute Engine"] ]}).
  left. eexists. reflexivity.
Defined.

Lemma gcp_cost_data_of_inr (lib : Library) (row : Gcp.Row) (item : dict) :
  Gcp.cost_data_of lib row = inr item ->
  exists date amount quantity,
    date = match Gcp.usage_date row with
           | Some d => PStr (date_isoformat lib d)
           | None => PNone
           end /\
    item =
      [ ("start_date", date);
        ("end_date", date);
        ("cost_amount", amount);
        ("cost_currency", PStr "USD");
        ("usage_quantity", quantity);
        ("usage_unit", Gcp.optional_str (Gcp.usage_unit row));
        ("dimensions",
         PDict [ ("service", Gcp.optional_str (Gcp.service row));
                 ("region", Gcp.optional_str (Gcp.region row));
                 ("resource_name", Gcp.optional_str (Gcp.resource_name row)) ]) ].
Proof.
  unfold Gcp.cost_data_of, and_then.
  destruct (match Gcp.total_cost row with
            | Some x => if float_truthy x then Gcp.decimal_of_float lib x
                        else inr (PDecimal 0 0)
            | None => inr (PDecimal 0 0)
            end) as [?|amount]; [discriminate|].
  destruct (match Gcp.usage_amount row with
            | Some x => if float_truthy x then Gcp.decimal_of_float lib x
                        else inr PNone
            | None => inr PNone
            end) as [?|quantity]; [discriminate|].
  intros [= <-]. eauto.
Qed.

(** X29. What the normalization makes of a record of the GCP client: the
    resource id is always [None] (the resource is filed under
    [resource_name]), and the service and the region are those of the row
    as they are, so [None] and not 'Unknown' for a column that is NULL. *)
Theorem gcp_dimensions_seen_by_the_normalizer (env : Environment) (lib : Library)
    (row : Gcp.Row) (item : dict) (provider : string) (w : World)
    (kwargs : dict) (w' : World) :
  Gcp.cost_data_of lib row = inr item ->
  cost_record_arguments env item provider w = (inr kwargs, w') ->
  lookup_key kwargs "resource_id" = Some PNone /\
  lookup_key kwargs "service" = Some (Gcp.optional_str (Gcp.service row)) /\
  lookup_key kwargs "region" = Some (Gcp.optional_str (Gcp.region row)).
Proof.
  intros Hitem Hargs.
  apply gcp_cost_data_of_inr in Hitem as (date & amount & quantity & _ & ->).
  apply cost_record_arguments_inr in Hargs
    as (dims' & amount' & currency' & sd & w1 & ed & w2 & Hd & _ & _ & _ & _ & _ & ->).
  injection Hd as <-. auto.
Qed.

(** The statement at a row whose service and region are NULL. *)
Lemma gcp_dimensions_seen_by_the_normalizer_witness :
  exists kwargs w',
    cost_record_arguments Fixture.healthy
      [ ("start_date", PStr "2024-01-01"); ("end_date", PStr "2024-01-01");
        ("cost_amount", PDecimal 0 0); ("cost_currency", PStr "USD");
        ("usage_quantity", PNone); ("usage_unit", PNone);
        ("dimensions", PDict [ ("service", PNone); ("region", PNone);
                               ("resource_name", PNone) ]) ]
      "gcp" Fixture.w0 = (inr kwargs, w') /\
    lookup_key kwargs "resource_id" = Some PNone /\
    lookup_key kwargs "service" = Some PNone /\
    lookup_key kwargs "region" = Some PNone.
Proof.
  do 2 eexists. split; [vm_compute; reflexivity|].
  eapply (gcp_dimensions_seen_by_the_normalizer Fixture.healthy Samples.lib
            (Gcp.mkRow (Some 19723) None None None (Some (mkFloat "0.0")) None None)
            _ "gcp" Fixture.w0).
  - vm_compute. reflexivity.
  - vm_compute. reflexivity.
Defined.

Lemma gcp_cost_data_of_total (lib : Library) (row : Gcp.Row) :
  gcp_decimal_raises lib (Gcp.total_cost row) = false ->
  gcp_decimal_raises lib (Gcp.usage_amount row) = false ->
  exists item, Gcp.cost_data_of lib row = inr item.
Proof.
  unfold gcp_decimal_raises, Gcp.cost_data_of, and_then. intros Hcost Husage.
  destruct (Gcp.total_cost row) as [x|];
    [destruct (float_truthy x); [destruct (Gcp.decimal_of_float lib x); [discriminate|]|]|];
    (destruct (Gcp.usage_amount row) as [y|];
     [destruct (float_truthy y); [destruct (Gcp.decimal_of_float lib y); [discriminate|]|]|]);
    eauto.
Qed.

Lemma gcp_process_billing_results_inr (lib : Library) (results : list Gcp.Row)
    (items : list dict) :
  Gcp._process_billing_results lib results = inr items ->
  Forall2 (fun row item => Gcp.cost_data_of lib row = inr item) results items.
Proof.
  revert items. induction results as [|row results IH]; intros items; simpl.
  - intros [= <-]. constructor.
  - unfold and_then.
    destruct (Gcp.cost_data_of lib row) as [?|item] eqn:Hrow; [discriminate|].
    destruct (Gcp._process_billing_results lib results) as [?|more]; [discriminate|].
    intros [= <-]. constructor; auto.
Qed.

(** X30. [_process_billing_results] returns, with one record per row in
    order, as soon as [Decimal] accepts the text of every cost and usage
    amount that is not zero; a cost or a usage amount that is NULL or zero
    is never given to [Decimal]. The two dates of a record are the day of
    its row, and its currency is 'USD'. *)
Theorem gcp_one_record_per_row (lib : Library) (results : list Gcp.Row) :
  Forall (fun row =>
            gcp_decimal_raises lib (Gcp.total_cost row) = false /\
            gcp_decimal_raises lib (Gcp.usage_amount row) = false) results ->
  exists items,
    Gcp._process_billing_results lib results = inr items /\
    Forall2 (fun row item =>
               lookup_key item "start_date" = lookup_key item "end_date" /\
               lookup_key item "start_date" =
                 Some (match Gcp.usage_date row with
                       | Some d => PStr (date_isoformat lib d)
                       | None => PNone
                       end) /\
               lookup_key item "cost_currency" = Some (PStr "USD"))
            results items.
Proof.
  intros Hok.
  assert (Hrun : exists items, Gcp._process_billing_results lib results = inr items).
  { induction results as [|row results IH]; [simpl; eauto|].
    apply Forall_cons in Hok as [[Hcost Husage] Hrest].
    destruct (gcp_cost_data_of_total lib row Hcost Husage) as [item Hitem].
    destruct (IH Hrest) as [more Hmore].
    simpl. rewrite Hitem. cbn [and_then]. rewrite Hmore. cbn [and_then]. eauto. }
  destruct Hrun as [items Hrun]. exists items. split; [exact Hrun|].
  apply gcp_process_billing_results_inr in Hrun.
  eapply Forall2_impl; [exact Hrun|].
  intros row item Hrow. cbv beta in Hrow.
  apply gcp_cost_data_of_inr in Hrow as (date & amount & quantity & -> & ->).
  auto.
Qed.

(** The statement at two rows, the second one with a cost of zero and no
    usage. *)
Lemma gcp_one_record_per_row_witness :
  exists items,
    Gcp._process_billing_results Samples.lib Samples.gcp_rows = inr items /\
    Forall2 (fun row item =>
               lookup_key item "start_date" = lookup_key item "end_date" /\
               lookup_key item "start_date" =
                 Some (match Gcp.usage_date row with
                       | Some d => PStr (date_isoformat Samples.lib d)
                       | None => PNone
                       end) /\
               lookup_key item "cost_currency" = Some (PStr "USD"))
            Samples.gcp_rows items.
Proof.
  apply (gcp_one_record_per_row Samples.lib Samples.gcp_rows).
  repeat constructor.
Defined.
